(** * ccode-nifty: trend classification and support/resistance detection

    A shallow embedding of [src/src/trend_detector.py]
    ([SimpleTrendDetector.calculate_simple_trend]) and of
    [src/src/support_resistance.py] ([SimpleSRDetector]), with the
    properties the specification states about them; of the two methods of
    [SimpleTrendDetector] that fill the missing trends of a price table;
    and of the helpers of [src/src/recommendation_generator.py] that turn
    trend labels and levels into an action, a stop, targets and a
    confidence, with further properties read off the code.

    Modelling choices.
    - Prices are exact rationals ([Q]); the Python code computes with
      IEEE doubles, so every statement below is about the arithmetic the
      code denotes, without rounding, NaN or infinities.
    - A pandas [DataFrame] is a list of typed bars, the computed columns
      that code assigns into it ([df['ema_3'] = ...]) and its index, the
      labels of the rows.  The frame is a mutable object shared with the
      caller, so the entry points are written in a state-and-exception
      monad over the frame.
    - Python exceptions are values of [exn]; a computation returns
      [Ok v] or [Raise e]. *)

From Stdlib Require Import String List ZArith QArith Qabs Qround.
From Stdlib Require Import Lia Lqa Bool Permutation Sorted.
Import ListNotations.

Local Open Scope string_scope.
Local Open Scope list_scope.
Local Open Scope Q_scope.

(* ================================================================== *)
(** * Python and pandas primitives *)

Inductive exn : Type :=
| IndexError
| KeyError (key : string)
| ValueError.

Inductive result (A : Type) : Type :=
| Ok (a : A)
| Raise (e : exn).
Arguments Ok {A} a.
Arguments Raise {A} e.

(** [x < y] on numbers. *)
Definition Qltb (x y : Q) : bool := negb (Qle_bool y x).

(** The builtin [min(a, b)]: the first argument unless the second is
    strictly smaller. *)
Definition py_min (a b : Q) : Q := if Qltb b a then b else a.

(** [len(l)], [l[-1]], [l[0]], [l[-n:]] / [Series.tail(n)]. *)
Definition iloc_last {A} (l : list A) : result A :=
  match rev l with
  | [] => Raise IndexError
  | x :: _ => Ok x
  end.

Definition iloc_first {A} (l : list A) : result A :=
  match l with
  | [] => Raise IndexError
  | x :: _ => Ok x
  end.

Definition tail {A} (n : nat) (l : list A) : list A :=
  skipn (length l - n) l.

(** [l[:n]] for an integer [n]; a negative [n] counts from the end. *)
Definition slice_to {A} (n : Z) (l : list A) : list A :=
  if (n <? 0)%Z then firstn (length l - Z.to_nat (- n)) l
  else firstn (Z.to_nat n) l.

(** [l[a:b]] for non-negative bounds. *)
Definition slice {A} (a b : nat) (l : list A) : list A :=
  firstn (b - a) (skipn a l).

(** [int(x)] on a float: truncation towards zero. *)
Definition py_int (x : Q) : Z :=
  if Qltb x 0 then Qceiling x else Qfloor x.

(** [sum(l)] and [numpy.mean(l)]. *)
Definition py_sum (l : list Q) : Q := fold_right Qplus 0 l.

Definition np_mean (l : list Q) : Q := py_sum l / inject_Z (Z.of_nat (length l)).

(** [Series.max()] and [Series.min()]: [None] stands for the NaN that
    pandas returns on an empty series. *)
Definition series_max (l : list Q) : option Q :=
  match l with
  | [] => None
  | x :: r => Some (fold_left (fun m y => if Qltb m y then y else m) r x)
  end.

Definition series_min (l : list Q) : option Q :=
  match l with
  | [] => None
  | x :: r => Some (fold_left (fun m y => if Qltb y m then y else m) r x)
  end.

(** Comparisons with NaN are false. *)
Definition gt_nan (x : Q) (m : option Q) : bool :=
  match m with Some y => Qltb y x | None => false end.

Definition lt_nan (x : Q) (m : option Q) : bool :=
  match m with Some y => Qltb x y | None => false end.

(** A stable sort by a key, as [sorted] and [list.sort] are: insertion
    after the last element whose key is not greater.  Any stable sort
    computes the same list. *)
Section StableSort.
Context {A : Type} (leb : A -> A -> bool).

Fixpoint insert (x : A) (l : list A) : list A :=
  match l with
  | [] => [x]
  | y :: r => if leb y x then y :: insert x r else x :: l
  end.

Definition py_sorted (l : list A) : list A :=
  fold_left (fun acc x => insert x acc) l [].
End StableSort.

(* ================================================================== *)
(** * Bars and frames *)

(** One OHLCV row. *)
Record Bar : Type := mkBar {
  datetime : Z;
  open_ : Q;
  high : Q;
  low : Q;
  close : Q;
  volume : Q
}.

(** The frame: its rows, the columns assigned into it by name, and its
    index, one label per row ([df.index]).  The labels are integers: the
    positions 0, 1, ... of a [RangeIndex], or timestamps when the frame is
    indexed by time. *)
Record DataFrame : Type := mkDataFrame {
  rows : list Bar;
  computed : list (string * list Q);
  index : list Z
}.

(** [RangeIndex(n)]: the labels 0, 1, ..., n - 1. *)
Definition range_index (n : nat) : list Z := map Z.of_nat (seq 0 n).

Definition len (df : DataFrame) : nat := length (rows df).

(** [df['high']] and the like. *)
Definition column (f : Bar -> Q) (df : DataFrame) : list Q := map f (rows df).

(** [df[name] = values]: replaces the column in place when it exists,
    appends it otherwise. *)
Fixpoint set_column (name : string) (values : list Q)
                    (cols : list (string * list Q)) : list (string * list Q) :=
  match cols with
  | [] => [(name, values)]
  | (k, w) :: r =>
      if String.eqb k name then (k, values) :: r
      else (k, w) :: set_column name values r
  end.

Fixpoint get_column (name : string) (cols : list (string * list Q))
  : option (list Q) :=
  match cols with
  | [] => None
  | (k, w) :: r => if String.eqb k name then Some w else get_column name r
  end.

(** ** The monad of code that reads and writes its frame argument *)

Definition M (A : Type) : Type := DataFrame -> result A * DataFrame.

Definition ret {A} (a : A) : M A := fun df => (Ok a, df).

Definition bind {A B} (m : M A) (k : A -> M B) : M B :=
  fun df =>
    match m df with
    | (Ok a, df') => k a df'
    | (Raise e, df') => (Raise e, df')
    end.

Definition lift {A} (r : result A) : M A := fun df => (r, df).

Definition read {A} (f : DataFrame -> A) : M A := fun df => (Ok (f df), df).

Definition setitem (name : string) (values : list Q) : M unit :=
  fun df => (Ok tt, mkDataFrame (rows df)
                                (set_column name values (computed df))
                                (index df)).

Definition getitem (name : string) : M (list Q) :=
  fun df =>
    match get_column name (computed df) with
    | Some w => (Ok w, df)
    | None => (Raise (KeyError name), df)
    end.

Notation "x <- m ;; k" := (bind m (fun x => k))
  (at level 61, m at next level, right associativity).
Notation "m ;;; k" := (bind m (fun _ => k))
  (at level 61, right associativity).

(* ================================================================== *)
(** * trend_detector.py *)

Module Trend.

(** [Series.ewm(span=span, adjust=False).mean()]:
    y[0] = x[0], y[t] = (1 - a) * y[t-1] + a * x[t], a = 2 / (span + 1). *)
Definition alpha (span : Z) : Q := 2 / (inject_Z span + 1).

Fixpoint ewm_from (a prev : Q) (xs : list Q) : list Q :=
  match xs with
  | [] => []
  | x :: r => let y := (1 - a) * prev + a * x in y :: ewm_from a y r
  end.

Definition ewm_mean (span : Z) (xs : list Q) : list Q :=
  match xs with
  | [] => []
  | x :: r => x :: ewm_from (alpha span) x r
  end.

(** Lines 39-41: the recent price action. *)
Definition price_change_pct (closes : list Q) : result Q :=
  let recent_prices := tail 5 closes in
  match iloc_last recent_prices, iloc_first recent_prices with
  | Ok l, Ok f =>
      let price_trend := l - f in
      Ok ((price_trend / f) * 100)
  | Raise e, _ => Raise e
  | _, Raise e => Raise e
  end.

(** Lines 45-62: the decision table, before the final [min]. *)
Definition trend_rules (close ema_3 ema_8 ema_20 pct : Q) : string * Q :=
  if Qltb close ema_3 && Qltb ema_3 ema_8 && Qltb ema_8 ema_20
     && Qltb pct (-1) then
    ("DOWNTREND", Qabs ((ema_20 - close) / ema_20) * 100)
  else if Qltb ema_3 close && Qltb ema_8 ema_3 && Qltb ema_20 ema_8
          && Qltb 1 pct then
    ("UPTREND", ((close - ema_20) / ema_20) * 100)
  else if Qltb close ema_8 && Qltb close ema_20 then
    ("DOWNTREND", Qabs ((ema_20 - close) / ema_20) * 100 * 0.7)
  else if Qltb ema_8 close && Qltb ema_20 close then
    ("UPTREND", ((close - ema_20) / ema_20) * 100 * 0.7)
  else
    ("SIDEWAYS", Qabs ((close - ema_20) / ema_20) * 100).

(** [calculate_simple_trend(self, df)]. *)
Definition calculate_simple_trend : M (string * Q) :=
  n <- read len ;;
  if (n <? 20)%nat then ret ("NEUTRAL", 0.0)
  else
    c <- read (column close) ;;
    setitem "ema_3" (ewm_mean 3 c) ;;;
    c <- read (column close) ;;
    setitem "ema_8" (ewm_mean 8 c) ;;;
    c <- read (column close) ;;
    setitem "ema_20" (ewm_mean 20 c) ;;;
    c <- read (column close) ;;
    close_ <- lift (iloc_last c) ;;
    e3 <- getitem "ema_3" ;;
    ema_3 <- lift (iloc_last e3) ;;
    e8 <- getitem "ema_8" ;;
    ema_8 <- lift (iloc_last e8) ;;
    e20 <- getitem "ema_20" ;;
    ema_20 <- lift (iloc_last e20) ;;
    c <- read (column close) ;;
    price_change_pct <- lift (price_change_pct c) ;;
    let '(trend, strength) :=
      trend_rules close_ ema_3 ema_8 ema_20 price_change_pct in
    ret (trend, py_min strength 100.0).

(** The momentum formula as the specification words it:
    (close[last] - close[last-5]) / close[last-5] * 100. *)
Definition spec_momentum (closes : list Q) : Q :=
  let last := (length closes - 1)%nat in
  (nth last closes 0 - nth (last - 5) closes 0) / nth (last - 5) closes 0 * 100.

End Trend.

(* ================================================================== *)
(** * support_resistance.py *)

Module SR.

(** [SimpleSRLevel]. *)
Record SimpleSRLevel : Type := mkLevel {
  price : Q;
  type_ : string;
  touches : nat;
  first_seen : option Z;
  last_seen : option Z;
  is_round_number : bool
}.

(** The attributes [SimpleSRDetector.__init__] stores. *)
Record SimpleSRDetector : Type := mkDetector {
  lookback_bars : nat;
  min_touches : nat;
  cluster_threshold_atr : Q;
  include_round_numbers : bool
}.

(** The constructor's defaults. *)
Definition default_detector : SimpleSRDetector := mkDetector 100 2 0.5 true.

(** The dict a swing point is: [{'index', 'price', 'date'}]. *)
Record Swing : Type := mkSwing {
  sp_index : nat;
  sp_price : Q;
  sp_date : Z
}.

(** The dict [_merge_cluster] returns. *)
Record Cluster : Type := mkCluster {
  cl_price : Q;
  cl_touches : nat;
  cl_first_seen : option Z;
  cl_last_seen : option Z
}.

(** ** calculate_atr *)

Definition Qmax2 (a b : Q) : Q := if Qltb a b then b else a.

(** The true range of each row; the first row has no previous close, and
    the row-wise [max] skips the two NaN it gets there. *)
Fixpoint true_range (prev_close : option Q) (bars : list Bar) : list Q :=
  match bars with
  | [] => []
  | b :: r =>
      let tr1 := high b - low b in
      let tr :=
        match prev_close with
        | None => tr1
        | Some c => Qmax2 (Qmax2 tr1 (Qabs (high b - c))) (Qabs (low b - c))
        end in
      tr :: true_range (Some (close b)) r
  end.

(** [Series.rolling(window).mean()]: NaN ([None]) until the window is
    full. *)
Definition rolling_mean (window : nat) (xs : list Q) : list (option Q) :=
  map (fun i =>
         if (S i <? window)%nat then None
         else Some (np_mean (slice (S i - window) (S i) xs)))
      (seq 0 (length xs)).

Definition calculate_atr (period : nat) (df : DataFrame) : list (option Q) :=
  rolling_mean period (true_range None (rows df)).

(** ** find_swing_points *)

Definition is_swing_high (hs : list Q) (i : nat) : bool :=
  match nth_error hs i with
  | Some h =>
      gt_nan h (series_max (slice (i - 5) i hs))
      && gt_nan h (series_max (slice (i + 1) (i + 6) hs))
  | None => false
  end.

Definition is_swing_low (ls : list Q) (i : nat) : bool :=
  match nth_error ls i with
  | Some l =>
      lt_nan l (series_min (slice (i - 5) i ls))
      && lt_nan l (series_min (slice (i + 1) (i + 6) ls))
  | None => false
  end.

(** The points of one kind, in index order; [range(5, len(recent_df) - 5)]
    is [seq 5 (n - 10)].  After [reset_index()] the index of [recent_df]
    has no name, so the date of a point is read from the row's datetime
    column. *)
Definition swings_of (test : list Q -> nat -> bool) (f : Bar -> Q)
                     (recent_df : list Bar) : list Swing :=
  flat_map (fun i =>
              match nth_error recent_df i with
              | Some row =>
                  if test (map f recent_df) i
                  then [mkSwing i (f row) (datetime row)]
                  else []
              | None => []
              end)
           (seq 5 (length recent_df - 5 - 5)).

Definition find_swing_points (d : SimpleSRDetector) (df : DataFrame)
  : list Swing * list Swing :=
  if (len df <? lookback_bars d)%nat then ([], [])
  else
    let recent_df := tail (lookback_bars d) (rows df) in
    (swings_of is_swing_high high recent_df,
     swings_of is_swing_low low recent_df).

(** ** find_round_numbers *)

Definition increment_for (max_price : Q) : Z :=
  if Qltb 10000 max_price then 500
  else if Qltb 1000 max_price then 50
  else if Qltb 100 max_price then 5
  else 1.

(** The [while current <= max_price] loop; [None] when the fuel is used
    up before the loop condition fails. *)
Fixpoint round_loop (fuel : nat) (min_price max_price : Q)
                    (increment current : Z) : option (list Z) :=
  match fuel with
  | O => None
  | S fuel' =>
      if Qle_bool (inject_Z current) max_price then
        let rest :=
          round_loop fuel' min_price max_price increment
                     (current + increment) in
        if Qle_bool min_price (inject_Z current)
           && Qle_bool (inject_Z current) max_price
           && (current mod (increment * 10) =? 0)%Z
        then option_map (cons current) rest
        else rest
      else Some []
  end.

(** Iterations the loop can make from [start]: [current] grows by at
    least one each time and stops above [max_price]. *)
Definition round_fuel (max_price : Q) (start : Z) : nat :=
  Z.to_nat (Qfloor max_price - start) + 2.

Definition find_round_numbers (d : SimpleSRDetector) (price_range : Q * Q)
  : list Z :=
  if negb (include_round_numbers d) then []
  else
    let '(min_price, max_price) := price_range in
    let increment := increment_for max_price in
    let start := (py_int (min_price / inject_Z increment) * increment)%Z in
    match round_loop (round_fuel max_price start) min_price max_price
                     increment start with
    | Some round_numbers => round_numbers
    | None => []
    end.

(** ** cluster_levels and _merge_cluster *)

Definition list_min (l : list Z) : option Z :=
  match l with
  | [] => None
  | x :: r => Some (fold_left Z.min r x)
  end.

Definition list_max (l : list Z) : option Z :=
  match l with
  | [] => None
  | x :: r => Some (fold_left Z.max r x)
  end.

Definition _merge_cluster (cluster : list Swing) : Cluster :=
  let avg_price := np_mean (map sp_price cluster) in
  let touches := length cluster in
  let dates := map sp_date cluster in
  mkCluster avg_price touches (list_min dates) (list_max dates).

(** The [for level in sorted_levels[1:]] loop and the flush after it. *)
Fixpoint cluster_walk (cluster_threshold : Q) (current_cluster : list Swing)
                      (rest : list Swing) : list Cluster :=
  match rest with
  | [] =>
      match current_cluster with
      | [] => []
      | _ => [_merge_cluster current_cluster]
      end
  | level :: rest' =>
      let cluster_center := np_mean (map sp_price current_cluster) in
      if Qle_bool (Qabs (sp_price level - cluster_center)) cluster_threshold
      then cluster_walk cluster_threshold (current_cluster ++ [level]) rest'
      else _merge_cluster current_cluster
           :: cluster_walk cluster_threshold [level] rest'
  end.

Definition cluster_levels (d : SimpleSRDetector) (levels : list Swing)
                          (atr : Q) : list Cluster :=
  match py_sorted (fun x y => Qle_bool (sp_price x) (sp_price y)) levels with
  | [] => []
  | first :: rest =>
      cluster_walk (atr * cluster_threshold_atr d) [first] rest
  end.

(** ** count_touches *)

Definition near (level_price threshold x : Q) : bool :=
  Qle_bool (level_price - threshold) x && Qle_bool x (level_price + threshold).

Definition count_touches (d : SimpleSRDetector) (df : DataFrame)
                         (level_price atr : Q) : nat :=
  let threshold := atr * cluster_threshold_atr d in
  let high_touches :=
    length (filter (near level_price threshold) (column high df)) in
  let low_touches :=
    length (filter (near level_price threshold) (column low df)) in
  (high_touches + low_touches)%nat.

(** ** detect_sr_levels *)

(** The sort keys of lines 276-277 compare as Python tuples do. *)
Definition key_leb (k1 k2 : Q * Z) : bool :=
  Qltb (fst k1) (fst k2)
  || (Qeq_bool (fst k1) (fst k2) && (snd k1 <=? snd k2)%Z).

Definition resistance_key (current_price : Q) (x : SimpleSRLevel) : Q * Z :=
  (price x - current_price, (- Z.of_nat (touches x))%Z).

Definition support_key (current_price : Q) (x : SimpleSRLevel) : Q * Z :=
  (current_price - price x, (- Z.of_nat (touches x))%Z).

Definition sort_by (key : SimpleSRLevel -> Q * Z) (l : list SimpleSRLevel)
  : list SimpleSRLevel :=
  py_sorted (fun x y => key_leb (key x) (key y)) l.

(** Lines 229-240: swing highs become resistance. *)
Definition swing_resistance (d : SimpleSRDetector) (current_price : Q)
                            (clustered_highs : list Cluster)
  : list SimpleSRLevel :=
  map (fun level =>
         mkLevel (cl_price level) "resistance" (cl_touches level)
                 (cl_first_seen level) (cl_last_seen level) false)
      (filter (fun level =>
                 Qltb current_price (cl_price level)
                 && (min_touches d <=? cl_touches level)%nat)
              clustered_highs).

(** Lines 243-254: swing lows become support. *)
Definition swing_support (d : SimpleSRDetector) (current_price : Q)
                         (clustered_lows : list Cluster)
  : list SimpleSRLevel :=
  map (fun level =>
         mkLevel (cl_price level) "support" (cl_touches level)
                 (cl_first_seen level) (cl_last_seen level) false)
      (filter (fun level =>
                 Qltb (cl_price level) current_price
                 && (min_touches d <=? cl_touches level)%nat)
              clustered_lows).

(** Lines 261-268: the level built for a round number; its dates are the
    first and the last label of the index, [df.index[0]] and
    [df.index[-1]]. *)
Definition round_level (df : DataFrame) (current_price : Q)
                       (round_price : Z) (touches : nat) : SimpleSRLevel :=
  mkLevel (inject_Z round_price)
          (if Qltb current_price (inject_Z round_price)
           then "resistance" else "support")
          touches
          (hd_error (index df))
          (hd_error (rev (index df)))
          true.

(** Lines 257-273: one round of the loop over the round numbers, on the
    pair (resistance_levels, support_levels). *)
Definition add_round_number (d : SimpleSRDetector) (df : DataFrame)
                            (atr current_price : Q)
                            (acc : list SimpleSRLevel * list SimpleSRLevel)
                            (round_price : Z)
  : list SimpleSRLevel * list SimpleSRLevel :=
  let '(resistance_levels, support_levels) := acc in
  let touches := count_touches d df (inject_Z round_price) atr in
  if (min_touches d <=? touches)%nat then
    let level := round_level df current_price round_price touches in
    if Qltb current_price (inject_Z round_price)
    then (resistance_levels ++ [level], support_levels)
    else (resistance_levels, support_levels ++ [level])
  else acc.

(** Lines 224-273: the two lists before they are sorted and cut, as the
    pair (resistance_levels, support_levels). *)
Definition collect_levels (d : SimpleSRDetector) (df : DataFrame)
                          (atr current_price : Q)
                          (highs lows : list Swing) (round_numbers : list Z)
  : list SimpleSRLevel * list SimpleSRLevel :=
  let resistance_levels :=
    match highs with
    | [] => []
    | _ => swing_resistance d current_price (cluster_levels d highs atr)
    end in
  let support_levels :=
    match lows with
    | [] => []
    | _ => swing_support d current_price (cluster_levels d lows atr)
    end in
  fold_left (add_round_number d df atr current_price) round_numbers
            (resistance_levels, support_levels).

Section Detect.

(** [Series.std()], the sample standard deviation: irrational in general,
    so it stays abstract.  It is only called when the rolling ATR of the
    last row is NaN, which takes a frame of fewer than 14 rows. *)
Variable series_std : list Q -> Q.

(** Lines 207-211. *)
Definition atr_or_std (df : DataFrame) : result Q :=
  match iloc_last (calculate_atr 14 df) with
  | Ok (Some atr) => Ok atr
  | Ok None => Ok (series_std (column high df))
  | Raise e => Raise e
  end.

(** Lines 219-222; [float(NaN)] of an empty column reaches [int] in
    [find_round_numbers], which raises. *)
Definition round_numbers_of (d : SimpleSRDetector) (df : DataFrame)
  : result (list Z) :=
  if include_round_numbers d then
    match series_min (column low df), series_max (column high df) with
    | Some lo, Some hi => Ok (find_round_numbers d (lo * 0.95, hi * 1.05))
    | _, _ => Raise ValueError
    end
  else Ok [].

(** [detect_sr_levels(self, df, max_support, max_resistance)]; the result
    is the pair (support, resistance). *)
Definition detect_sr_levels (d : SimpleSRDetector)
                            (max_support max_resistance : Z)
  : M (list SimpleSRLevel * list SimpleSRLevel) :=
  n <- read len ;;
  if (n <? 50)%nat then ret ([], [])
  else
    atr <- (fun df => (atr_or_std df, df)) ;;
    last_row <- (fun df => (iloc_last (rows df), df)) ;;
    let current_price := close last_row in
    swings <- read (find_swing_points d) ;;
    let '(highs, lows) := swings in
    round_numbers <- (fun df => (round_numbers_of d df, df)) ;;
    levels <- read (fun df => collect_levels d df atr current_price
                                             highs lows round_numbers) ;;
    let '(resistance_levels, support_levels) := levels in
    let resistance_levels :=
      sort_by (resistance_key current_price) resistance_levels in
    let support_levels :=
      sort_by (support_key current_price) support_levels in
    ret (slice_to max_support support_levels,
         slice_to max_resistance resistance_levels).

End Detect.

End SR.

(* ================================================================== *)
(** * Example inputs *)

Module Examples.

Import SR.

(** A frame of [n] identical bars at price [p], timestamps 0, 1, ...,
    with a [RangeIndex], as the other examples. *)
Definition flat_frame (n : nat) (p : Q) : DataFrame :=
  mkDataFrame (map (fun i => mkBar (Z.of_nat i) p p p p 1000) (seq 0 n)) []
              (range_index n).

(** Twenty bars closing at 1, 2, ..., 20. *)
Definition rising20 : DataFrame :=
  mkDataFrame
    (map (fun i => let c := inject_Z (Z.of_nat (S i)) in
                   mkBar (Z.of_nat i) c (c + 1) (c / 2) c 1000)
         (seq 0 20)) [] (range_index 20).

(** A hundred bars around 10 with two equal peaks of 25 at rows 20 and 40
    and a last bar that closes at 32, above both peaks. *)
Definition two_peaks_bar (i : nat) : Bar :=
  if ((i =? 20) || (i =? 40))%nat then mkBar (Z.of_nat i) 10 25 9 10 1000
  else if (i =? 99)%nat then mkBar (Z.of_nat i) 32 33 31.5 32 1000
  else mkBar (Z.of_nat i) 10 11 9 10 1000.

Definition two_peaks : DataFrame :=
  mkDataFrame (map two_peaks_bar (seq 0 100)) [] (range_index 100).

(** The fallback deviation used where the ATR is defined anyway. *)
Definition no_std : list Q -> Q := fun _ => 0.

(** Four swing points, out of price order, and a detector whose only
    difference from the default is a multiplier of 0.75. *)
Definition four_swings : list Swing :=
  [mkSwing 30 12.5 30; mkSwing 10 10 10; mkSwing 40 20 40; mkSwing 20 11 20].

Definition wide_detector : SimpleSRDetector := mkDetector 100 2 0.75 true.

End Examples.

(* ================================================================== *)
(** * Vocabulary of the statements *)

(** The series the specification calls valid: strictly ascending
    timestamps and positive prices. *)
Fixpoint ascending (ts : list Z) : bool :=
  match ts with
  | a :: ((b :: _) as r) => (a <? b)%Z && ascending r
  | _ => true
  end.

Definition positive_bar (b : Bar) : bool :=
  Qltb 0 (open_ b) && Qltb 0 (high b) && Qltb 0 (low b) && Qltb 0 (close b).

Definition valid_series (df : DataFrame) : bool :=
  ascending (map datetime (rows df)) && forallb positive_bar (rows df).

(** The frame a call on at least 20 rows leaves behind. *)
Definition with_emas (df : DataFrame) : DataFrame :=
  let c := column close df in
  mkDataFrame (rows df)
    (set_column "ema_20" (Trend.ewm_mean 20 c)
       (set_column "ema_8" (Trend.ewm_mean 8 c)
          (set_column "ema_3" (Trend.ewm_mean 3 c) (computed df))))
    (index df).

(** The percent change the code computes, by position. *)
Definition change4 (c : list Q) : Q :=
  let last := (length c - 1)%nat in
  (nth last c 0 - nth (last - 4) c 0) / nth (last - 4) c 0 * 100.

(** The round-number loop of [detect_sr_levels]: its test of line 260 and
    the level it builds. *)
Definition enough_touches (d : SR.SimpleSRDetector) (df : DataFrame) (atr : Q)
                          (round_price : Z) : bool :=
  (SR.min_touches d <=? SR.count_touches d df (inject_Z round_price) atr)%nat.

Definition round_level_of (d : SR.SimpleSRDetector) (df : DataFrame)
                          (atr current_price : Q) (round_price : Z)
  : SR.SimpleSRLevel :=
  SR.round_level df current_price round_price
                 (SR.count_touches d df (inject_Z round_price) atr).

(** The levels a cluster of swing lows or highs is turned into. *)
Definition support_of (c : SR.Cluster) : SR.SimpleSRLevel :=
  SR.mkLevel (SR.cl_price c) "support" (SR.cl_touches c)
             (SR.cl_first_seen c) (SR.cl_last_seen c) false.

Definition resistance_of (c : SR.Cluster) : SR.SimpleSRLevel :=
  SR.mkLevel (SR.cl_price c) "resistance" (SR.cl_touches c)
             (SR.cl_first_seen c) (SR.cl_last_seen c) false.

(** A cluster of swing points that has the touches line 232 or 246 asks
    for, and the level a round number with the touches of line 260 is
    turned into. *)
Definition swing_candidate (d : SR.SimpleSRDetector) (atr : Q)
                           (swings : list SR.Swing) (c : SR.Cluster) : Prop :=
  In c (SR.cluster_levels d swings atr)
  /\ (SR.min_touches d <= SR.cl_touches c)%nat.

Definition round_candidate (d : SR.SimpleSRDetector) (df : DataFrame)
                           (atr cur : Q) (rn : list Z) (rp : Z)
                           (l : SR.SimpleSRLevel) : Prop :=
  In rp rn /\ enough_touches d df atr rp = true
  /\ l = round_level_of d df atr cur rp.

(** How the candidates are split.  The support candidates are exactly the
    clusters of swing lows below the price and the round numbers below
    it, together with a round number that equals the price, if there is
    one; the resistance candidates are exactly the clusters of swing highs
    above the price and the round numbers above it. *)
Definition split_by_origin (d : SR.SimpleSRDetector) (df : DataFrame)
                           (atr cur : Q) (highs lows : list SR.Swing)
                           (rn : list Z)
                           (resistance support : list SR.SimpleSRLevel)
  : Prop :=
  (forall l,
      In l support <->
      (exists c, swing_candidate d atr lows c
                 /\ SR.cl_price c < cur /\ l = support_of c)
      \/ (exists rp, round_candidate d df atr cur rn rp l
                     /\ inject_Z rp < cur)
      \/ (exists rp, round_candidate d df atr cur rn rp l
                     /\ inject_Z rp == cur)) /\
  (forall l,
      In l resistance <->
      (exists c, swing_candidate d atr highs c
                 /\ cur < SR.cl_price c /\ l = resistance_of c)
      \/ (exists rp, round_candidate d df atr cur rn rp l
                     /\ cur < inject_Z rp)).

(** The count the specification words for [count_touches]: the bars whose
    high or low is within the band; and the bars with both inside. *)
Definition touching_bars (d : SR.SimpleSRDetector) (df : DataFrame)
                         (level_price atr : Q) : nat :=
  let t := atr * SR.cluster_threshold_atr d in
  length (filter (fun b => SR.near level_price t (high b)
                           || SR.near level_price t (low b)) (rows df)).

Definition bars_touching_twice (d : SR.SimpleSRDetector) (df : DataFrame)
                               (level_price atr : Q) : nat :=
  let t := atr * SR.cluster_threshold_atr d in
  length (filter (fun b => SR.near level_price t (high b)
                           && SR.near level_price t (low b)) (rows df)).

(** The length of a list as a rational, the divisor of [np_mean]. *)
Definition qlen (l : list Q) : Q := inject_Z (Z.of_nat (length l)).

(** Ascending by price, the order [cluster_levels] sorts into. *)
Definition by_price (x y : SR.Swing) : Prop := SR.sp_price x <= SR.sp_price y.

Definition price_leb (x y : SR.Swing) : bool :=
  Qle_bool (SR.sp_price x) (SR.sp_price y).

(* ================================================================== *)
(** * support_resistance.py: the summary *)

(** [SimpleSRDetector.get_sr_summary] (support_resistance.py, lines
    283-310). *)
Module Summary.

Import SR.

(** How a call ends: besides the exceptions of the frame accesses, the
    division of two Python floats raises on a zero divisor. *)
Inductive outcome (A : Type) : Type :=
| Returns (a : A)
| Raises (e : exn)
| RaisesZeroDivisionError.
Arguments Returns {A} a.
Arguments Raises {A} e.
Arguments RaisesZeroDivisionError {A}.

(** An entry of [summary['support_levels']] or
    [summary['resistance_levels']]. *)
Record Entry : Type := mkEntry {
  e_price : Q;
  e_distance : string;
  e_touches : nat;
  e_round : bool
}.

Record SRSummary : Type := mkSummary {
  current_price : Q;
  support_levels : list Entry;
  resistance_levels : list Entry
}.

Section GetSummary.

Variable series_std : list Q -> Q.

(** The format spec [.1f] on a finite number; it stays abstract. *)
Variable format_1f : Q -> string.

(** [f"{num / den * 100:.1f}%"].  The price of a round-number level is a
    Python int, which makes [num / den] a division of Python floats: it
    raises on a zero divisor.  The price of a swing level is a
    [numpy.float64], whose division by zero warns and gives an infinity
    or NaN. *)
Definition percent (num den : Q) (python_floats : bool) : outcome string :=
  if Qeq_bool den 0 then
    if python_floats then RaisesZeroDivisionError
    else Returns (String.append
                    (if Qeq_bool num 0 then "nan"
                     else if Qltb num 0 then "-inf" else "inf") "%")
  else Returns (String.append (format_1f (num / den * 100)) "%").

(** Lines 295-300 and 303-308: the dict built for one level. *)
Definition support_entry (current_price : Q) (s : SimpleSRLevel)
  : outcome Entry :=
  match percent (current_price - price s) (price s) (is_round_number s) with
  | Returns distance =>
      Returns (mkEntry (price s) distance (touches s) (is_round_number s))
  | Raises e => Raises e
  | RaisesZeroDivisionError => RaisesZeroDivisionError
  end.

Definition resistance_entry (current_price : Q) (r : SimpleSRLevel)
  : outcome Entry :=
  match percent (price r - current_price) current_price (is_round_number r)
  with
  | Returns distance =>
      Returns (mkEntry (price r) distance (touches r) (is_round_number r))
  | Raises e => Raises e
  | RaisesZeroDivisionError => RaisesZeroDivisionError
  end.

(** The two [for] loops: entries are appended until one raises. *)
Fixpoint entries (f : SimpleSRLevel -> outcome Entry)
                 (levels : list SimpleSRLevel) : outcome (list Entry) :=
  match levels with
  | [] => Returns []
  | level :: rest =>
      match f level with
      | Returns e =>
          match entries f rest with
          | Returns es => Returns (e :: es)
          | Raises ex => Raises ex
          | RaisesZeroDivisionError => RaisesZeroDivisionError
          end
      | Raises ex => Raises ex
      | RaisesZeroDivisionError => RaisesZeroDivisionError
      end
  end.

(** [get_sr_summary(self, df)]: the outcome and the frame afterwards. *)
Definition get_sr_summary (d : SimpleSRDetector) (df : DataFrame)
  : outcome SRSummary * DataFrame :=
  match detect_sr_levels series_std d 3 3 df with
  | (Raise e, df') => (Raises e, df')
  | (Ok (support, resistance), df') =>
      match iloc_last (rows df') with
      | Raise e => (Raises e, df')
      | Ok last_row =>
          let current_price := close last_row in
          match entries (support_entry current_price) support with
          | Returns ss =>
              match entries (resistance_entry current_price) resistance with
              | Returns rs => (Returns (mkSummary current_price ss rs), df')
              | Raises e => (Raises e, df')
              | RaisesZeroDivisionError => (RaisesZeroDivisionError, df')
              end
          | Raises e => (Raises e, df')
          | RaisesZeroDivisionError => (RaisesZeroDivisionError, df')
          end
      end
  end.

End GetSummary.

End Summary.

(* ================================================================== *)
(** * recommendation_generator.py *)

(** The helpers of [RecommendationGenerator] that turn the trend labels
    and the levels of [detect_sr_levels] into an action, a stop, targets
    and a confidence (recommendation_generator.py, lines 260-300). *)
Module Recommendation.

(** A dict with string keys, as the list of its items. *)
Definition dict (V : Type) : Type := list (string * V).

(** [d.get(key)]: [None] for a missing key. *)
Fixpoint dict_get {V} (key : string) (d : dict V) : option V :=
  match d with
  | [] => None
  | (k, v) :: r => if String.eqb k key then Some v else dict_get key r
  end.

(** The truth value of [sr_levels.get(key)]: a level that is missing,
    [None] or zero counts as absent; otherwise [sr_levels[key]] is read. *)
Definition present (key : string) (sr_levels : dict (option Q)) : option Q :=
  match dict_get key sr_levels with
  | Some (Some x) => if Qeq_bool x 0 then None else Some x
  | _ => None
  end.

(** [sum(1 for k, v in trends.items() if v == label)] and
    [list(trends.values()).count(label)]. *)
Definition count_label (label : string) (trends : dict string) : nat :=
  length (filter (fun kv => String.eqb (snd kv) label) trends).

(** [determine_action(self, trends, sr_levels, current_price)]. *)
Definition determine_action (trends : dict string)
                            (sr_levels : dict (option Q))
                            (current_price : Q) : string :=
  let uptrends := count_label "UPTREND" trends in
  let downtrends := count_label "DOWNTREND" trends in
  if (downtrends <? uptrends)%nat then "BUY"
  else if (uptrends <? downtrends)%nat then "SELL"
  else "HOLD".

(** [calculate_stop_loss(self, current_price, sr_levels)]. *)
Definition calculate_stop_loss (current_price : Q)
                               (sr_levels : dict (option Q)) : Q :=
  match present "support_1" sr_levels with
  | Some support_1 => support_1 * 0.995
  | None => current_price * 0.98
  end.

(** [calculate_target(self, current_price, sr_levels, target_num)]. *)
Definition calculate_target (current_price : Q)
                            (sr_levels : dict (option Q))
                            (target_num : Z) : Q :=
  match (target_num =? 1)%Z, present "resistance_1" sr_levels with
  | true, Some resistance_1 => resistance_1 * 0.995
  | _, _ =>
      match (target_num =? 2)%Z, present "resistance_2" sr_levels with
      | true, Some resistance_2 => resistance_2 * 0.995
      | _, _ =>
          if (target_num =? 1)%Z then current_price * 1.01
          else current_price * 1.02
      end
  end.

(** [round(x)] to an integer: halves go to the even neighbour. *)
Definition round_half_even (x : Q) : Z :=
  let f := Qfloor x in
  let r := x - inject_Z f in
  if Qltb r (1 # 2) then f
  else if Qltb (1 # 2) r then (f + 1)%Z
  else if Z.even f then f else (f + 1)%Z.

(** [round(x, 1)]. *)
Definition py_round1 (x : Q) : Q := inject_Z (round_half_even (x * 10)) / 10.

(** [calculate_confidence(self, trends)]. *)
Definition calculate_confidence (trends : dict string) : Q :=
  let uptrends := count_label "UPTREND" trends in
  let downtrends := count_label "DOWNTREND" trends in
  let alignment :=
    match trends with
    | [] => 0
    | _ => inject_Z (Z.of_nat (Nat.max uptrends downtrends))
           / inject_Z (Z.of_nat (length trends))
    end in
  py_round1 (alignment * 100).

End Recommendation.

(** The dict with every UPTREND turned into DOWNTREND and back. *)
Definition mirror_label (label : string) : string :=
  if String.eqb label "UPTREND" then "DOWNTREND"
  else if String.eqb label "DOWNTREND" then "UPTREND"
  else label.

Definition mirror_trends (trends : Recommendation.dict string)
  : Recommendation.dict string :=
  map (fun kv => (fst kv, mirror_label (snd kv))) trends.

Definition mirror_action (action : string) : string :=
  if String.eqb action "BUY" then "SELL"
  else if String.eqb action "SELL" then "BUY"
  else action.

(* ================================================================== *)
(** * trend_detector.py: the missing trends of the intraday table *)

(** [SimpleTrendDetector.update_missing_trends] (trend_detector.py, lines
    66-144): the table [dhanhq.price_data] behind the connection is the
    state. *)
Module TrendStore.

(** The columns of [dhanhq.price_data] the method reads and writes. *)
Record PriceRow : Type := mkPriceRow {
  security_id : string;
  interval_minutes : Z;
  pr_datetime : Z;
  pr_open : Q;
  pr_high : Q;
  pr_low : Q;
  pr_close : Q;
  pr_volume : Q;
  simple_trend : option string;
  simple_trend_strength : option Q
}.

(** The connection: the table as last committed, and as the open
    transaction sees it. *)
Record Connection : Type := mkConnection {
  committed : list PriceRow;
  pending : list PriceRow
}.

Definition commit (conn : Connection) : Connection :=
  mkConnection (pending conn) (pending conn).

Definition rollback (conn : Connection) : Connection :=
  mkConnection (committed conn) (committed conn).

(** [WHERE security_id = %s AND interval_minutes = %s]. *)
Definition selected (sec : string) (interval : Z) (r : PriceRow) : bool :=
  String.eqb (security_id r) sec && (interval_minutes r =? interval)%Z.

Definition is_null {A} (v : option A) : bool :=
  match v with None => true | Some _ => false end.

(** Lines 73-82: the dates of the rows without a trend, ascending. *)
Definition missing_dates (sec : string) (interval : Z) (t : list PriceRow)
  : list Z :=
  map pr_datetime
      (py_sorted (fun a b => (pr_datetime a <=? pr_datetime b)%Z)
         (filter (fun r => selected sec interval r
                           && is_null (simple_trend r)) t)).

Definition bar_of (r : PriceRow) : Bar :=
  mkBar (pr_datetime r) (pr_open r) (pr_high r) (pr_low r) (pr_close r)
        (pr_volume r).

(** Lines 90-100: the 50 latest rows at or before the target date, latest
    first. *)
Definition context_rows (sec : string) (interval : Z) (target_date : Z)
                        (t : list PriceRow) : list Bar :=
  map bar_of
      (firstn 50
         (py_sorted (fun a b => (pr_datetime b <=? pr_datetime a)%Z)
            (filter (fun r => selected sec interval r
                              && (pr_datetime r <=? target_date)%Z) t))).

(** Lines 114-116: the frame.  [pd.DataFrame(rows, columns=[...])] labels the
    rows 0, 1, ..., and [sort_values('datetime')] reorders them together
    with their labels. *)
Definition frame_of (rows : list Bar) : DataFrame :=
  let labelled :=
    py_sorted (fun a b => (datetime (snd a) <=? datetime (snd b))%Z)
              (combine (range_index (length rows)) rows) in
  mkDataFrame (map snd labelled) [] (map fst labelled).

Definition with_trend (r : PriceRow) (trend : string) (strength : Q)
  : PriceRow :=
  mkPriceRow (security_id r) (interval_minutes r) (pr_datetime r)
             (pr_open r) (pr_high r) (pr_low r) (pr_close r) (pr_volume r)
             (Some trend) (Some strength).

(** The two [UPDATE] statements: the new table and [cur.rowcount]. *)
Definition set_trend (sec : string) (interval : Z) (target_date : Z)
                     (trend : string) (strength : Q) (t : list PriceRow)
  : list PriceRow * nat :=
  (map (fun r => if selected sec interval r
                    && (pr_datetime r =? target_date)%Z
                 then with_trend r trend strength else r) t,
   length (filter (fun r => selected sec interval r
                            && (pr_datetime r =? target_date)%Z) t)).

(** Lines 88-134: one round of the loop over the missing dates; on an
    exception the connection is returned as it then is. *)
Definition process_date (sec : string) (interval : Z) (conn : Connection)
                        (updated_count : nat) (target_date : Z)
  : Connection * result nat :=
  let rows := context_rows sec interval target_date (pending conn) in
  let computed :=
    if (length rows <? 20)%nat then Ok ("NEUTRAL", 0)
    else fst (Trend.calculate_simple_trend (frame_of rows)) in
  match computed with
  | Raise e => (conn, Raise e)
  | Ok (trend, strength) =>
      let '(t, rowcount) :=
        set_trend sec interval target_date trend strength (pending conn) in
      let conn := mkConnection (committed conn) t in
      let updated_count := (updated_count + rowcount)%nat in
      (if (updated_count mod 100 =? 0)%nat then commit conn else conn,
       Ok updated_count)
  end.

Fixpoint process_dates (sec : string) (interval : Z) (dates : list Z)
                       (conn : Connection) (updated_count : nat)
  : Connection * result nat :=
  match dates with
  | [] => (conn, Ok updated_count)
  | target_date :: rest =>
      match process_date sec interval conn updated_count target_date with
      | (conn, Ok updated_count) =>
          process_dates sec interval rest conn updated_count
      | (conn, Raise e) => (conn, Raise e)
      end
  end.

(** [update_missing_trends(self, security_id, interval_minutes)]: what it
    returns or raises, and the connection afterwards. *)
Definition update_missing_trends (sec : string) (interval : Z)
                                 (conn : Connection)
  : result nat * Connection :=
  match missing_dates sec interval (pending conn) with
  | [] => (Ok 0%nat, conn)
  | dates =>
      match process_dates sec interval dates conn 0 with
      | (conn, Ok updated_count) => (Ok updated_count, commit conn)
      | (conn, Raise e) => (Raise e, rollback conn)
      end
  end.

End TrendStore.

(* ================================================================== *)
(** * trend_detector.py: the missing trends of the daily table *)

(** [SimpleTrendDetector.update_missing_daily_trends] (trend_detector.py,
    lines 146-216): the same over the table [dhanhq.price_data_daily],
    whose rows have a date and no interval. *)
Module DailyTrendStore.

(** The columns of [dhanhq.price_data_daily] the method reads and writes. *)
Record DailyRow : Type := mkDailyRow {
  security_id : string;
  dr_date : Z;
  dr_open : Q;
  dr_high : Q;
  dr_low : Q;
  dr_close : Q;
  dr_volume : Q;
  simple_trend : option string;
  simple_trend_strength : option Q
}.

(** The connection: the table as last committed, and as the open
    transaction sees it. *)
Record Connection : Type := mkConnection {
  committed : list DailyRow;
  pending : list DailyRow
}.

Definition commit (conn : Connection) : Connection :=
  mkConnection (pending conn) (pending conn).

Definition rollback (conn : Connection) : Connection :=
  mkConnection (committed conn) (committed conn).

(** [WHERE security_id = %s]. *)
Definition selected (sec : string) (r : DailyRow) : bool :=
  String.eqb (security_id r) sec.

Definition is_null {A} (v : option A) : bool :=
  match v with None => true | Some _ => false end.

(** Lines 153-161: the dates of the rows without a trend, ascending. *)
Definition missing_dates (sec : string) (t : list DailyRow) : list Z :=
  map dr_date
      (py_sorted (fun a b => (dr_date a <=? dr_date b)%Z)
         (filter (fun r => selected sec r && is_null (simple_trend r)) t)).

Definition bar_of (r : DailyRow) : Bar :=
  mkBar (dr_date r) (dr_open r) (dr_high r) (dr_low r) (dr_close r)
        (dr_volume r).

(** Lines 169-178: the 50 latest rows at or before the target date, latest
    first. *)
Definition context_rows (sec : string) (target_date : Z) (t : list DailyRow)
  : list Bar :=
  map bar_of
      (firstn 50
         (py_sorted (fun a b => (dr_date b <=? dr_date a)%Z)
            (filter (fun r => selected sec r
                              && (dr_date r <=? target_date)%Z) t))).

(** Lines 191-193: the frame.  [pd.DataFrame(rows, columns=[...])] labels the
    rows 0, 1, ..., and [sort_values('datetime')] reorders them together
    with their labels. *)
Definition frame_of (rows : list Bar) : DataFrame :=
  let labelled :=
    py_sorted (fun a b => (datetime (snd a) <=? datetime (snd b))%Z)
              (combine (range_index (length rows)) rows) in
  mkDataFrame (map snd labelled) [] (map fst labelled).

Definition with_trend (r : DailyRow) (trend : string) (strength : Q)
  : DailyRow :=
  mkDailyRow (security_id r) (dr_date r) (dr_open r) (dr_high r) (dr_low r)
             (dr_close r) (dr_volume r) (Some trend) (Some strength).

(** The two [UPDATE] statements: the new table and [cur.rowcount]. *)
Definition set_trend (sec : string) (target_date : Z) (trend : string)
                     (strength : Q) (t : list DailyRow)
  : list DailyRow * nat :=
  (map (fun r => if selected sec r && (dr_date r =? target_date)%Z
                 then with_trend r trend strength else r) t,
   length (filter (fun r => selected sec r && (dr_date r =? target_date)%Z)
                  t)).

(** Lines 167-206: one round of the loop over the missing dates; on an
    exception the connection is returned as it then is.  Nothing is
    committed inside this loop. *)
Definition process_date (sec : string) (conn : Connection)
                        (updated_count : nat) (target_date : Z)
  : Connection * result nat :=
  let rows := context_rows sec target_date (pending conn) in
  let computed :=
    if (length rows <? 20)%nat then Ok ("NEUTRAL", 0)
    else fst (Trend.calculate_simple_trend (frame_of rows)) in
  match computed with
  | Raise e => (conn, Raise e)
  | Ok (trend, strength) =>
      let '(t, rowcount) :=
        set_trend sec target_date trend strength (pending conn) in
      let conn := mkConnection (committed conn) t in
      let updated_count := (updated_count + rowcount)%nat in
      (conn, Ok updated_count)
  end.

Fixpoint process_dates (sec : string) (dates : list Z) (conn : Connection)
                       (updated_count : nat) : Connection * result nat :=
  match dates with
  | [] => (conn, Ok updated_count)
  | target_date :: rest =>
      match process_date sec conn updated_count target_date with
      | (conn, Ok updated_count) =>
          process_dates sec rest conn updated_count
      | (conn, Raise e) => (conn, Raise e)
      end
  end.

(** [update_missing_daily_trends(self, security_id)]: what it returns or
    raises, and the connection afterwards. *)
Definition update_missing_daily_trends (sec : string) (conn : Connection)
  : result nat * Connection :=
  match missing_dates sec (pending conn) with
  | [] => (Ok 0%nat, conn)
  | dates =>
      match process_dates sec dates conn 0 with
      | (conn, Ok updated_count) => (Ok updated_count, commit conn)
      | (conn, Raise e) => (Raise e, rollback conn)
      end
  end.

End DailyTrendStore.

(* ================================================================== *)
(** * Vocabulary of the further properties *)

(** The label read from the close and the two slower averages alone. *)
Definition label_by_ema_8_20 (close_ ema_8 ema_20 : Q) : string :=
  if Qltb close_ ema_8 && Qltb close_ ema_20 then "DOWNTREND"
  else if Qltb ema_8 close_ && Qltb ema_20 close_ then "UPTREND"
  else "SIDEWAYS".

(** The value a column has in the last row. *)
Definition last_of (l : list Q) : Q := nth (length l - 1) l 0.

(** The strength that goes with a label before the 0.7 of the weak rules
    and the cap at 100: the distance of the close from the 20-span
    average, in percent of that average. *)
Definition full_strength (label : string) (close_ ema_20 : Q) : Q :=
  if String.eqb label "DOWNTREND" then Qabs ((ema_20 - close_) / ema_20) * 100
  else if String.eqb label "UPTREND" then ((close_ - ema_20) / ema_20) * 100
  else Qabs ((close_ - ema_20) / ema_20) * 100.

(** The close and the three averages strictly in order, and the five-bar
    momentum beyond one percent in the same direction. *)
Definition strong_move (close_ ema_3 ema_8 ema_20 pct : Q) : bool :=
  (Qltb close_ ema_3 && Qltb ema_3 ema_8 && Qltb ema_8 ema_20
   && Qltb pct (-1))
  || (Qltb ema_3 close_ && Qltb ema_8 ema_3 && Qltb ema_20 ema_8
      && Qltb 1 pct).

(** Two columns, the second the first in another unit: every entry [k]
    times the entry of the same row. *)
Definition scaled_by (k : Q) (xs ys : list Q) : Prop :=
  Forall2 (fun x y => y == k * x) xs ys.

(** The order of the returned lists: nearer to the current price first,
    and of two levels at one price the one with more touches first. *)
Definition nearer_support (a b : SR.SimpleSRLevel) : Prop :=
  SR.price b < SR.price a
  \/ (SR.price a == SR.price b /\ (SR.touches b <= SR.touches a)%nat).

Definition nearer_resistance (a b : SR.SimpleSRLevel) : Prop :=
  SR.price a < SR.price b
  \/ (SR.price a == SR.price b /\ (SR.touches b <= SR.touches a)%nat).

(** Two swing points of one kind, the first at least six rows before the
    second. *)
Definition six_rows_apart (a b : SR.Swing) : Prop :=
  (SR.sp_index a + 6 <= SR.sp_index b)%nat.

(** The key the table is unique on. *)
Definition row_key (r : TrendStore.PriceRow) : string * Z * Z :=
  (TrendStore.security_id r, TrendStore.interval_minutes r,
   TrendStore.pr_datetime r).

Definition unique_rows (t : list TrendStore.PriceRow) : Prop :=
  NoDup (map row_key t).

(** A change of the table that touches the two trend columns only. *)
Definition trend_only (g : TrendStore.PriceRow -> TrendStore.PriceRow) : Prop :=
  forall r trend strength,
    TrendStore.with_trend (g r) trend strength
    = TrendStore.with_trend r trend strength.

(** The rows an [UPDATE] for one date reaches. *)
Definition hit (sec : string) (interval : Z) (target_date : Z)
               (r : TrendStore.PriceRow) : bool :=
  TrendStore.selected sec interval r
  && (TrendStore.pr_datetime r =? target_date)%Z.

(** The rows [update_missing_trends] is there to fill. *)
Definition lacks_trend (sec : string) (interval : Z)
                       (r : TrendStore.PriceRow) : bool :=
  TrendStore.selected sec interval r
  && TrendStore.is_null (TrendStore.simple_trend r).

(** The trend of a date: NEUTRAL with strength 0 on fewer than 20 rows of
    context, what [calculate_simple_trend] returns otherwise. *)
Definition trend_at (sec : string) (interval : Z)
                    (t : list TrendStore.PriceRow) (target_date : Z)
  : string * Q :=
  let rows := TrendStore.context_rows sec interval target_date t in
  if (length rows <? 20)%nat then ("NEUTRAL", 0)
  else match fst (Trend.calculate_simple_trend (TrendStore.frame_of rows))
       with
       | Ok computed => computed
       | Raise _ => ("NEUTRAL", 0)
       end.

Definition filled (sec : string) (interval : Z)
                  (t : list TrendStore.PriceRow) (r : TrendStore.PriceRow)
  : TrendStore.PriceRow :=
  if lacks_trend sec interval r then
    TrendStore.with_trend r
      (fst (trend_at sec interval t (TrendStore.pr_datetime r)))
      (snd (trend_at sec interval t (TrendStore.pr_datetime r)))
  else r.

(** What a call does to the connection and returns: nothing and 0 when no
    row lacks a trend; otherwise every such row is filled with the trend
    of its date, everything is committed and the number of filled rows
    is returned.  No row lacks a trend afterwards, and the trend of a
    date is NEUTRAL on fewer than 20 rows of context and the result of
    [calculate_simple_trend] on its context otherwise. *)
Definition fills_the_gaps (sec : string) (interval : Z)
                          (conn : TrendStore.Connection) : Prop :=
  let t := TrendStore.pending conn in
  let missing := filter (lacks_trend sec interval) t in
  (missing = [] ->
   TrendStore.update_missing_trends sec interval conn = (Ok 0%nat, conn))
  /\ (missing <> [] ->
      TrendStore.update_missing_trends sec interval conn
      = (Ok (length missing),
         TrendStore.mkConnection (map (filled sec interval t) t)
                                 (map (filled sec interval t) t)))
  /\ Forall (fun r => lacks_trend sec interval r = false)
            (map (filled sec interval t) t)
  /\ (forall d rows,
        rows = TrendStore.context_rows sec interval d t ->
        ((length rows < 20)%nat ->
         trend_at sec interval t d = ("NEUTRAL", 0))
        /\ ((20 <= length rows)%nat ->
            fst (Trend.calculate_simple_trend (TrendStore.frame_of rows))
            = Ok (trend_at sec interval t d))).

(** A connection with one row to fill, one filled row and one row of
    another security. *)
Definition three_rows : TrendStore.Connection :=
  let t :=
    [TrendStore.mkPriceRow "15380" 15 1 10 11 9 10 1000 None None;
     TrendStore.mkPriceRow "15380" 15 2 10 12 9 11 1000
                           (Some "UPTREND") (Some 1);
     TrendStore.mkPriceRow "99" 15 1 50 51 49 50 1000 None None] in
  TrendStore.mkConnection t t.

(** The key the table is unique on. *)
Definition day_key (r : DailyTrendStore.DailyRow) : string * Z :=
  (DailyTrendStore.security_id r, DailyTrendStore.dr_date r).

Definition unique_days (t : list DailyTrendStore.DailyRow) : Prop :=
  NoDup (map day_key t).

(** A change of the table that touches the two trend columns only. *)
Definition trend_only_daily
           (g : DailyTrendStore.DailyRow -> DailyTrendStore.DailyRow) : Prop :=
  forall r trend strength,
    DailyTrendStore.with_trend (g r) trend strength
    = DailyTrendStore.with_trend r trend strength.

(** The rows an [UPDATE] for one date reaches. *)
Definition hit_daily (sec : string) (target_date : Z)
                     (r : DailyTrendStore.DailyRow) : bool :=
  DailyTrendStore.selected sec r
  && (DailyTrendStore.dr_date r =? target_date)%Z.

(** The rows [update_missing_daily_trends] is there to fill. *)
Definition lacks_daily_trend (sec : string) (r : DailyTrendStore.DailyRow)
  : bool :=
  DailyTrendStore.selected sec r
  && DailyTrendStore.is_null (DailyTrendStore.simple_trend r).

(** The trend of a date: NEUTRAL with strength 0 on fewer than 20 rows of
    context, what [calculate_simple_trend] returns otherwise. *)
Definition daily_trend_at (sec : string) (t : list DailyTrendStore.DailyRow)
                          (target_date : Z) : string * Q :=
  let rows := DailyTrendStore.context_rows sec target_date t in
  if (length rows <? 20)%nat then ("NEUTRAL", 0)
  else match fst (Trend.calculate_simple_trend
                    (DailyTrendStore.frame_of rows)) with
       | Ok computed => computed
       | Raise _ => ("NEUTRAL", 0)
       end.

Definition daily_filled (sec : string) (t : list DailyTrendStore.DailyRow)
                        (r : DailyTrendStore.DailyRow)
  : DailyTrendStore.DailyRow :=
  if lacks_daily_trend sec r then
    DailyTrendStore.with_trend r
      (fst (daily_trend_at sec t (DailyTrendStore.dr_date r)))
      (snd (daily_trend_at sec t (DailyTrendStore.dr_date r)))
  else r.

(** What a call does to the connection and returns: nothing and 0 when no
    row lacks a trend; otherwise every such row is filled with the trend
    of its date, everything is committed and the number of filled rows is
    returned.  No row lacks a trend afterwards, and the trend of a
    date is NEUTRAL on fewer than 20 rows of context and the result of
    [calculate_simple_trend] on its context otherwise. *)
Definition fills_the_daily_gaps (sec : string)
                                (conn : DailyTrendStore.Connection) : Prop :=
  let t := DailyTrendStore.pending conn in
  let missing := filter (lacks_daily_trend sec) t in
  (missing = [] ->
   DailyTrendStore.update_missing_daily_trends sec conn = (Ok 0%nat, conn))
  /\ (missing <> [] ->
      DailyTrendStore.update_missing_daily_trends sec conn
      = (Ok (length missing),
         DailyTrendStore.mkConnection (map (daily_filled sec t) t)
                                      (map (daily_filled sec t) t)))
  /\ Forall (fun r => lacks_daily_trend sec r = false)
            (map (daily_filled sec t) t)
  /\ (forall d rows,
        rows = DailyTrendStore.context_rows sec d t ->
        ((length rows < 20)%nat ->
         daily_trend_at sec t d = ("NEUTRAL", 0))
        /\ ((20 <= length rows)%nat ->
            fst (Trend.calculate_simple_trend
                   (DailyTrendStore.frame_of rows))
            = Ok (daily_trend_at sec t d))).

(** A daily table with one row to fill, one filled row and one row of
    another security. *)
Definition three_days : DailyTrendStore.Connection :=
  let t :=
    [DailyTrendStore.mkDailyRow "15380" 1 10 11 9 10 1000 None None;
     DailyTrendStore.mkDailyRow "15380" 2 10 12 9 11 1000
                                (Some "UPTREND") (Some 1);
     DailyTrendStore.mkDailyRow "99" 1 50 51 49 50 1000 None None] in
  DailyTrendStore.mkConnection t t.

(** Twenty bars closing at 20, 19, ..., 1. *)
Definition falling20 : DataFrame :=
  mkDataFrame
    (map (fun i => let c := inject_Z (Z.of_nat (20 - i)) in
                   mkBar (Z.of_nat i) c (c + 1) (c / 2) c 1000)
         (seq 0 20)) [] (range_index 20).

(** Two swing lows one point apart. *)
Definition two_swings : list SR.Swing :=
  [SR.mkSwing 30 101 30; SR.mkSwing 10 100 10].

(** [rising20] quoted in a unit half the size: closes 2, 4, ..., 40. *)
Definition rising20_doubled : DataFrame :=
  mkDataFrame
    (map (fun b => mkBar (datetime b) (2 * open_ b) (2 * high b)
                         (2 * low b) (2 * close b) (volume b))
         (rows Examples.rising20)) [] (index Examples.rising20).

(** A rendering of numbers that prints nothing. *)
Definition no_format : Q -> string := fun _ => "".

(** The levels handed to the stop and the targets: one support below a
    price of 100, one resistance above it. *)
Definition levels_around_100 : Recommendation.dict (option Q) :=
  [("support_1", Some 95); ("support_2", None); ("support_3", None);
   ("resistance_1", Some 110); ("resistance_2", None);
   ("resistance_3", None)].

(* ================================================================== *)
(** * Properties of the primitives *)

Lemma Qltb_true (x y : Q) : Qltb x y = true <-> x < y.
Proof.
  unfold Qltb. rewrite negb_true_iff. split; intro H.
  - apply Qnot_le_lt. intro C. apply Qle_bool_iff in C. congruence.
  - destruct (Qle_bool y x) eqn:E; [|reflexivity].
    apply Qle_bool_iff in E. exfalso. eapply Qlt_not_le; eauto.
Qed.

Lemma Qltb_false (x y : Q) : Qltb x y = false <-> y <= x.
Proof.
  unfold Qltb. rewrite negb_false_iff. apply Qle_bool_iff.
Qed.

Lemma py_min_le (a b : Q) : py_min a b <= b.
Proof.
  unfold py_min. destruct (Qltb b a) eqn:E.
  - apply Qle_refl.
  - apply Qltb_false in E. exact E.
Qed.

Lemma py_min_nonneg (a b : Q) : 0 <= a -> 0 <= b -> 0 <= py_min a b.
Proof.
  intros Ha Hb. unfold py_min. destruct (Qltb b a); assumption.
Qed.

Lemma iloc_last_app {A} (l : list A) (x : A) : iloc_last (l ++ [x]) = Ok x.
Proof.
  unfold iloc_last. rewrite rev_app_distr. reflexivity.
Qed.

Lemma iloc_last_nth {A} (l : list A) (dflt : A) :
  l <> [] -> iloc_last l = Ok (nth (length l - 1) l dflt).
Proof.
  intro H. destruct (exists_last H) as [l' [x ->]].
  rewrite iloc_last_app, length_app, app_nth2 by (simpl; lia).
  simpl. replace (length l' + 1 - 1 - length l')%nat with 0%nat by lia.
  reflexivity.
Qed.

Lemma iloc_last_In {A} (l : list A) (x : A) : iloc_last l = Ok x -> In x l.
Proof.
  unfold iloc_last. intro H. apply in_rev.
  destruct (rev l); [discriminate|]. injection H as ->. now left.
Qed.

Lemma get_set_same name v cols :
  get_column name (set_column name v cols) = Some v.
Proof.
  induction cols as [|[k w] r IH]; simpl.
  - now rewrite String.eqb_refl.
  - destruct (String.eqb k name) eqn:E; simpl; rewrite E; auto.
Qed.

Lemma get_set_other name k v cols :
  k <> name -> get_column k (set_column name v cols) = get_column k cols.
Proof.
  intro Hne. induction cols as [|[k' w] r IH]; simpl.
  - destruct (String.eqb name k) eqn:E; [|reflexivity].
    apply String.eqb_eq in E. congruence.
  - destruct (String.eqb k' name) eqn:E; simpl.
    + apply String.eqb_eq in E. subst k'.
      destruct (String.eqb name k) eqn:E'; [|reflexivity].
      apply String.eqb_eq in E'. congruence.
    + now rewrite IH.
Qed.

(* ================================================================== *)
(** * Properties of the trend classifier *)

Section TrendFacts.

Import Trend.

Lemma valid_series_closes df :
  valid_series df = true -> Forall (fun c => 0 < c) (column close df).
Proof.
  unfold valid_series, column. intro H.
  apply andb_true_iff in H as [_ H]. rewrite forallb_forall in H.
  apply Forall_forall. intros c Hc. apply in_map_iff in Hc as [b [<- Hb]].
  specialize (H b Hb). unfold positive_bar in H.
  apply andb_true_iff in H as [_ H]. now apply Qltb_true.
Qed.

(** ** The moving averages *)

Lemma ewm_from_length a prev xs : length (ewm_from a prev xs) = length xs.
Proof.
  revert prev. induction xs as [|x r IH]; intro prev; simpl; auto.
Qed.

Lemma ewm_mean_length span xs : length (ewm_mean span xs) = length xs.
Proof.
  destruct xs; simpl; [reflexivity|]. now rewrite ewm_from_length.
Qed.

Lemma ewm_from_pos a prev xs :
  0 < a -> a <= 1 -> 0 < prev -> Forall (fun c => 0 < c) xs ->
  Forall (fun c => 0 < c) (ewm_from a prev xs).
Proof.
  intros Ha Ha1. revert prev.
  induction xs as [|x r IH]; intros prev Hp Hxs; simpl; constructor.
  - inversion Hxs; subst. nra.
  - inversion Hxs; subst. apply IH; [nra|assumption].
Qed.

Lemma ewm_mean_pos span xs :
  (1 <= span)%Z -> Forall (fun c => 0 < c) xs ->
  Forall (fun c => 0 < c) (ewm_mean span xs).
Proof.
  intros Hs Hxs. destruct xs as [|x r]; simpl; [constructor|].
  inversion Hxs; subst. constructor; [assumption|].
  assert (Hd : 0 < inject_Z span + 1).
  { assert (0 <= inject_Z span) by (change 0 with (inject_Z 0);
      rewrite <- Zle_Qle; lia). lra. }
  apply ewm_from_pos; try assumption; unfold alpha.
  - apply Qlt_shift_div_l; [assumption|lra].
  - apply Qle_shift_div_r; [assumption|].
    assert (1 <= inject_Z span) by (change 1 with (inject_Z 1);
      rewrite <- Zle_Qle; lia). lra.
Qed.

(** ** The decision table *)

Lemma trend_rules_label c e3 e8 e20 pct :
  In (fst (trend_rules c e3 e8 e20 pct)) ["UPTREND"; "DOWNTREND"; "SIDEWAYS"].
Proof.
  unfold trend_rules.
  repeat match goal with
         | |- context [if ?b then _ else _] => destruct b
         end; simpl; auto.
Qed.

Lemma ratio_nonneg (x y : Q) : 0 < y -> y < x -> 0 <= (x - y) / y.
Proof.
  intros Hy Hxy. apply Qle_shift_div_l; [assumption|lra].
Qed.

Lemma trend_rules_strength c e3 e8 e20 pct :
  0 < e20 -> 0 <= snd (trend_rules c e3 e8 e20 pct).
Proof.
  intro He. unfold trend_rules.
  destruct (Qltb c e3 && Qltb e3 e8 && Qltb e8 e20 && Qltb pct (-1)) eqn:R1.
  { cbn [snd]. pose proof (Qabs_nonneg ((e20 - c) / e20)). lra. }
  destruct (Qltb e3 c && Qltb e8 e3 && Qltb e20 e8 && Qltb 1 pct) eqn:R2.
  { cbn [snd]. repeat rewrite andb_true_iff in R2.
    destruct R2 as [[[H1 H2] H3] _].
    apply Qltb_true in H1, H2, H3.
    assert (0 <= (c - e20) / e20) by (apply ratio_nonneg; lra). lra. }
  destruct (Qltb c e8 && Qltb c e20) eqn:R3.
  { cbn [snd]. pose proof (Qabs_nonneg ((e20 - c) / e20)). lra. }
  destruct (Qltb e8 c && Qltb e20 c) eqn:R4.
  { cbn [snd]. apply andb_true_iff in R4 as [_ H]. apply Qltb_true in H.
    assert (0 <= (c - e20) / e20) by (apply ratio_nonneg; lra). lra. }
  cbn [snd]. pose proof (Qabs_nonneg ((c - e20) / e20)). lra.
Qed.

(** ** What a call computes *)

Lemma price_change_pct_nth (c : list Q) :
  (5 <= length c)%nat -> price_change_pct c = Ok (change4 c).
Proof.
  intro H. unfold price_change_pct, change4, tail.
  assert (Hl : length (skipn (length c - 5) c) = 5%nat)
    by (rewrite length_skipn; lia).
  remember (skipn (length c - 5) c) as t eqn:Et.
  destruct t as [|x0 [|x1 [|x2 [|x3 [|x4 [|? ?]]]]]]; try discriminate.
  assert (Ec : c = firstn (length c - 5) c ++ [x0; x1; x2; x3; x4])
    by (rewrite Et; symmetry; apply firstn_skipn).
  assert (Hf : length (firstn (length c - 5) c) = (length c - 5)%nat)
    by (rewrite length_firstn; lia).
  set (p := firstn (length c - 5) c) in *.
  assert (N1 : nth (length c - 1) c 0 = x4).
  { rewrite Ec at 2. rewrite app_nth2 by lia. rewrite Hf.
    replace (length c - 1 - (length c - 5))%nat with 4%nat by lia.
    reflexivity. }
  assert (N2 : nth (length c - 1 - 4) c 0 = x0).
  { rewrite Ec at 2. rewrite app_nth2 by lia. rewrite Hf.
    replace (length c - 1 - 4 - (length c - 5))%nat with 0%nat by lia.
    reflexivity. }
  rewrite N1, N2. reflexivity.
Qed.

Lemma calculate_simple_trend_short df :
  (len df < 20)%nat -> calculate_simple_trend df = (Ok ("NEUTRAL", 0.0), df).
Proof.
  intro H. unfold calculate_simple_trend, bind, read, ret.
  apply Nat.ltb_lt in H. now rewrite H.
Qed.

Lemma calculate_simple_trend_long df :
  (20 <= len df)%nat ->
  let c := column close df in
  let last := (length c - 1)%nat in
  let rules :=
    trend_rules (nth last c 0)
                (nth last (ewm_mean 3 c) 0)
                (nth last (ewm_mean 8 c) 0)
                (nth last (ewm_mean 20 c) 0)
                (change4 c) in
  calculate_simple_trend df
  = (Ok (fst rules, py_min (snd rules) 100.0), with_emas df).
Proof.
  intros H c last rules.
  assert (Hc : length c = len df) by (unfold c, column; apply length_map).
  assert (Hne : forall span, ewm_mean span c <> []).
  { intros span E. apply (f_equal (@length Q)) in E.
    rewrite ewm_mean_length in E. simpl in E. lia. }
  assert (Hlast : forall span,
             iloc_last (ewm_mean span c)
             = Ok (nth last (ewm_mean span c) 0)).
  { intro span. rewrite (iloc_last_nth _ 0) by apply Hne.
    now rewrite ewm_mean_length. }
  assert (Hcl : iloc_last c = Ok (nth last c 0)).
  { apply iloc_last_nth. intro E. rewrite E in Hc. simpl in Hc. lia. }
  unfold calculate_simple_trend, bind, read, ret, lift, setitem, getitem.
  assert (Hb : (len df <? 20)%nat = false) by (apply Nat.ltb_ge; exact H).
  rewrite Hb. cbn [rows computed column].
  fold c. unfold column. cbn [rows]. fold (column close df). fold c.
  rewrite Hcl.
  rewrite (get_set_other "ema_20" "ema_3") by discriminate.
  rewrite (get_set_other "ema_8" "ema_3") by discriminate.
  rewrite get_set_same, Hlast. cbn [computed rows].
  rewrite (get_set_other "ema_20" "ema_8") by discriminate.
  rewrite get_set_same, Hlast. cbn [computed rows].
  rewrite get_set_same, Hlast. cbn [computed rows].
  fold (column close df). fold c.
  rewrite price_change_pct_nth by lia.
  fold rules. destruct rules as [trend strength]. reflexivity.
Qed.

End TrendFacts.

(** C2: on a valid series (ascending timestamps, positive prices) of at
    least 20 bars, [calculate_simple_trend] returns normally with a label
    among UPTREND, DOWNTREND, SIDEWAYS, NEUTRAL and a strength in the
    closed interval from 0 to 100. *)
Theorem trend_label_and_strength_range (df : DataFrame) :
  valid_series df = true -> (20 <= len df)%nat ->
  exists trend strength df',
    Trend.calculate_simple_trend df = (Ok (trend, strength), df') /\
    In trend ["UPTREND"; "DOWNTREND"; "SIDEWAYS"; "NEUTRAL"] /\
    0 <= strength /\ strength <= 100.
Proof.
  intros Hv Hn.
  pose proof (calculate_simple_trend_long df Hn) as E. cbv zeta in E.
  set (c := column close df) in *.
  set (last := (length c - 1)%nat) in *.
  set (rules := Trend.trend_rules _ _ _ _ _) in E.
  exists (fst rules), (py_min (snd rules) 100.0), (with_emas df).
  split; [exact E|]. split; [|split].
  - pose proof (trend_rules_label (nth last c 0)
                  (nth last (Trend.ewm_mean 3 c) 0)
                  (nth last (Trend.ewm_mean 8 c) 0)
                  (nth last (Trend.ewm_mean 20 c) 0) (change4 c)) as L.
    fold rules in L. simpl in L |- *. tauto.
  - apply py_min_nonneg; [|lra].
    apply trend_rules_strength.
    assert (P : Forall (fun x => 0 < x) (Trend.ewm_mean 20 c))
      by (apply ewm_mean_pos; [lia|now apply valid_series_closes]).
    rewrite Forall_forall in P. apply P. apply nth_In.
    rewrite ewm_mean_length. unfold last.
    assert (length c = len df) by (unfold c, column; apply length_map). lia.
  - eapply Qle_trans; [apply py_min_le|lra].
Qed.

Lemma trend_label_and_strength_range_witness :
  exists trend strength df',
    Trend.calculate_simple_trend Examples.rising20
    = (Ok (trend, strength), df') /\
    In trend ["UPTREND"; "DOWNTREND"; "SIDEWAYS"; "NEUTRAL"] /\
    0 <= strength /\ strength <= 100.
Proof.
  apply (trend_label_and_strength_range Examples.rising20).
  - vm_compute. reflexivity.
  - vm_compute. repeat constructor.
Defined.

(** C3, as stated: the momentum is the change since [close[last-5]].
    On twenty closes 1, 2, ..., 20 the code computes (20 - 16) / 16 * 100
    = 25, while the stated formula gives (20 - 15) / 15 * 100. *)
Lemma momentum_is_not_change_since_last_minus_5 :
  let c := column close Examples.rising20 in
  (20 <= length c)%nat /\
  exists m, Trend.price_change_pct c = Ok m /\ ~ m == Trend.spec_momentum c.
Proof.
  split.
  - vm_compute. repeat constructor.
  - eexists. split; [reflexivity|].
    vm_compute. discriminate.
Qed.

(** C3, amended: on at least 20 bars the momentum that the decision table
    compares with -1 and +1 is (close[last] - close[last-4]) /
    close[last-4] * 100, the change from the first to the last of the
    trailing 5 closes. *)
Theorem momentum_is_change_over_last_5_closes (df : DataFrame) :
  (20 <= len df)%nat ->
  let c := column close df in
  let last := (length c - 1)%nat in
  let m := (nth last c 0 - nth (last - 4) c 0) / nth (last - 4) c 0 * 100 in
  Trend.price_change_pct c = Ok m /\
  let rules :=
    Trend.trend_rules (nth last c 0)
                      (nth last (Trend.ewm_mean 3 c) 0)
                      (nth last (Trend.ewm_mean 8 c) 0)
                      (nth last (Trend.ewm_mean 20 c) 0) m in
  fst (Trend.calculate_simple_trend df)
  = Ok (fst rules, py_min (snd rules) 100.0).
Proof.
  intros H c last m. split.
  - apply price_change_pct_nth.
    unfold c, column. rewrite length_map. unfold len in H. lia.
  - cbv zeta. rewrite (calculate_simple_trend_long df H). reflexivity.
Qed.

Lemma momentum_is_change_over_last_5_closes_witness :
  (20 <= len Examples.rising20)%nat /\
  Trend.price_change_pct (column close Examples.rising20)
  = Ok (change4 (column close Examples.rising20)).
Proof.
  assert (L : (20 <= len Examples.rising20)%nat)
    by (vm_compute; repeat constructor).
  split; [exact L|].
  exact (proj1 (momentum_is_change_over_last_5_closes Examples.rising20 L)).
Defined.

(* ================================================================== *)
(** * Properties of the level detector *)

Section SortFacts.
Context {A : Type} (leb : A -> A -> bool).

Lemma insert_perm (x : A) (l : list A) :
  Permutation (insert leb x l) (x :: l).
Proof.
  induction l as [|y r IH]; simpl; [reflexivity|].
  destruct (leb y x); [|reflexivity].
  rewrite IH. apply perm_swap.
Qed.

Lemma fold_insert_perm (l acc : list A) :
  Permutation (fold_left (fun acc x => insert leb x acc) l acc) (acc ++ l).
Proof.
  revert acc. induction l as [|x r IH]; intro acc; simpl.
  - now rewrite app_nil_r.
  - rewrite IH, insert_perm. apply Permutation_middle.
Qed.

Lemma py_sorted_perm (l : list A) : Permutation (py_sorted leb l) l.
Proof. unfold py_sorted. apply (fold_insert_perm l []). Qed.

Lemma py_sorted_In (x : A) (l : list A) : In x (py_sorted leb l) <-> In x l.
Proof.
  split; apply Permutation_in;
    [apply py_sorted_perm | symmetry; apply py_sorted_perm].
Qed.

Lemma py_sorted_length (l : list A) : length (py_sorted leb l) = length l.
Proof. apply Permutation_length, py_sorted_perm. Qed.
End SortFacts.

Lemma firstn_subset {A} (n : nat) (l : list A) (x : A) :
  In x (firstn n l) -> In x l.
Proof.
  intro H. rewrite <- (firstn_skipn n l). apply in_or_app. now left.
Qed.

Lemma slice_to_In {A} (n : Z) (l : list A) (x : A) :
  In x (slice_to n l) -> In x l.
Proof.
  unfold slice_to. destruct (n <? 0)%Z; apply firstn_subset.
Qed.

Section DetectorFacts.

Import SR.

Variable series_std : list Q -> Q.

Lemma add_round_number_step d df atr cur r s rp :
  add_round_number d df atr cur (r, s) rp
  = if enough_touches d df atr rp then
      if Qltb cur (inject_Z rp)
      then (r ++ [round_level_of d df atr cur rp], s)
      else (r, s ++ [round_level_of d df atr cur rp])
    else (r, s).
Proof. reflexivity. Qed.

Lemma fold_add_round_number d df atr cur rns r s :
  fold_left (add_round_number d df atr cur) rns (r, s)
  = (r ++ map (round_level_of d df atr cur)
            (filter (fun rp => enough_touches d df atr rp
                               && Qltb cur (inject_Z rp)) rns),
     s ++ map (round_level_of d df atr cur)
            (filter (fun rp => enough_touches d df atr rp
                               && negb (Qltb cur (inject_Z rp))) rns)).
Proof.
  revert r s. induction rns as [|rp rest IH]; intros r s.
  - simpl. now rewrite !app_nil_r.
  - cbn [fold_left filter]. rewrite add_round_number_step.
    destruct (enough_touches d df atr rp); cbn [andb].
    + destruct (Qltb cur (inject_Z rp)); cbn [negb map]; rewrite IH;
        now rewrite <- app_assoc.
    + apply IH.
Qed.

(** ** What a call computes *)

Lemma true_range_length prev bars :
  length (true_range prev bars) = length bars.
Proof.
  revert prev. induction bars as [|b r IH]; intro prev; simpl; auto.
Qed.

Lemma calculate_atr_length period df :
  length (calculate_atr period df) = len df.
Proof.
  unfold calculate_atr, rolling_mean.
  now rewrite length_map, length_seq, true_range_length.
Qed.

Lemma iloc_last_ok {A} (l : list A) :
  (0 < length l)%nat -> exists x, iloc_last l = Ok x.
Proof.
  intro H. destruct l as [|a r]; [simpl in H; lia|].
  destruct (@exists_last A (a :: r)) as [l' [x E]]; [discriminate|].
  exists x. rewrite E. apply iloc_last_app.
Qed.

Lemma atr_or_std_ok df :
  (0 < len df)%nat -> exists atr, atr_or_std series_std df = Ok atr.
Proof.
  intro H. unfold atr_or_std.
  destruct (iloc_last_ok (calculate_atr 14 df)) as [x E].
  { now rewrite calculate_atr_length. }
  rewrite E. destruct x; eauto.
Qed.

Lemma round_numbers_of_ok d df :
  (0 < len df)%nat -> exists rn, round_numbers_of d df = Ok rn.
Proof.
  intro H. unfold round_numbers_of, column, len in *.
  destruct (include_round_numbers d); [|eauto].
  destruct (rows df) as [|b r]; [simpl in H; lia|]. simpl. eauto.
Qed.

Lemma detect_sr_levels_short d ms mr df :
  (len df < 50)%nat ->
  detect_sr_levels series_std d ms mr df = (Ok ([], []), df).
Proof.
  intro H. unfold detect_sr_levels, bind, read, ret.
  apply Nat.ltb_lt in H. now rewrite H.
Qed.

Lemma detect_sr_levels_long d ms mr df :
  (50 <= len df)%nat ->
  exists atr last_row rn,
    atr_or_std series_std df = Ok atr /\
    iloc_last (rows df) = Ok last_row /\
    round_numbers_of d df = Ok rn /\
    let cur := close last_row in
    let levels :=
      collect_levels d df atr cur (fst (find_swing_points d df))
                     (snd (find_swing_points d df)) rn in
    detect_sr_levels series_std d ms mr df
    = (Ok (slice_to ms (sort_by (support_key cur) (snd levels)),
           slice_to mr (sort_by (resistance_key cur) (fst levels))),
       df).
Proof.
  intro H.
  destruct (atr_or_std_ok df) as [atr Ea]; [lia|].
  destruct (iloc_last_ok (rows df)) as [last_row El]; [unfold len in H; lia|].
  destruct (round_numbers_of_ok d df) as [rn Er]; [lia|].
  exists atr, last_row, rn. repeat split; try assumption.
  cbv zeta. unfold detect_sr_levels, bind, read, ret.
  assert (Hb : (len df <? 50)%nat = false) by (apply Nat.ltb_ge; exact H).
  rewrite Hb, Ea, El.
  destruct (find_swing_points d df) as [highs lows]. rewrite Er.
  cbn [fst snd].
  destruct (collect_levels d df atr (close last_row) highs lows rn).
  reflexivity.
Qed.

Lemma detect_sr_levels_frame d ms mr df :
  snd (detect_sr_levels series_std d ms mr df) = df.
Proof.
  destruct (Nat.lt_ge_cases (len df) 50) as [H|H].
  - now rewrite detect_sr_levels_short.
  - destruct (detect_sr_levels_long d ms mr df H)
      as (atr & last_row & rn & _ & _ & _ & E).
    cbv zeta in E. now rewrite E.
Qed.

(** ** The two sides of the current price *)

Lemma collect_levels_eq d df atr cur highs lows rn :
  collect_levels d df atr cur highs lows rn
  = (match highs with
     | [] => []
     | _ => swing_resistance d cur (cluster_levels d highs atr)
     end
     ++ map (round_level_of d df atr cur)
          (filter (fun rp => enough_touches d df atr rp
                             && Qltb cur (inject_Z rp)) rn),
     match lows with
     | [] => []
     | _ => swing_support d cur (cluster_levels d lows atr)
     end
     ++ map (round_level_of d df atr cur)
          (filter (fun rp => enough_touches d df atr rp
                             && negb (Qltb cur (inject_Z rp))) rn)).
Proof.
  unfold collect_levels. apply fold_add_round_number.
Qed.

Lemma swing_resistance_In d cur cl l :
  In l (swing_resistance d cur cl) <->
  exists c, In c cl /\ cur < cl_price c /\
            (min_touches d <= cl_touches c)%nat /\
            l = mkLevel (cl_price c) "resistance" (cl_touches c)
                        (cl_first_seen c) (cl_last_seen c) false.
Proof.
  unfold swing_resistance. rewrite in_map_iff. split.
  - intros [c [<- Hc]]. apply filter_In in Hc as [Hin Hb].
    apply andb_true_iff in Hb as [H1 H2].
    apply Qltb_true in H1. apply Nat.leb_le in H2. eauto 6.
  - intros [c (Hin & H1 & H2 & ->)]. exists c. split; [reflexivity|].
    apply filter_In. split; [assumption|].
    apply andb_true_iff. split; [now apply Qltb_true|now apply Nat.leb_le].
Qed.

Lemma swing_support_In d cur cl l :
  In l (swing_support d cur cl) <->
  exists c, In c cl /\ cl_price c < cur /\
            (min_touches d <= cl_touches c)%nat /\
            l = mkLevel (cl_price c) "support" (cl_touches c)
                        (cl_first_seen c) (cl_last_seen c) false.
Proof.
  unfold swing_support. rewrite in_map_iff. split.
  - intros [c [<- Hc]]. apply filter_In in Hc as [Hin Hb].
    apply andb_true_iff in Hb as [H1 H2].
    apply Qltb_true in H1. apply Nat.leb_le in H2. eauto 6.
  - intros [c (Hin & H1 & H2 & ->)]. exists c. split; [reflexivity|].
    apply filter_In. split; [assumption|].
    apply andb_true_iff. split; [now apply Qltb_true|now apply Nat.leb_le].
Qed.

Lemma collect_resistance_In d df atr cur highs lows rn l :
  In l (fst (collect_levels d df atr cur highs lows rn)) ->
  cur < price l /\ type_ l = "resistance".
Proof.
  rewrite collect_levels_eq. cbn [fst]. intro H.
  apply in_app_or in H as [H|H].
  - destruct highs; [contradiction|].
    apply swing_resistance_In in H as [c (_ & H1 & _ & ->)]. now split.
  - apply in_map_iff in H as [rp [<- Hrp]].
    apply filter_In in Hrp as [_ Hb].
    apply andb_true_iff in Hb as [_ Hb].
    unfold round_level_of, round_level. cbn [price type_]. rewrite Hb.
    split; [now apply Qltb_true|reflexivity].
Qed.

Lemma collect_support_In d df atr cur highs lows rn l :
  In l (snd (collect_levels d df atr cur highs lows rn)) ->
  price l <= cur /\ type_ l = "support" /\
  (is_round_number l = false -> price l < cur).
Proof.
  rewrite collect_levels_eq. cbn [snd]. intro H.
  apply in_app_or in H as [H|H].
  - destruct lows; [contradiction|].
    apply swing_support_In in H as [c (_ & H1 & _ & ->)].
    cbn [price type_ is_round_number]. repeat split; auto.
    now apply Qlt_le_weak.
  - apply in_map_iff in H as [rp [<- Hrp]].
    apply filter_In in Hrp as [_ Hb].
    apply andb_true_iff in Hb as [_ Hb]. apply negb_true_iff in Hb.
    unfold round_level_of, round_level.
    cbn [price type_ is_round_number]. rewrite Hb.
    repeat split; [now apply Qltb_false|discriminate].
Qed.

(** Every accepted call keeps support at or below the last close and
    resistance strictly above it, so the two lists share no level. *)
Lemma detect_sr_levels_sides d ms mr df :
  (50 <= len df)%nat ->
  exists last_row support resistance,
    iloc_last (rows df) = Ok last_row /\
    fst (detect_sr_levels series_std d ms mr df) = Ok (support, resistance) /\
    Forall (fun l => price l <= close last_row /\ type_ l = "support"
                     /\ (is_round_number l = false ->
                         price l < close last_row)) support /\
    Forall (fun l => close last_row < price l /\ type_ l = "resistance")
           resistance /\
    (forall l, In l support -> In l resistance -> False).
Proof.
  intro H.
  destruct (detect_sr_levels_long d ms mr df H)
    as (atr & last_row & rn & _ & El & _ & E).
  cbv zeta in E. rewrite E. cbn [fst].
  do 3 eexists. split; [exact El|]. split; [reflexivity|].
  assert (S : forall l,
             In l (slice_to ms
                     (sort_by (support_key (close last_row))
                        (snd (collect_levels d df atr (close last_row)
                                (fst (find_swing_points d df))
                                (snd (find_swing_points d df)) rn)))) ->
             price l <= close last_row /\ type_ l = "support"
             /\ (is_round_number l = false -> price l < close last_row)).
  { intros l Hl. apply slice_to_In in Hl. unfold sort_by in Hl.
    apply py_sorted_In in Hl. eapply collect_support_In; eauto. }
  assert (R : forall l,
             In l (slice_to mr
                     (sort_by (resistance_key (close last_row))
                        (fst (collect_levels d df atr (close last_row)
                                (fst (find_swing_points d df))
                                (snd (find_swing_points d df)) rn)))) ->
             close last_row < price l /\ type_ l = "resistance").
  { intros l Hl. apply slice_to_In in Hl. unfold sort_by in Hl.
    apply py_sorted_In in Hl. eapply collect_resistance_In; eauto. }
  split; [|split].
  - apply Forall_forall. exact S.
  - apply Forall_forall. exact R.
  - intros l Hs Hr. destruct (S l Hs) as [Hle _]. destruct (R l Hr) as [Hlt _].
    eapply Qlt_not_le; eauto.
Qed.

Lemma find_swing_points_short d df :
  (len df < lookback_bars d)%nat -> find_swing_points d df = ([], []).
Proof.
  intro H. unfold find_swing_points. apply Nat.ltb_lt in H. now rewrite H.
Qed.

Lemma collect_levels_no_swings d df atr cur rn l :
  In l (fst (collect_levels d df atr cur [] [] rn))
  \/ In l (snd (collect_levels d df atr cur [] [] rn)) ->
  is_round_number l = true.
Proof.
  rewrite collect_levels_eq. cbn [fst snd app].
  intros [H|H]; apply in_map_iff in H as [rp [<- _]]; reflexivity.
Qed.

End DetectorFacts.

(* ================================================================== *)
(** * The entry points on short, long and concrete series *)

(** C7: on fewer than 20 bars [calculate_simple_trend] returns
    ('NEUTRAL', 0.0), and on fewer than 50 bars [detect_sr_levels] returns
    a pair of empty lists; both return normally, no exception is raised. *)
Theorem short_series_give_neutral_and_empty
        (series_std : list Q -> Q) (d : SR.SimpleSRDetector)
        (max_support max_resistance : Z) (df : DataFrame) :
  ((len df < 20)%nat ->
   Trend.calculate_simple_trend df = (Ok ("NEUTRAL", 0.0), df)) /\
  ((len df < 50)%nat ->
   SR.detect_sr_levels series_std d max_support max_resistance df
   = (Ok ([], []), df)).
Proof.
  split.
  - apply calculate_simple_trend_short.
  - apply detect_sr_levels_short.
Qed.

Lemma short_series_give_neutral_and_empty_witness :
  Trend.calculate_simple_trend (Examples.flat_frame 10 100)
  = (Ok ("NEUTRAL", 0.0), Examples.flat_frame 10 100) /\
  SR.detect_sr_levels Examples.no_std SR.default_detector 3 3
                      (Examples.flat_frame 10 100)
  = (Ok ([], []), Examples.flat_frame 10 100).
Proof.
  destruct (short_series_give_neutral_and_empty
              Examples.no_std SR.default_detector 3 3
              (Examples.flat_frame 10 100)) as [H1 H2].
  split; [apply H1 | apply H2]; apply Nat.ltb_lt; reflexivity.
Defined.

(** C8, as stated: both entry points leave the input frame unchanged.
    A call of [calculate_simple_trend] on twenty bars returns a frame that
    carries the columns ema_3, ema_8 and ema_20 the input did not have. *)
Lemma calculate_simple_trend_changes_its_input :
  snd (Trend.calculate_simple_trend Examples.rising20) <> Examples.rising20
  /\ map fst (computed (snd (Trend.calculate_simple_trend Examples.rising20)))
     = ["ema_3"; "ema_8"; "ema_20"]
  /\ computed Examples.rising20 = [].
Proof.
  split; [|split].
  - intro H. apply (f_equal computed) in H. vm_compute in H. discriminate.
  - vm_compute. reflexivity.
  - reflexivity.
Qed.

(** C8, amended: [detect_sr_levels] leaves the input frame unchanged;
    [calculate_simple_trend] leaves the rows unchanged and every column
    other than ema_3, ema_8 and ema_20 as it was, changes nothing on fewer
    than 20 bars, and on 20 bars or more assigns the three moving-average
    columns into the caller's frame. *)
Theorem entry_points_frame_effect
        (series_std : list Q -> Q) (d : SR.SimpleSRDetector)
        (max_support max_resistance : Z) (df : DataFrame) :
  snd (SR.detect_sr_levels series_std d max_support max_resistance df) = df /\
  rows (snd (Trend.calculate_simple_trend df)) = rows df /\
  ((len df < 20)%nat -> snd (Trend.calculate_simple_trend df) = df) /\
  ((20 <= len df)%nat ->
   snd (Trend.calculate_simple_trend df) = with_emas df) /\
  (forall name,
      name <> "ema_3" -> name <> "ema_8" -> name <> "ema_20" ->
      get_column name (computed (snd (Trend.calculate_simple_trend df)))
      = get_column name (computed df)).
Proof.
  split; [apply detect_sr_levels_frame|].
  destruct (Nat.lt_ge_cases (len df) 20) as [H|H].
  - rewrite (calculate_simple_trend_short df H). cbn [snd].
    repeat split; auto. intro H'. lia.
  - rewrite (calculate_simple_trend_long df H). cbn [snd].
    repeat split; auto.
    + intro H'. lia.
    + intros name N3 N8 N20. unfold with_emas. cbn [computed].
      now rewrite !get_set_other by assumption.
Qed.

Lemma entry_points_frame_effect_witness :
  snd (Trend.calculate_simple_trend Examples.rising20)
  = with_emas Examples.rising20 /\
  snd (Trend.calculate_simple_trend (Examples.flat_frame 10 100))
  = Examples.flat_frame 10 100.
Proof.
  split.
  - apply (entry_points_frame_effect Examples.no_std SR.default_detector
             3 3 Examples.rising20).
    apply Nat.leb_le. reflexivity.
  - apply (entry_points_frame_effect Examples.no_std SR.default_detector
             3 3 (Examples.flat_frame 10 100)).
    apply Nat.ltb_lt. reflexivity.
Defined.

(** C10: on a series of at least 50 but fewer than [lookback_bars] bars
    [find_swing_points] returns two empty lists, and every level that
    [detect_sr_levels] returns is a round-number level. *)
Theorem short_lookback_gives_round_numbers_only
        (series_std : list Q -> Q) (d : SR.SimpleSRDetector)
        (max_support max_resistance : Z) (df : DataFrame) :
  (50 <= len df)%nat -> (len df < SR.lookback_bars d)%nat ->
  SR.find_swing_points d df = ([], []) /\
  exists support resistance,
    fst (SR.detect_sr_levels series_std d max_support max_resistance df)
    = Ok (support, resistance) /\
    Forall (fun l => SR.is_round_number l = true) (support ++ resistance).
Proof.
  intros H50 Hlb.
  pose proof (find_swing_points_short d df Hlb) as Es.
  split; [exact Es|].
  destruct (detect_sr_levels_long series_std d max_support max_resistance
              df H50) as (atr & last_row & rn & _ & _ & _ & E).
  cbv zeta in E. rewrite E, Es. cbn [fst snd].
  do 2 eexists. split; [reflexivity|].
  apply Forall_forall. intros l Hl.
  apply (collect_levels_no_swings d df atr (close last_row) rn).
  apply in_app_or in Hl as [Hl|Hl]; apply slice_to_In in Hl;
    unfold SR.sort_by in Hl; apply py_sorted_In in Hl; auto.
Qed.

Lemma short_lookback_gives_round_numbers_only_witness :
  SR.find_swing_points SR.default_detector (Examples.flat_frame 50 100)
  = ([], []) /\
  exists support resistance,
    fst (SR.detect_sr_levels Examples.no_std SR.default_detector 3 3
                             (Examples.flat_frame 50 100))
    = Ok (support, resistance) /\
    Forall (fun l => SR.is_round_number l = true) (support ++ resistance).
Proof.
  apply (short_lookback_gives_round_numbers_only
           Examples.no_std SR.default_detector 3 3
           (Examples.flat_frame 50 100)).
  - apply Nat.leb_le. reflexivity.
  - apply Nat.ltb_lt. reflexivity.
Defined.

(** C1, at a failing input: fifty flat bars at 100.  The round number 100
    is touched by every bar, it is not above the last close, and the
    [else] branch files it under support: the returned support list holds
    a level whose price equals the last close. *)
Theorem support_level_at_the_last_close :
  let df := Examples.flat_frame 50 100 in
  (50 <= len df)%nat /\
  option_map close (hd_error (rev (rows df))) = Some 100 /\
  fst (SR.detect_sr_levels Examples.no_std SR.default_detector 3 3 df)
  = Ok ([SR.mkLevel 100 "support" 100 (Some 0%Z) (Some 49%Z) true], []) /\
  ~ (100 < 100).
Proof.
  cbv zeta. split; [|split; [|split]].
  - apply Nat.leb_le. reflexivity.
  - reflexivity.
  - vm_compute. reflexivity.
  - apply Qlt_irrefl.
Qed.

(* ================================================================== *)
(** * Touch counting *)

Lemma filter_map_length {A B} (f : B -> bool) (g : A -> B) (l : list A) :
  length (filter f (map g l)) = length (filter (fun a => f (g a)) l).
Proof.
  induction l as [|a r IH]; simpl; [reflexivity|].
  destruct (f (g a)); simpl; now rewrite IH.
Qed.

Lemma filter_length_le {A} (f : A -> bool) (l : list A) :
  (length (filter f l) <= length l)%nat.
Proof.
  induction l as [|a r IH]; simpl; [lia|]. destruct (f a); simpl; lia.
Qed.

Lemma filter_or_and_length {A} (f g : A -> bool) (l : list A) :
  (length (filter f l) + length (filter g l)
   = length (filter (fun a => f a || g a) l)
     + length (filter (fun a => f a && g a) l))%nat.
Proof.
  induction l as [|a r IH]; simpl; [reflexivity|].
  destruct (f a), (g a); simpl; lia.
Qed.

(** C4, as stated: the count is the number of bars with a high or a low
    in the band, hence at most the number of bars.  One bar with
    high = low = 100 and the level 100 gives the count 2. *)
Lemma count_touches_exceeds_the_bars :
  let df := Examples.flat_frame 1 100 in
  SR.count_touches SR.default_detector df 100 0 = 2%nat /\
  touching_bars SR.default_detector df 100 0 = 1%nat /\
  len df = 1%nat /\
  ~ (SR.count_touches SR.default_detector df 100 0 <= len df)%nat.
Proof.
  cbv zeta. repeat split; try (vm_compute; reflexivity).
  vm_compute. intro H. inversion H as [|? H']. inversion H'.
Qed.

(** C4, amended: [count_touches] returns the number of highs in the band
    plus the number of lows in the band, so a bar with both inside counts
    twice: the result is the number of touching bars plus the number of
    bars touching with both ends, at least the former and at most twice
    the number of bars. *)
Theorem count_touches_counts_highs_and_lows
        (d : SR.SimpleSRDetector) (df : DataFrame) (level_price atr : Q) :
  let t := atr * SR.cluster_threshold_atr d in
  SR.count_touches d df level_price atr
  = (length (filter (fun b => SR.near level_price t (high b)) (rows df))
     + length (filter (fun b => SR.near level_price t (low b)) (rows df)))%nat
  /\ SR.count_touches d df level_price atr
     = (touching_bars d df level_price atr
        + bars_touching_twice d df level_price atr)%nat
  /\ (touching_bars d df level_price atr
      <= SR.count_touches d df level_price atr <= 2 * len df)%nat.
Proof.
  cbv zeta.
  assert (E : SR.count_touches d df level_price atr
              = (length (filter (fun b => SR.near level_price
                                   (atr * SR.cluster_threshold_atr d) (high b))
                           (rows df))
                 + length (filter (fun b => SR.near level_price
                                     (atr * SR.cluster_threshold_atr d) (low b))
                             (rows df)))%nat).
  { unfold SR.count_touches, column. now rewrite !filter_map_length. }
  split; [exact E|].
  assert (E2 : SR.count_touches d df level_price atr
               = (touching_bars d df level_price atr
                  + bars_touching_twice d df level_price atr)%nat).
  { rewrite E. unfold touching_bars, bars_touching_twice.
    apply filter_or_and_length. }
  split; [exact E2|]. split; [lia|].
  rewrite E. unfold len.
  pose proof (filter_length_le
                (fun b => SR.near level_price
                            (atr * SR.cluster_threshold_atr d) (high b))
                (rows df)).
  pose proof (filter_length_le
                (fun b => SR.near level_price
                            (atr * SR.cluster_threshold_atr d) (low b))
                (rows df)).
  lia.
Qed.

(* ================================================================== *)
(** * Which candidates become support and which resistance *)

Lemma collect_levels_split (d : SR.SimpleSRDetector) (df : DataFrame)
      (atr cur : Q) (highs lows : list SR.Swing) (rn : list Z) :
  split_by_origin d df atr cur highs lows rn
    (fst (SR.collect_levels d df atr cur highs lows rn))
    (snd (SR.collect_levels d df atr cur highs lows rn)).
Proof.
  rewrite collect_levels_eq. cbn [fst snd].
  assert (Hl : match lows with
               | [] => []
               | _ => SR.swing_support d cur (SR.cluster_levels d lows atr)
               end = SR.swing_support d cur (SR.cluster_levels d lows atr))
    by (destruct lows; reflexivity).
  assert (Hh : match highs with
               | [] => []
               | _ => SR.swing_resistance d cur (SR.cluster_levels d highs atr)
               end = SR.swing_resistance d cur (SR.cluster_levels d highs atr))
    by (destruct highs; reflexivity).
  rewrite Hl, Hh. clear Hl Hh.
  unfold split_by_origin, swing_candidate, round_candidate. split; intro l.
  - rewrite in_app_iff, swing_support_In, in_map_iff. split.
    + intros [[c (Hc & Hp & Ht & ->)]|[rp [<- Hrp]]].
      * left. exists c. auto.
      * apply filter_In in Hrp as [Hin Hb].
        apply andb_true_iff in Hb as [He Hb]. apply negb_true_iff in Hb.
        apply Qltb_false in Hb.
        destruct (Qlt_le_dec (inject_Z rp) cur) as [Hlt|Hge].
        -- right. left. exists rp. auto.
        -- right. right. exists rp. repeat split; auto.
           now apply Qle_antisym.
    + intros [[c ((Hc & Ht) & Hp & ->)]|[[rp ((Hin & He & ->) & Hp)]
                                        |[rp ((Hin & He & ->) & Hp)]]].
      * left. exists c. auto.
      * right. exists rp. split; [reflexivity|].
        apply filter_In. split; [assumption|]. rewrite He. cbn [andb].
        apply negb_true_iff, Qltb_false. now apply Qlt_le_weak.
      * right. exists rp. split; [reflexivity|].
        apply filter_In. split; [assumption|]. rewrite He. cbn [andb].
        apply negb_true_iff, Qltb_false. rewrite Hp. apply Qle_refl.
  - rewrite in_app_iff, swing_resistance_In, in_map_iff. split.
    + intros [[c (Hc & Hp & Ht & ->)]|[rp [<- Hrp]]].
      * left. exists c. auto.
      * apply filter_In in Hrp as [Hin Hb].
        apply andb_true_iff in Hb as [He Hb]. apply Qltb_true in Hb.
        right. exists rp. auto.
    + intros [[c ((Hc & Ht) & Hp & ->)]|[rp ((Hin & He & ->) & Hp)]].
      * left. exists c. auto.
      * right. exists rp. split; [reflexivity|].
        apply filter_In. split; [assumption|]. rewrite He. cbn [andb].
        now apply Qltb_true.
Qed.

(** C5, as stated: a candidate below the current close is a support
    candidate whatever it was derived from.  In [two_peaks] the two swing
    highs of 25 form a cluster with two touches below the last close 32;
    no support candidate has its price, and the call returns the round
    number 10 as its only support. *)
Lemma swing_high_below_the_close_is_dropped :
  let df := Examples.two_peaks in
  let d := SR.default_detector in
  let atr := 49 # 14 in
  let c := SR.mkCluster (50 # 2) 2 (Some 20%Z) (Some 40%Z) in
  SR.atr_or_std Examples.no_std df = Ok atr /\
  option_map close (hd_error (rev (rows df))) = Some 32 /\
  SR.round_numbers_of d df = Ok [10; 20; 30]%Z /\
  In c (SR.cluster_levels d (fst (SR.find_swing_points d df)) atr) /\
  (SR.min_touches d <= SR.cl_touches c)%nat /\
  SR.cl_price c < 32 /\
  (forall l,
      In l (snd (SR.collect_levels d df atr 32
                   (fst (SR.find_swing_points d df))
                   (snd (SR.find_swing_points d df)) [10; 20; 30]%Z)) ->
      ~ SR.price l == SR.cl_price c) /\
  fst (SR.detect_sr_levels Examples.no_std d 3 3 df)
  = Ok ([SR.mkLevel 10 "support" 196 (Some 0%Z) (Some 99%Z) true], []).
Proof.
  cbv zeta.
  split; [vm_compute; reflexivity|].
  split; [vm_compute; reflexivity|].
  split; [vm_compute; reflexivity|].
  split; [vm_compute; left; reflexivity|].
  split; [vm_compute; repeat constructor|].
  split; [vm_compute; reflexivity|].
  split; [|vm_compute; reflexivity].
  intros l Hl. vm_compute in Hl. destruct Hl as [<-|[]].
  vm_compute. discriminate.
Qed.

(** C5, amended: [detect_sr_levels] sorts and cuts two lists of
    candidates, and these are split by origin.  The support candidates
    are exactly the clusters of swing lows with enough touches whose price
    is below the current close and the round numbers with enough touches
    below it; the resistance candidates are exactly the clusters of swing
    highs with enough touches above the close and the round numbers with
    enough touches above it.  So a cluster of swing highs below the
    close, or of swing lows above it, is no candidate at all.  The one
    further support candidate is a round number equal to the close, the
    case C1 reports. *)
Theorem candidates_are_split_by_origin
        (series_std : list Q -> Q) (d : SR.SimpleSRDetector)
        (max_support max_resistance : Z) (df : DataFrame) :
  (50 <= len df)%nat ->
  exists atr last_row rn,
    SR.atr_or_std series_std df = Ok atr /\
    iloc_last (rows df) = Ok last_row /\
    SR.round_numbers_of d df = Ok rn /\
    let cur := close last_row in
    let highs := fst (SR.find_swing_points d df) in
    let lows := snd (SR.find_swing_points d df) in
    let resistance := fst (SR.collect_levels d df atr cur highs lows rn) in
    let support := snd (SR.collect_levels d df atr cur highs lows rn) in
    split_by_origin d df atr cur highs lows rn resistance support /\
    fst (SR.detect_sr_levels series_std d max_support max_resistance df)
    = Ok (slice_to max_support (SR.sort_by (SR.support_key cur) support),
          slice_to max_resistance
            (SR.sort_by (SR.resistance_key cur) resistance)).
Proof.
  intro H.
  destruct (detect_sr_levels_long series_std d max_support max_resistance
              df H) as (atr & last_row & rn & Ea & El & Er & E).
  cbv zeta in E.
  exists atr, last_row, rn.
  split; [exact Ea|]. split; [exact El|]. split; [exact Er|].
  cbv zeta. split; [apply collect_levels_split|]. now rewrite E.
Qed.

Lemma candidates_are_split_by_origin_witness :
  exists atr last_row rn,
    SR.atr_or_std Examples.no_std Examples.two_peaks = Ok atr /\
    iloc_last (rows Examples.two_peaks) = Ok last_row /\
    SR.round_numbers_of SR.default_detector Examples.two_peaks = Ok rn /\
    let d := SR.default_detector in
    let df := Examples.two_peaks in
    let cur := close last_row in
    let highs := fst (SR.find_swing_points d df) in
    let lows := snd (SR.find_swing_points d df) in
    let resistance := fst (SR.collect_levels d df atr cur highs lows rn) in
    let support := snd (SR.collect_levels d df atr cur highs lows rn) in
    split_by_origin d df atr cur highs lows rn resistance support /\
    fst (SR.detect_sr_levels Examples.no_std d 3 3 df)
    = Ok (slice_to 3 (SR.sort_by (SR.support_key cur) support),
          slice_to 3 (SR.sort_by (SR.resistance_key cur) resistance)).
Proof.
  apply (candidates_are_split_by_origin Examples.no_std SR.default_detector
           3 3 Examples.two_peaks).
  apply Nat.leb_le. reflexivity.
Defined.

(* ================================================================== *)
(** * Round numbers *)

Lemma increment_for_cases (max_price : Q) :
  (10000 < max_price /\ SR.increment_for max_price = 500%Z) \/
  (max_price <= 10000 /\ 1000 < max_price
   /\ SR.increment_for max_price = 50%Z) \/
  (max_price <= 1000 /\ 100 < max_price
   /\ SR.increment_for max_price = 5%Z) \/
  (max_price <= 100 /\ SR.increment_for max_price = 1%Z).
Proof.
  unfold SR.increment_for.
  destruct (Qltb 10000 max_price) eqn:E1.
  { left. split; [now apply Qltb_true|reflexivity]. }
  apply Qltb_false in E1. right.
  destruct (Qltb 1000 max_price) eqn:E2.
  { left. repeat split; [assumption|now apply Qltb_true]. }
  apply Qltb_false in E2. right.
  destruct (Qltb 100 max_price) eqn:E3.
  { left. repeat split; [assumption|now apply Qltb_true]. }
  apply Qltb_false in E3. right. now split.
Qed.

Lemma increment_for_pos (max_price : Q) : (0 < SR.increment_for max_price)%Z.
Proof.
  destruct (increment_for_cases max_price)
    as [[_ E]|[(_ & _ & E)|[(_ & _ & E)|[_ E]]]]; rewrite E; lia.
Qed.

Lemma inject_Z_le_floor (z : Z) (q : Q) :
  inject_Z z <= q -> (z <= Qfloor q)%Z.
Proof.
  intro H. rewrite <- (Qfloor_Z z). now apply Qfloor_resp_le.
Qed.

(** The loop leaves through its condition, not through the fuel. *)
Lemma round_loop_terminates (min_price max_price : Q) (increment : Z) :
  (0 < increment)%Z ->
  forall fuel current,
    (Z.to_nat (Qfloor max_price - current + 1) + 1 <= fuel)%nat ->
    exists l,
      SR.round_loop fuel min_price max_price increment current = Some l.
Proof.
  intros Hinc. induction fuel as [|fuel IH]; intros current Hf; [lia|].
  cbn [SR.round_loop].
  destruct (Qle_bool (inject_Z current) max_price) eqn:E; [|eauto].
  apply Qle_bool_iff, inject_Z_le_floor in E.
  destruct (IH (current + increment)%Z) as [l El]; [lia|].
  rewrite El.
  match goal with
  | |- context [if ?b then _ else _] => destruct b
  end; cbn [option_map]; eauto.
Qed.

Lemma round_loop_spec (min_price max_price : Q) (increment : Z) :
  (0 < increment)%Z ->
  forall fuel current l,
    SR.round_loop fuel min_price max_price increment current = Some l ->
    Forall (fun c => (current <= c)%Z /\
                     min_price <= inject_Z c /\ inject_Z c <= max_price /\
                     (c mod (increment * 10) = 0)%Z) l
    /\ StronglySorted Z.lt l.
Proof.
  intros Hinc. induction fuel as [|fuel IH]; intros current l H;
    [discriminate|].
  cbn [SR.round_loop] in H.
  destruct (Qle_bool (inject_Z current) max_price) eqn:E.
  2:{ injection H as <-. split; constructor. }
  destruct (SR.round_loop fuel min_price max_price increment
              (current + increment)) as [rest|] eqn:Er.
  2:{ destruct (Qle_bool min_price (inject_Z current) && true
                && (current mod (increment * 10) =? 0)%Z);
        discriminate. }
  destruct (IH _ _ Er) as [Hall Hsorted].
  assert (Hall' : Forall (fun c => (current <= c)%Z /\
                     min_price <= inject_Z c /\ inject_Z c <= max_price /\
                     (c mod (increment * 10) = 0)%Z) rest).
  { eapply Forall_impl; [|exact Hall]. cbv beta. intros c (? & ? & ? & ?).
    repeat split; auto. lia. }
  destruct (Qle_bool min_price (inject_Z current) && true
            && (current mod (increment * 10) =? 0)%Z) eqn:C;
    cbn [option_map] in H; injection H as <-.
  - apply andb_true_iff in C as [C C3]. apply andb_true_iff in C as [C1 _].
    apply Qle_bool_iff in C1, E. apply Z.eqb_eq in C3.
    split.
    + constructor; [|exact Hall']. repeat split; auto. lia.
    + constructor; [exact Hsorted|].
      eapply Forall_impl; [|exact Hall]. cbv beta. intros c [? _]. lia.
  - split; assumption.
Qed.

(** C9: every price [find_round_numbers] emits lies within the given
    range and is an exact multiple of ten times the increment, which is
    500 when the range maximum exceeds 10,000, 50 when it exceeds 1,000,
    5 when it exceeds 100 and 1 otherwise; the returned list is sorted
    ascending.  The list is what the loop produces: the loop ends. *)
Theorem round_numbers_in_range_multiples_sorted
        (d : SR.SimpleSRDetector) (min_price max_price : Q) :
  let increment := SR.increment_for max_price in
  let round_numbers := SR.find_round_numbers d (min_price, max_price) in
  ((10000 < max_price /\ increment = 500%Z) \/
   (max_price <= 10000 /\ 1000 < max_price /\ increment = 50%Z) \/
   (max_price <= 1000 /\ 100 < max_price /\ increment = 5%Z) \/
   (max_price <= 100 /\ increment = 1%Z)) /\
  Forall (fun c => min_price <= inject_Z c /\ inject_Z c <= max_price /\
                   (10 * increment | c)%Z) round_numbers /\
  StronglySorted Z.lt round_numbers /\
  (SR.include_round_numbers d = false /\ round_numbers = []
   \/ SR.include_round_numbers d = true /\
      SR.round_loop
        (SR.round_fuel max_price
           (py_int (min_price / inject_Z increment) * increment))
        min_price max_price increment
        (py_int (min_price / inject_Z increment) * increment)
      = Some round_numbers).
Proof.
  cbv zeta. split; [apply increment_for_cases|].
  pose proof (increment_for_pos max_price) as Hinc.
  unfold SR.find_round_numbers.
  destruct (SR.include_round_numbers d) eqn:Ei; cbn [negb].
  2:{ split; [constructor|]. split; [constructor|]. left. now split. }
  set (increment := SR.increment_for max_price) in *.
  set (start := (py_int (min_price / inject_Z increment) * increment)%Z).
  destruct (round_loop_terminates min_price max_price increment Hinc
              (SR.round_fuel max_price start) start) as [l El].
  { unfold SR.round_fuel. lia. }
  rewrite El.
  destruct (round_loop_spec min_price max_price increment Hinc _ _ _ El)
    as [Hall Hsorted].
  split; [|split; [exact Hsorted|right; now split]].
  eapply Forall_impl; [|exact Hall]. cbv beta.
  intros c (_ & H1 & H2 & H3). repeat split; auto.
  apply Z.mod_divide; [lia|]. now rewrite Z.mul_comm.
Qed.

(* ================================================================== *)
(** * Clustering *)

Section MeanFacts.

Lemma qlen_nonneg (l : list Q) : 0 <= qlen l.
Proof.
  unfold qlen. change 0 with (inject_Z 0). rewrite <- Zle_Qle. lia.
Qed.

Lemma qlen_pos (l : list Q) : l <> [] -> 0 < qlen l.
Proof.
  intro H. unfold qlen. change 0 with (inject_Z 0). rewrite <- Zlt_Qlt.
  destruct l; [contradiction|]. simpl length. lia.
Qed.

Lemma qlen_app (a b : list Q) : qlen (a ++ b) == qlen a + qlen b.
Proof.
  unfold qlen. rewrite length_app, Nat2Z.inj_add, inject_Z_plus. reflexivity.
Qed.

Lemma py_sum_app (a b : list Q) : py_sum (a ++ b) == py_sum a + py_sum b.
Proof.
  induction a as [|x r IH]; simpl; [ring|]. rewrite IH. ring.
Qed.

Lemma py_sum_upper (l : list Q) (x : Q) :
  Forall (fun y => y <= x) l -> py_sum l <= qlen l * x.
Proof.
  induction 1 as [|y r Hy _ IH].
  - change (qlen []) with 0. change (py_sum []) with 0.
    rewrite Qmult_0_l. apply Qle_refl.
  - change (y :: r) with ([y] ++ r). rewrite qlen_app.
    change (py_sum ([y] ++ r)) with (y + py_sum r).
    change (qlen [y]) with 1. nra.
Qed.

Lemma py_sum_lower (l : list Q) (x : Q) :
  Forall (fun y => x <= y) l -> qlen l * x <= py_sum l.
Proof.
  induction 1 as [|y r Hy _ IH].
  - change (qlen []) with 0. change (py_sum []) with 0.
    rewrite Qmult_0_l. apply Qle_refl.
  - change (y :: r) with ([y] ++ r). rewrite qlen_app.
    change (py_sum ([y] ++ r)) with (y + py_sum r).
    change (qlen [y]) with 1. nra.
Qed.

Lemma np_mean_eq (l : list Q) : np_mean l = py_sum l / qlen l.
Proof. reflexivity. Qed.

Lemma np_mean_upper (l : list Q) (x : Q) :
  l <> [] -> Forall (fun y => y <= x) l -> np_mean l <= x.
Proof.
  intros Hne H. rewrite np_mean_eq.
  apply Qle_shift_div_r; [now apply qlen_pos|].
  rewrite Qmult_comm. now apply py_sum_upper.
Qed.

(** The mean of a list whose front part lies below its back part is at
    most the mean of the back part. *)
Lemma np_mean_suffix (p s : list Q) (a : Q) :
  s <> [] -> Forall (fun y => y <= a) p -> Forall (fun y => a <= y) s ->
  np_mean (p ++ s) <= np_mean s.
Proof.
  intros Hne Hp Hs. rewrite !np_mean_eq.
  pose proof (qlen_pos s Hne) as Hm. pose proof (qlen_nonneg p) as Hn.
  pose proof (py_sum_upper p a Hp) as U.
  pose proof (py_sum_lower s a Hs) as L.
  assert (Hnm : 0 < qlen (p ++ s)) by (rewrite qlen_app; lra).
  apply Qle_shift_div_r; [exact Hnm|].
  rewrite py_sum_app, qlen_app.
  set (q := py_sum s / qlen s).
  assert (Eq : q * qlen s == py_sum s).
  { unfold q. field. intro E. rewrite E in Hm. now apply Qlt_irrefl in Hm. }
  assert (K : py_sum p * qlen s <= q * qlen p * qlen s).
  { setoid_replace (q * qlen p * qlen s) with ((q * qlen s) * qlen p)
      by ring. rewrite Eq. nra. }
  apply Qmult_lt_0_le_reg_r in K; [|exact Hm]. nra.
Qed.

End MeanFacts.

Section ClusterFacts.

Import SR.

Lemma sorted_app (a b : list Swing) :
  StronglySorted by_price (a ++ b) <->
  StronglySorted by_price a /\ StronglySorted by_price b /\
  (forall u v, In u a -> In v b -> by_price u v).
Proof.
  induction a as [|x r IH]; simpl.
  - split; [intro H|intros (_ & H & _); exact H].
    repeat split; [constructor|exact H|contradiction].
  - split.
    + intro H. inversion H as [|? ? Hs Hall]; subst.
      apply IH in Hs as (Hr & Hb & Hrb).
      rewrite Forall_app in Hall. destruct Hall as [Hxr Hxb].
      rewrite Forall_forall in Hxb.
      repeat split; [constructor; assumption|assumption|].
      intros u v [<-|Hu] Hv; auto.
    + intros (Hxr & Hb & Hab). inversion Hxr as [|? ? Hr Hall]; subst.
      constructor.
      * apply IH. repeat split; auto.
      * rewrite Forall_app. split; [assumption|].
        apply Forall_forall. intros v Hv. apply Hab; [now left|assumption].
Qed.

Lemma insert_sorted (x : Swing) (l : list Swing) :
  StronglySorted by_price l -> StronglySorted by_price (insert price_leb x l).
Proof.
  induction 1 as [|y r Hr IH Hall]; simpl.
  - repeat constructor.
  - unfold price_leb at 1. destruct (Qle_bool (sp_price y) (sp_price x)) eqn:E.
    + apply Qle_bool_iff in E. constructor; [exact IH|].
      eapply Permutation_Forall; [symmetry; apply insert_perm|].
      constructor; assumption.
    + assert (Hxy : sp_price x <= sp_price y).
      { apply Qlt_le_weak, Qnot_le_lt. intro C.
        apply Qle_bool_iff in C. congruence. }
      constructor; [constructor; assumption|].
      constructor; [exact Hxy|].
      eapply Forall_impl; [|exact Hall]. cbv beta. unfold by_price.
      intros z Hz. eapply Qle_trans; eauto.
Qed.

Lemma fold_insert_sorted (l acc : list Swing) :
  StronglySorted by_price acc ->
  StronglySorted by_price
    (fold_left (fun acc x => insert price_leb x acc) l acc).
Proof.
  revert acc. induction l as [|x r IH]; intros acc H; simpl; [exact H|].
  apply IH. now apply insert_sorted.
Qed.

Lemma py_sorted_by_price (l : list Swing) :
  StronglySorted by_price (py_sorted price_leb l).
Proof. apply fold_insert_sorted. constructor. Qed.

(** A cluster that starts later in the sorted list has a mean at least as
    large, and no mean exceeds the next price: what a cluster absorbs with
    a tolerance, a later-started cluster absorbs with a larger one. *)
Lemma absorb_mono (t1 t2 : Q) (p cur : list Swing) (x : Swing)
                  (rest : list Swing) :
  t1 <= t2 -> cur <> [] ->
  StronglySorted by_price (p ++ cur ++ x :: rest) ->
  Qle_bool (Qabs (sp_price x - np_mean (map sp_price (p ++ cur)))) t1 = true ->
  Qle_bool (Qabs (sp_price x - np_mean (map sp_price cur))) t2 = true.
Proof.
  intros Ht Hne Hs H1. apply Qle_bool_iff in H1. apply Qle_bool_iff.
  apply sorted_app in Hs as (Hp & Hcx & Hpc).
  apply sorted_app in Hcx as (Hc & Hx & Hcr).
  assert (Hne' : map sp_price cur <> []) by (destruct cur; [contradiction|discriminate]).
  (* every price of p and cur is at most the price of x *)
  assert (Ux : Forall (fun y => y <= sp_price x) (map sp_price (p ++ cur))).
  { apply Forall_forall. intros y Hy. apply in_map_iff in Hy as [u [<- Hu]].
    apply in_app_or in Hu as [Hu|Hu].
    - apply (Hpc u x Hu). apply in_or_app. right. now left.
    - apply (Hcr u x Hu). now left. }
  assert (Ucx : Forall (fun y => y <= sp_price x) (map sp_price cur)).
  { rewrite map_app, Forall_app in Ux. apply Ux. }
  assert (M2 : np_mean (map sp_price cur) <= sp_price x)
    by (apply np_mean_upper; assumption).
  assert (M1 : np_mean (map sp_price (p ++ cur)) <= sp_price x).
  { apply np_mean_upper; [|assumption]. rewrite map_app.
    intro E. apply app_eq_nil in E as [_ E]. contradiction. }
  (* the first price of cur separates p from cur *)
  assert (M12 : np_mean (map sp_price (p ++ cur))
                <= np_mean (map sp_price cur)).
  { destruct cur as [|c0 cr]; [contradiction|].
    rewrite map_app. apply (np_mean_suffix _ _ (sp_price c0)).
    - discriminate.
    - apply Forall_forall. intros y Hy.
      apply in_map_iff in Hy as [u [<- Hu]]. apply (Hpc u c0 Hu).
      apply in_or_app. left. now left.
    - inversion Hc as [|? ? _ Hall]; subst. cbn [map].
      constructor; [apply Qle_refl|].
      apply Forall_forall. intros y Hy.
      apply in_map_iff in Hy as [u [<- Hu]].
      rewrite Forall_forall in Hall. now apply Hall. }
  rewrite Qabs_pos in H1 by lra. rewrite Qabs_pos by lra. lra.
Qed.

Lemma cluster_walk_nil (t : Q) (cur : list Swing) :
  cur <> [] -> length (cluster_walk t cur []) = 1%nat.
Proof. destruct cur; [contradiction|reflexivity]. Qed.

Lemma sorted_tail (a b : list Swing) :
  StronglySorted by_price (a ++ b) -> StronglySorted by_price b.
Proof. intro H. now apply sorted_app in H. Qed.

(** The two runs side by side.  [ahead]: the run with the larger
    tolerance holds a cluster that started later; [behind]: it holds one
    that started earlier, and may close one cluster more. *)
Lemma cluster_walk_mono (t1 t2 : Q) :
  t1 <= t2 ->
  forall rest,
    (forall p cur,
        cur <> [] -> StronglySorted by_price (p ++ cur ++ rest) ->
        (length (cluster_walk t2 cur rest)
         <= length (cluster_walk t1 (p ++ cur) rest))%nat) /\
    (forall p cur,
        cur <> [] -> StronglySorted by_price (p ++ cur ++ rest) ->
        (length (cluster_walk t2 (p ++ cur) rest)
         <= 1 + length (cluster_walk t1 cur rest))%nat).
Proof.
  intro Ht. induction rest as [|x r [IHa IHb]].
  - split; intros p cur Hne _.
    + rewrite !cluster_walk_nil; auto.
      intro E. apply app_eq_nil in E as [_ E]. contradiction.
    + rewrite !cluster_walk_nil; auto.
      intro E. apply app_eq_nil in E as [_ E]. contradiction.
  - assert (Hone : forall q c, StronglySorted by_price (q ++ c ++ x :: r) ->
                               StronglySorted by_price ([] ++ [x] ++ r)).
    { intros q c H. apply sorted_tail in H. now apply sorted_tail in H. }
    assert (Hsnoc : forall c : list Swing, c ++ [x] <> []).
    { intros c E. apply app_eq_nil in E as [_ E]. discriminate. }
    assert (Hx : [x] <> []) by discriminate.
    split; intros p cur Hne Hs; cbn [cluster_walk].
    + destruct (Qle_bool (Qabs (sp_price x
                  - np_mean (map sp_price (p ++ cur)))) t1) eqn:B1.
      * rewrite (absorb_mono t1 t2 p cur x r Ht Hne Hs B1).
        rewrite <- app_assoc. apply IHa; [apply Hsnoc|].
        now rewrite <- !app_assoc.
      * destruct (Qle_bool (Qabs (sp_price x
                    - np_mean (map sp_price cur))) t2) eqn:B2.
        -- cbn [length]. apply (IHb cur [x] Hx).
           apply sorted_tail in Hs. exact Hs.
        -- cbn [length]. apply le_n_S. apply (IHa [] [x] Hx).
           exact (Hone p cur Hs).
    + destruct (Qle_bool (Qabs (sp_price x
                  - np_mean (map sp_price (p ++ cur)))) t2) eqn:B2.
      * destruct (Qle_bool (Qabs (sp_price x
                    - np_mean (map sp_price cur))) t1) eqn:B1.
        -- rewrite <- app_assoc. apply IHb; [apply Hsnoc|].
           now rewrite <- !app_assoc.
        -- cbn [length]. apply Nat.le_le_succ_r.
           apply (IHb (p ++ cur) [x] Hx).
           now rewrite <- !app_assoc.
      * destruct (Qle_bool (Qabs (sp_price x
                    - np_mean (map sp_price cur))) t1) eqn:B1.
        -- cbn [length]. apply le_n_S. apply (IHa cur [x] Hx).
           apply sorted_tail in Hs. exact Hs.
        -- cbn [length]. apply Nat.le_le_succ_r, le_n_S.
           apply (IHa [] [x] Hx). exact (Hone p cur Hs).
Qed.

End ClusterFacts.

(** C6.  Given the same swing points and the same (non-negative) ATR, a
    detector with a larger cluster-threshold multiplier never returns more
    clusters from [cluster_levels] than one with a smaller multiplier. *)
Theorem larger_multiplier_never_more_clusters
        (d1 d2 : SR.SimpleSRDetector) (levels : list SR.Swing) (atr : Q) :
  0 <= atr ->
  SR.cluster_threshold_atr d1 <= SR.cluster_threshold_atr d2 ->
  (length (SR.cluster_levels d2 levels atr)
   <= length (SR.cluster_levels d1 levels atr))%nat.
Proof.
  intros Hatr Hm. unfold SR.cluster_levels.
  change (fun x y : SR.Swing => Qle_bool (SR.sp_price x) (SR.sp_price y))
    with price_leb.
  pose proof (py_sorted_by_price levels) as Hs.
  destruct (py_sorted price_leb levels) as [|first rest]; [apply Nat.le_refl|].
  assert (Ht : atr * SR.cluster_threshold_atr d1
               <= atr * SR.cluster_threshold_atr d2) by nra.
  destruct (cluster_walk_mono _ _ Ht rest) as [Ha _].
  apply (Ha [] [first]); [discriminate|exact Hs].
Qed.

Lemma larger_multiplier_never_more_clusters_witness :
  0 <= 2 /\
  SR.cluster_threshold_atr SR.default_detector
  <= SR.cluster_threshold_atr Examples.wide_detector /\
  (length (SR.cluster_levels Examples.wide_detector Examples.four_swings 2)
   <= length (SR.cluster_levels SR.default_detector Examples.four_swings 2))%nat.
Proof.
  assert (H0 : 0 <= 2) by (apply Qle_bool_iff; reflexivity).
  assert (Hm : SR.cluster_threshold_atr SR.default_detector
               <= SR.cluster_threshold_atr Examples.wide_detector)
    by (apply Qle_bool_iff; reflexivity).
  split; [exact H0|]. split; [exact Hm|].
  exact (larger_multiplier_never_more_clusters
           SR.default_detector Examples.wide_detector
           Examples.four_swings 2 H0 Hm).
Defined.

(* ================================================================== *)
(** * Further properties of the trend classifier *)

Section LabelFacts.
Import Trend.

Lemma trend_rules_label_eq c e3 e8 e20 pct :
  fst (trend_rules c e3 e8 e20 pct) = label_by_ema_8_20 c e8 e20.
Proof.
  unfold trend_rules, label_by_ema_8_20.
  destruct (Qltb c e3 && Qltb e3 e8 && Qltb e8 e20 && Qltb pct (-1)) eqn:R1.
  { repeat rewrite andb_true_iff in R1. destruct R1 as [[[H1 H2] H3] _].
    apply Qltb_true in H1, H2, H3.
    assert (A : Qltb c e8 = true) by (apply Qltb_true; lra).
    assert (B : Qltb c e20 = true) by (apply Qltb_true; lra).
    now rewrite A, B. }
  destruct (Qltb e3 c && Qltb e8 e3 && Qltb e20 e8 && Qltb 1 pct) eqn:R2.
  { repeat rewrite andb_true_iff in R2. destruct R2 as [[[H1 H2] H3] _].
    apply Qltb_true in H1, H2, H3.
    assert (A : Qltb e8 c = true) by (apply Qltb_true; lra).
    assert (B : Qltb e20 c = true) by (apply Qltb_true; lra).
    assert (C : Qltb c e8 = false) by (apply Qltb_false; lra).
    now rewrite A, B, C. }
  destruct (Qltb c e8 && Qltb c e20); [reflexivity|].
  destruct (Qltb e8 c && Qltb e20 c); reflexivity.
Qed.

Lemma trend_rules_strength_eq c e3 e8 e20 pct :
  let label := label_by_ema_8_20 c e8 e20 in
  snd (trend_rules c e3 e8 e20 pct)
  = if strong_move c e3 e8 e20 pct || String.eqb label "SIDEWAYS"
    then full_strength label c e20
    else full_strength label c e20 * 0.7.
Proof.
  cbv zeta. unfold trend_rules, label_by_ema_8_20, strong_move.
  destruct (Qltb c e3 && Qltb e3 e8 && Qltb e8 e20 && Qltb pct (-1)) eqn:R1.
  { repeat rewrite andb_true_iff in R1. destruct R1 as [[[H1 H2] H3] _].
    apply Qltb_true in H1, H2, H3.
    assert (A : Qltb c e8 = true) by (apply Qltb_true; lra).
    assert (B : Qltb c e20 = true) by (apply Qltb_true; lra).
    now rewrite A, B. }
  destruct (Qltb e3 c && Qltb e8 e3 && Qltb e20 e8 && Qltb 1 pct) eqn:R2.
  { repeat rewrite andb_true_iff in R2. destruct R2 as [[[H1 H2] H3] _].
    apply Qltb_true in H1, H2, H3.
    assert (A : Qltb e8 c = true) by (apply Qltb_true; lra).
    assert (B : Qltb e20 c = true) by (apply Qltb_true; lra).
    assert (C : Qltb c e8 = false) by (apply Qltb_false; lra).
    now rewrite A, B, C. }
  destruct (Qltb c e8 && Qltb c e20); [reflexivity|].
  destruct (Qltb e8 c && Qltb e20 c); reflexivity.
Qed.

End LabelFacts.

(** X1.  On 20 bars or more the label [calculate_simple_trend] returns is
    decided by the last close and the last values of the 8- and 20-span
    averages alone: DOWNTREND when the close is below both, UPTREND when it
    is above both, SIDEWAYS otherwise.  The 3-span average and the five-bar
    momentum only choose between the full and the 0.7 strength.  The full
    strength is the deviation of the close from ema_20 in percent of ema_20
    (its absolute value for DOWNTREND and SIDEWAYS); it is returned, capped
    at 100, when the label is SIDEWAYS or when close, ema_3, ema_8 and
    ema_20 are strictly ordered and the momentum is beyond 1 percent in the
    same direction; otherwise 0.7 times it is returned, capped at 100. *)
Theorem label_depends_on_ema_8_and_ema_20 (df : DataFrame) :
  (20 <= len df)%nat ->
  let c := column close df in
  let close_ := last_of c in
  let ema_3 := last_of (Trend.ewm_mean 3 c) in
  let ema_8 := last_of (Trend.ewm_mean 8 c) in
  let ema_20 := last_of (Trend.ewm_mean 20 c) in
  let label := label_by_ema_8_20 close_ ema_8 ema_20 in
  let full := full_strength label close_ ema_20 in
  fst (Trend.calculate_simple_trend df)
  = Ok (label,
        py_min (if strong_move close_ ema_3 ema_8 ema_20 (change4 c)
                   || String.eqb label "SIDEWAYS"
                then full else full * 0.7) 100.0).
Proof.
  intros H c. rewrite (calculate_simple_trend_long df H). cbv zeta. cbn [fst].
  rewrite trend_rules_label_eq, trend_rules_strength_eq. cbv zeta.
  unfold last_of. rewrite !ewm_mean_length. reflexivity.
Qed.

Section FrameFacts.
Import Trend.

Lemma set_column_same name v cols :
  get_column name cols = Some v -> set_column name v cols = cols.
Proof.
  induction cols as [|[k w] r IH]; simpl; [discriminate|].
  destruct (String.eqb k name) eqn:E.
  - intro H. injection H as ->. reflexivity.
  - intro H. now rewrite IH.
Qed.

Lemma with_emas_idem df : with_emas (with_emas df) = with_emas df.
Proof.
  unfold with_emas at 1. unfold column.
  replace (rows (with_emas df)) with (rows df) by reflexivity.
  fold (column close df). unfold with_emas. cbn [computed].
  f_equal.
  rewrite (set_column_same "ema_3").
  2:{ rewrite (get_set_other "ema_20" "ema_3") by discriminate.
      rewrite (get_set_other "ema_8" "ema_3") by discriminate.
      apply get_set_same. }
  rewrite (set_column_same "ema_8").
  2:{ rewrite (get_set_other "ema_20" "ema_8") by discriminate.
      apply get_set_same. }
  apply set_column_same, get_set_same.
Qed.

Lemma ewm_from_const a c prev xs :
  prev == c -> Forall (fun x => x == c) xs ->
  Forall (fun x => x == c) (ewm_from a prev xs).
Proof.
  revert prev. induction xs as [|x r IH]; intros prev Hp Hxs; simpl;
    constructor; inversion Hxs; subst.
  - rewrite Hp, H1. ring.
  - apply IH; [|assumption]. rewrite Hp, H1. ring.
Qed.

Lemma ewm_mean_const span c xs :
  Forall (fun x => x == c) xs -> Forall (fun x => x == c) (ewm_mean span xs).
Proof.
  intro H. destruct xs as [|x r]; simpl; [constructor|].
  inversion H; subst. constructor; [assumption|].
  now apply ewm_from_const.
Qed.

Lemma last_of_Forall (P : Q -> Prop) (l : list Q) :
  l <> [] -> Forall P l -> P (last_of l).
Proof.
  intros Hne H. rewrite Forall_forall in H. apply H. unfold last_of.
  apply nth_In. destruct l; [contradiction|simpl; lia].
Qed.

End FrameFacts.

(** X3.  Calling [calculate_simple_trend] again on the frame a first call
    left behind returns the same label and strength and leaves the frame as
    it was: the three average columns are overwritten with the values they
    already hold. *)
Theorem second_call_changes_nothing (df : DataFrame) :
  Trend.calculate_simple_trend (snd (Trend.calculate_simple_trend df))
  = Trend.calculate_simple_trend df.
Proof.
  destruct (Nat.lt_ge_cases (len df) 20) as [H|H].
  - rewrite (calculate_simple_trend_short df H). cbn [snd].
    apply calculate_simple_trend_short, H.
  - rewrite (calculate_simple_trend_long df H). cbv zeta. cbn [snd].
    rewrite (calculate_simple_trend_long (with_emas df)) by exact H.
    cbv zeta. rewrite with_emas_idem. reflexivity.
Qed.

(** X4.  On 20 bars or more that all close at one non-zero price,
    [calculate_simple_trend] returns SIDEWAYS with strength 0. *)
Theorem flat_closes_are_sideways (df : DataFrame) (c : Q) :
  (20 <= len df)%nat -> ~ c == 0 ->
  Forall (fun x => x == c) (column close df) ->
  exists strength,
    fst (Trend.calculate_simple_trend df) = Ok ("SIDEWAYS", strength)
    /\ strength == 0.
Proof.
  intros H Hc Hall.
  rewrite (calculate_simple_trend_long df H). cbv zeta. cbn [fst].
  assert (Hlen : length (column close df) = len df)
    by (unfold column; apply length_map).
  assert (Hne : forall l : list Q, length l = len df -> l <> []).
  { intros l Hl E. rewrite E in Hl. simpl in Hl. lia. }
  set (cl := column close df) in *.
  pose proof (last_of_Forall _ cl (Hne _ Hlen) Hall) as L0.
  pose proof (last_of_Forall _ _ (Hne _ (eq_trans (ewm_mean_length 8 cl) Hlen))
                (ewm_mean_const 8 c cl Hall)) as L8.
  pose proof (last_of_Forall _ _ (Hne _ (eq_trans (ewm_mean_length 20 cl) Hlen))
                (ewm_mean_const 20 c cl Hall)) as L20.
  unfold last_of in L0, L8, L20. rewrite ewm_mean_length in L8, L20.
  cbv beta in L0, L8, L20.
  set (x := nth (length cl - 1) cl 0) in *.
  set (e3 := nth (length cl - 1) (Trend.ewm_mean 3 cl) 0).
  set (e8 := nth (length cl - 1) (Trend.ewm_mean 8 cl) 0) in *.
  set (e20 := nth (length cl - 1) (Trend.ewm_mean 20 cl) 0) in *.
  pose proof (trend_rules_label_eq x e3 e8 e20 (change4 cl)) as Hlab.
  assert (Hside : label_by_ema_8_20 x e8 e20 = "SIDEWAYS").
  { unfold label_by_ema_8_20.
    assert (A : Qltb x e8 = false) by (apply Qltb_false; rewrite L0, L8; lra).
    assert (B : Qltb e8 x = false) by (apply Qltb_false; rewrite L0, L8; lra).
    now rewrite A, B. }
  rewrite Hside in Hlab.
  eexists. split; [rewrite Hlab; reflexivity|].
  (* only the last rule returns SIDEWAYS *)
  assert (Hs : snd (Trend.trend_rules x e3 e8 e20 (change4 cl))
               == Qabs ((x - e20) / e20) * 100).
  { revert Hlab. unfold Trend.trend_rules.
    repeat match goal with
           | |- context [if ?b then _ else _] => destruct b
           end; cbn [fst snd]; try discriminate. intros _. reflexivity. }
  assert (Hz : snd (Trend.trend_rules x e3 e8 e20 (change4 cl)) == 0).
  { rewrite Hs. assert (E : (x - e20) / e20 == 0).
    { rewrite L0, L20. field. exact Hc. }
    rewrite E. reflexivity. }
  unfold py_min.
  destruct (Qltb 100.0 (snd (Trend.trend_rules x e3 e8 e20 (change4 cl))))
    eqn:E; [|exact Hz].
  apply Qltb_true in E. rewrite Hz in E. lra.
Qed.

Section AverageFacts.
Import Trend.

Lemma alpha_range (span : Z) : (2 <= span)%Z -> 0 < alpha span /\ alpha span < 1.
Proof.
  intro H. unfold alpha.
  assert (H2 : 2 <= inject_Z span)
    by (change 2 with (inject_Z 2); rewrite <- Zle_Qle; lia).
  split.
  - apply Qlt_shift_div_l; lra.
  - apply Qlt_shift_div_r; lra.
Qed.

Lemma last_of_cons (x y : Q) (r : list Q) :
  last_of (x :: y :: r) = last_of (y :: r).
Proof.
  unfold last_of. cbn [length].
  replace (S (S (length r)) - 1)%nat with (S (length r)) by lia.
  replace (S (length r) - 1)%nat with (length r) by lia.
  reflexivity.
Qed.

(** On strictly rising input the average stays strictly below it. *)
Lemma ewm_from_below a prev xs :
  0 < a -> a < 1 -> xs <> [] ->
  StronglySorted Qlt xs -> Forall (fun x => prev < x) xs ->
  last_of (ewm_from a prev xs) < last_of xs.
Proof.
  intros Ha Ha1. revert prev.
  induction xs as [|x r IH]; intros prev Hne Hs Hp; [contradiction|].
  inversion Hs as [|? ? Hs' Hall]; subst. inversion Hp as [|? ? Hpx Hpr]; subst.
  destruct r as [|x' r'].
  - unfold last_of. simpl. nra.
  - cbn [ewm_from]. rewrite !last_of_cons.
    apply (IH ((1 - a) * prev + a * x)); [discriminate|assumption|].
    eapply Forall_impl; [|exact Hall]. cbv beta. intros y Hy. nra.
Qed.

(** On strictly falling input it stays strictly above. *)
Lemma ewm_from_above a prev xs :
  0 < a -> a < 1 -> xs <> [] ->
  StronglySorted (fun x y => y < x) xs -> Forall (fun x => x < prev) xs ->
  last_of xs < last_of (ewm_from a prev xs).
Proof.
  intros Ha Ha1. revert prev.
  induction xs as [|x r IH]; intros prev Hne Hs Hp; [contradiction|].
  inversion Hs as [|? ? Hs' Hall]; subst. inversion Hp as [|? ? Hpx Hpr]; subst.
  destruct r as [|x' r'].
  - unfold last_of. simpl. nra.
  - cbn [ewm_from]. rewrite !last_of_cons.
    apply (IH ((1 - a) * prev + a * x)); [discriminate|assumption|].
    eapply Forall_impl; [|exact Hall]. cbv beta. intros y Hy. nra.
Qed.

Lemma ewm_mean_below span xs :
  (2 <= span)%Z -> (2 <= length xs)%nat -> StronglySorted Qlt xs ->
  last_of (ewm_mean span xs) < last_of xs.
Proof.
  intros Hs Hl Hsorted. destruct xs as [|x [|x' r]]; try (simpl in Hl; lia).
  destruct (alpha_range span Hs) as [Ha Ha1].
  inversion Hsorted as [|? ? Hs' Hall]; subst.
  cbn [ewm_mean ewm_from]. rewrite !last_of_cons.
  apply (ewm_from_below (alpha span) x (x' :: r) Ha Ha1);
    [discriminate|assumption|assumption].
Qed.

Lemma ewm_mean_above span xs :
  (2 <= span)%Z -> (2 <= length xs)%nat ->
  StronglySorted (fun x y => y < x) xs ->
  last_of xs < last_of (ewm_mean span xs).
Proof.
  intros Hs Hl Hsorted. destruct xs as [|x [|x' r]]; try (simpl in Hl; lia).
  destruct (alpha_range span Hs) as [Ha Ha1].
  inversion Hsorted as [|? ? Hs' Hall]; subst.
  cbn [ewm_mean ewm_from]. rewrite !last_of_cons.
  apply (ewm_from_above (alpha span) x (x' :: r) Ha Ha1);
    [discriminate|assumption|assumption].
Qed.

End AverageFacts.

Section DirectionFacts.
Import Trend.

Lemma py_min_pos (a b : Q) : 0 < a -> 0 < b -> 0 < py_min a b.
Proof. intros Ha Hb. unfold py_min. destruct (Qltb b a); assumption. Qed.

Lemma ratio_pos (x y : Q) : 0 < y -> y < x -> 0 < (x - y) / y.
Proof. intros Hy Hxy. apply Qlt_shift_div_l; [assumption|lra]. Qed.

Lemma trend_rules_up c e3 e8 e20 pct :
  0 < e20 -> e8 < c -> e20 < c ->
  fst (trend_rules c e3 e8 e20 pct) = "UPTREND"
  /\ 0 < snd (trend_rules c e3 e8 e20 pct).
Proof.
  intros He H8 H20. pose proof (ratio_pos c e20 He H20) as Hr.
  assert (A : Qltb e8 c = true) by now apply Qltb_true.
  assert (B : Qltb e20 c = true) by now apply Qltb_true.
  assert (C : Qltb c e8 = false) by (apply Qltb_false; lra).
  unfold trend_rules.
  destruct (Qltb c e3 && Qltb e3 e8 && Qltb e8 e20 && Qltb pct (-1)) eqn:R1.
  { repeat rewrite andb_true_iff in R1. destruct R1 as [[[H1 H2] H3] _].
    apply Qltb_true in H1, H2, H3. lra. }
  destruct (Qltb e3 c && Qltb e8 e3 && Qltb e20 e8 && Qltb 1 pct).
  { cbn [fst snd]. split; [reflexivity|lra]. }
  rewrite A, B, C. cbn [andb fst snd]. split; [reflexivity|lra].
Qed.

Lemma trend_rules_down c e3 e8 e20 pct :
  0 < e20 -> c < e8 -> c < e20 ->
  fst (trend_rules c e3 e8 e20 pct) = "DOWNTREND"
  /\ 0 < snd (trend_rules c e3 e8 e20 pct).
Proof.
  intros He H8 H20. pose proof (ratio_pos e20 c) as Hr.
  assert (Hq : 0 < Qabs ((e20 - c) / e20)).
  { assert (0 < (e20 - c) / e20) by (apply Qlt_shift_div_l; lra).
    rewrite Qabs_pos; lra. }
  assert (A : Qltb c e8 = true) by now apply Qltb_true.
  assert (B : Qltb c e20 = true) by now apply Qltb_true.
  unfold trend_rules.
  destruct (Qltb c e3 && Qltb e3 e8 && Qltb e8 e20 && Qltb pct (-1)).
  { cbn [fst snd]. split; [reflexivity|lra]. }
  destruct (Qltb e3 c && Qltb e8 e3 && Qltb e20 e8 && Qltb 1 pct) eqn:R2.
  { repeat rewrite andb_true_iff in R2. destruct R2 as [[[H1 H2] H3] _].
    apply Qltb_true in H1, H2, H3. lra. }
  rewrite A, B. cbn [andb fst snd]. split; [reflexivity|lra].
Qed.

End DirectionFacts.

(** X5.  On 20 bars or more with positive, strictly rising closes,
    [calculate_simple_trend] returns UPTREND with a strength above 0 and at
    most 100. *)
Theorem rising_closes_are_an_uptrend (df : DataFrame) :
  (20 <= len df)%nat ->
  Forall (fun c => 0 < c) (column close df) ->
  StronglySorted Qlt (column close df) ->
  exists strength,
    fst (Trend.calculate_simple_trend df) = Ok ("UPTREND", strength)
    /\ 0 < strength /\ strength <= 100.
Proof.
  intros H Hpos Hs.
  rewrite (calculate_simple_trend_long df H). cbv zeta. cbn [fst].
  assert (Hlen : length (column close df) = len df)
    by (unfold column; apply length_map).
  set (cl := column close df) in *.
  assert (Hl2 : (2 <= length cl)%nat) by lia.
  pose proof (ewm_mean_below 8 cl ltac:(lia) Hl2 Hs) as B8.
  pose proof (ewm_mean_below 20 cl ltac:(lia) Hl2 Hs) as B20.
  assert (P20 : 0 < last_of (Trend.ewm_mean 20 cl)).
  { apply (last_of_Forall (fun c => 0 < c)).
    - intro E. apply (f_equal (@length Q)) in E.
      rewrite ewm_mean_length in E. simpl in E. lia.
    - apply ewm_mean_pos; [lia|assumption]. }
  unfold last_of in B8, B20, P20. rewrite ewm_mean_length in B8, B20, P20.
  destruct (trend_rules_up (nth (length cl - 1) cl 0)
              (nth (length cl - 1) (Trend.ewm_mean 3 cl) 0)
              _ _ (change4 cl) P20 B8 B20) as [Hl Hst].
  eexists. split; [rewrite Hl; reflexivity|]. split.
  - apply py_min_pos; [exact Hst|reflexivity].
  - eapply Qle_trans; [apply py_min_le|]. apply Qle_bool_iff. reflexivity.
Qed.

(** X6.  On 20 bars or more with positive, strictly falling closes,
    [calculate_simple_trend] returns DOWNTREND with a strength above 0 and
    at most 100. *)
Theorem falling_closes_are_a_downtrend (df : DataFrame) :
  (20 <= len df)%nat ->
  Forall (fun c => 0 < c) (column close df) ->
  StronglySorted (fun x y => y < x) (column close df) ->
  exists strength,
    fst (Trend.calculate_simple_trend df) = Ok ("DOWNTREND", strength)
    /\ 0 < strength /\ strength <= 100.
Proof.
  intros H Hpos Hs.
  rewrite (calculate_simple_trend_long df H). cbv zeta. cbn [fst].
  assert (Hlen : length (column close df) = len df)
    by (unfold column; apply length_map).
  set (cl := column close df) in *.
  assert (Hl2 : (2 <= length cl)%nat) by lia.
  pose proof (ewm_mean_above 8 cl ltac:(lia) Hl2 Hs) as B8.
  pose proof (ewm_mean_above 20 cl ltac:(lia) Hl2 Hs) as B20.
  assert (P20 : 0 < last_of (Trend.ewm_mean 20 cl)).
  { apply (last_of_Forall (fun c => 0 < c)).
    - intro E. apply (f_equal (@length Q)) in E.
      rewrite ewm_mean_length in E. simpl in E. lia.
    - apply ewm_mean_pos; [lia|assumption]. }
  unfold last_of in B8, B20, P20. rewrite ewm_mean_length in B8, B20, P20.
  destruct (trend_rules_down (nth (length cl - 1) cl 0)
              (nth (length cl - 1) (Trend.ewm_mean 3 cl) 0)
              _ _ (change4 cl) P20 B8 B20) as [Hl Hst].
  eexists. split; [rewrite Hl; reflexivity|]. split.
  - apply py_min_pos; [exact Hst|reflexivity].
  - eapply Qle_trans; [apply py_min_le|]. apply Qle_bool_iff. reflexivity.
Qed.

Section RangeFacts.
Import Trend.

Lemma ewm_from_range a lo hi prev xs :
  0 < a -> a <= 1 -> lo <= prev <= hi ->
  Forall (fun x => lo <= x <= hi) xs ->
  Forall (fun x => lo <= x <= hi) (ewm_from a prev xs).
Proof.
  intros Ha Ha1. revert prev.
  induction xs as [|x r IH]; intros prev Hp Hxs; simpl; constructor;
    inversion Hxs as [|? ? Hx Hr]; subst.
  - split; nra.
  - apply IH; [split; nra|assumption].
Qed.

Lemma ewm_mean_range span lo hi xs :
  (1 <= span)%Z -> Forall (fun x => lo <= x <= hi) xs ->
  Forall (fun x => lo <= x <= hi) (ewm_mean span xs).
Proof.
  intros Hs Hxs. destruct xs as [|x r]; simpl; [constructor|].
  inversion Hxs as [|? ? Hx Hr]; subst. constructor; [assumption|].
  assert (Hq : 1 <= inject_Z span)
    by (change 1 with (inject_Z 1); rewrite <- Zle_Qle; lia).
  apply ewm_from_range; try assumption; unfold alpha.
  - apply Qlt_shift_div_l; lra.
  - apply Qle_shift_div_r; lra.
Qed.

End RangeFacts.

(** X7.  After a call on 20 bars or more each of the columns ema_3, ema_8
    and ema_20 that [calculate_simple_trend] assigns holds one value per
    row, and every value lies between any two bounds that enclose all the
    closes. *)
Theorem ema_columns_stay_within_the_closes
        (df : DataFrame) (lo hi : Q) (name : string) :
  (20 <= len df)%nat ->
  In name ["ema_3"; "ema_8"; "ema_20"] ->
  Forall (fun c => lo <= c <= hi) (column close df) ->
  exists e,
    get_column name (computed (snd (Trend.calculate_simple_trend df)))
    = Some e
    /\ length e = len df
    /\ Forall (fun y => lo <= y <= hi) e.
Proof.
  intros H Hn Hr.
  rewrite (calculate_simple_trend_long df H). cbv zeta. cbn [snd].
  unfold with_emas. cbn [computed].
  assert (Hlen : length (column close df) = len df)
    by (unfold column; apply length_map).
  destruct Hn as [<-|[<-|[<-|[]]]].
  - exists (Trend.ewm_mean 3 (column close df)).
    rewrite (get_set_other "ema_20" "ema_3") by discriminate.
    rewrite (get_set_other "ema_8" "ema_3") by discriminate.
    rewrite get_set_same, ewm_mean_length.
    repeat split; [exact Hlen|]. apply ewm_mean_range; [lia|assumption].
  - exists (Trend.ewm_mean 8 (column close df)).
    rewrite (get_set_other "ema_20" "ema_8") by discriminate.
    rewrite get_set_same, ewm_mean_length.
    repeat split; [exact Hlen|]. apply ewm_mean_range; [lia|assumption].
  - exists (Trend.ewm_mean 20 (column close df)).
    rewrite get_set_same, ewm_mean_length.
    repeat split; [exact Hlen|]. apply ewm_mean_range; [lia|assumption].
Qed.

(** X2.  [calculate_simple_trend] returns for every frame, and its label is
    NEUTRAL exactly when the frame has fewer than 20 rows; the strength that
    comes with NEUTRAL is 0.0. *)
Theorem neutral_means_too_few_bars (df : DataFrame) :
  exists label strength,
    fst (Trend.calculate_simple_trend df) = Ok (label, strength)
    /\ (label = "NEUTRAL" <-> (len df < 20)%nat)
    /\ (label = "NEUTRAL" -> strength = 0.0).
Proof.
  destruct (Nat.lt_ge_cases (len df) 20) as [H|H].
  - rewrite (calculate_simple_trend_short df H). cbn [fst].
    exists "NEUTRAL", 0.0. repeat split; auto.
  - rewrite (calculate_simple_trend_long df H). cbv zeta. cbn [fst].
    do 2 eexists. split; [reflexivity|].
    match goal with
    | |- context [fst (Trend.trend_rules ?c ?e3 ?e8 ?e20 ?p)] =>
        pose proof (trend_rules_label c e3 e8 e20 p) as Hl
    end.
    assert (Hn : forall l, In l ["UPTREND"; "DOWNTREND"; "SIDEWAYS"] ->
                           l <> "NEUTRAL").
    { intros l [<-|[<-|[<-|[]]]]; discriminate. }
    apply Hn in Hl. split; [split|]; intro C; [contradiction|lia|contradiction].
Qed.

(* ================================================================== *)
(** * The trend and the unit of the prices *)

Section UnitFacts.

Import Trend.

Variable k : Q.
Hypothesis k_pos : 0 < k.

Lemma Qltb_scaled (x y x' y' : Q) :
  x' == k * x -> y' == k * y -> Qltb x' y' = Qltb x y.
Proof.
  intros Hx Hy. destruct (Qltb x y) eqn:E.
  - apply Qltb_true in E. apply Qltb_true. rewrite Hx, Hy. nra.
  - apply Qltb_false in E. apply Qltb_false. rewrite Hx, Hy. nra.
Qed.

Lemma Qltb_same (x y x' y' : Q) :
  x' == x -> y' == y -> Qltb x' y' = Qltb x y.
Proof.
  intros Hx Hy. destruct (Qltb x y) eqn:E.
  - apply Qltb_true in E. apply Qltb_true. now rewrite Hx, Hy.
  - apply Qltb_false in E. apply Qltb_false. now rewrite Hx, Hy.
Qed.

Lemma ratio_scaled (x y x' y' : Q) :
  ~ y == 0 -> x' == k * x -> y' == k * y -> (x' - y') / y' == (x - y) / y.
Proof.
  intros Hy Hx Hy'. rewrite Hx, Hy'. field. split; [exact Hy|lra].
Qed.

Lemma trend_rules_scaled (c e3 e8 e20 pct c' e3' e8' e20' pct' : Q) :
  ~ e20 == 0 ->
  c' == k * c -> e3' == k * e3 -> e8' == k * e8 -> e20' == k * e20 ->
  pct' == pct ->
  fst (trend_rules c' e3' e8' e20' pct') = fst (trend_rules c e3 e8 e20 pct)
  /\ snd (trend_rules c' e3' e8' e20' pct')
     == snd (trend_rules c e3 e8 e20 pct).
Proof.
  intros He Hc H3 H8 H20 Hp. unfold trend_rules.
  rewrite (Qltb_scaled c e3 c' e3' Hc H3), (Qltb_scaled e3 e8 e3' e8' H3 H8),
    (Qltb_scaled e8 e20 e8' e20' H8 H20), (Qltb_scaled e3 c e3' c' H3 Hc),
    (Qltb_scaled e8 e3 e8' e3' H8 H3), (Qltb_scaled e20 e8 e20' e8' H20 H8),
    (Qltb_scaled c e8 c' e8' Hc H8), (Qltb_scaled c e20 c' e20' Hc H20),
    (Qltb_scaled e8 c e8' c' H8 Hc), (Qltb_scaled e20 c e20' c' H20 Hc),
    (Qltb_same pct (-1) pct' (-1) Hp (Qeq_refl _)),
    (Qltb_same 1 pct 1 pct' (Qeq_refl _) Hp).
  pose proof (ratio_scaled c e20 c' e20' He Hc H20) as R1.
  assert (R2 : (e20' - c') / e20' == (e20 - c) / e20).
  { rewrite Hc, H20. field. split; [exact He|lra]. }
  repeat match goal with
         | |- context [if ?b then _ else _] => destruct b
         end; cbn [fst snd]; (split; [reflexivity|]);
    rewrite ?R1, ?R2; reflexivity.
Qed.

Lemma py_min_same (a a' b : Q) : a' == a -> py_min a' b == py_min a b.
Proof.
  intro H. unfold py_min. rewrite (Qltb_same b a b a' (Qeq_refl _) H).
  destruct (Qltb b a); [reflexivity|exact H].
Qed.

Lemma ewm_from_scaled (a prev prev' : Q) (xs ys : list Q) :
  prev' == k * prev -> scaled_by k xs ys ->
  scaled_by k (ewm_from a prev xs) (ewm_from a prev' ys).
Proof.
  intros Hp H. revert prev prev' Hp.
  induction H as [|x y xs ys Hxy _ IH]; intros prev prev' Hp;
    cbn [ewm_from]; constructor.
  - rewrite Hp, Hxy. ring.
  - apply IH. rewrite Hp, Hxy. ring.
Qed.

Lemma ewm_mean_scaled (span : Z) (xs ys : list Q) :
  scaled_by k xs ys -> scaled_by k (ewm_mean span xs) (ewm_mean span ys).
Proof.
  intro H. destruct H as [|x y xs ys Hxy H]; cbn [ewm_mean]; constructor.
  - exact Hxy.
  - now apply ewm_from_scaled.
Qed.

Lemma scaled_by_nth (xs ys : list Q) (i : nat) :
  scaled_by k xs ys -> (i < length xs)%nat -> nth i ys 0 == k * nth i xs 0.
Proof.
  intro H. revert i. induction H as [|x y xs ys Hxy _ IH]; intros i Hi.
  - cbn [length] in Hi. lia.
  - destruct i as [|i]; cbn [nth]; [exact Hxy|]. apply IH.
    cbn [length] in Hi. lia.
Qed.

Lemma scaled_by_length (xs ys : list Q) :
  scaled_by k xs ys -> length ys = length xs.
Proof. intro H. symmetry. eapply Forall2_length; eauto. Qed.

Lemma change4_scaled (xs ys : list Q) :
  scaled_by k xs ys -> (5 <= length xs)%nat ->
  ~ nth (length xs - 1 - 4) xs 0 == 0 ->
  change4 ys == change4 xs.
Proof.
  intros H Hl Hne. unfold change4. rewrite (scaled_by_length _ _ H).
  rewrite (scaled_by_nth xs ys (length xs - 1) H) by lia.
  rewrite (scaled_by_nth xs ys (length xs - 1 - 4) H) by lia.
  field. split; [exact Hne|lra].
Qed.

End UnitFacts.

(** X8.  In exact arithmetic the result of [calculate_simple_trend] does not
    depend on the unit prices are quoted in: two frames of 20 bars or more
    with positive closes, the closes of one a positive multiple of the
    closes of the other, get the same label and the same strength. *)
Theorem trend_does_not_depend_on_the_price_unit
        (df1 df2 : DataFrame) (k : Q) :
  0 < k -> (20 <= len df1)%nat ->
  Forall (fun c => 0 < c) (column close df1) ->
  scaled_by k (column close df1) (column close df2) ->
  exists label strength1 strength2,
    fst (Trend.calculate_simple_trend df1) = Ok (label, strength1)
    /\ fst (Trend.calculate_simple_trend df2) = Ok (label, strength2)
    /\ strength2 == strength1.
Proof.
  intros Hk Hlen Hpos Hs.
  assert (Hl1 : length (column close df1) = len df1)
    by (unfold column; apply length_map).
  assert (Hl2 : length (column close df2) = len df2)
    by (unfold column; apply length_map).
  pose proof (scaled_by_length k _ _ Hs) as Hll.
  assert (Hlen2 : (20 <= len df2)%nat) by lia.
  rewrite (calculate_simple_trend_long df1 Hlen),
    (calculate_simple_trend_long df2 Hlen2). cbv zeta. cbn [fst].
  set (c1 := column close df1) in *. set (c2 := column close df2) in *.
  rewrite Hll.
  assert (Hi : (length c1 - 1 < length c1)%nat) by lia.
  assert (He : forall span,
             nth (length c1 - 1) (Trend.ewm_mean span c2) 0
             == k * nth (length c1 - 1) (Trend.ewm_mean span c1) 0).
  { intro span. apply scaled_by_nth; [now apply ewm_mean_scaled|].
    now rewrite ewm_mean_length. }
  assert (P20 : ~ nth (length c1 - 1) (Trend.ewm_mean 20 c1) 0 == 0).
  { assert (0 < nth (length c1 - 1) (Trend.ewm_mean 20 c1) 0).
    { pose proof (ewm_mean_pos 20 c1 ltac:(lia) Hpos) as Hp.
      rewrite Forall_forall in Hp. apply Hp, nth_In.
      rewrite ewm_mean_length. exact Hi. }
    intro C. rewrite C in H. lra. }
  assert (Pf : ~ nth (length c1 - 1 - 4) c1 0 == 0).
  { assert (0 < nth (length c1 - 1 - 4) c1 0).
    { rewrite Forall_forall in Hpos. apply Hpos, nth_In. lia. }
    intro C. rewrite C in H. lra. }
  destruct (trend_rules_scaled k Hk
              (nth (length c1 - 1) c1 0)
              (nth (length c1 - 1) (Trend.ewm_mean 3 c1) 0)
              (nth (length c1 - 1) (Trend.ewm_mean 8 c1) 0)
              (nth (length c1 - 1) (Trend.ewm_mean 20 c1) 0)
              (change4 c1)
              (nth (length c1 - 1) c2 0)
              (nth (length c1 - 1) (Trend.ewm_mean 3 c2) 0)
              (nth (length c1 - 1) (Trend.ewm_mean 8 c2) 0)
              (nth (length c1 - 1) (Trend.ewm_mean 20 c2) 0)
              (change4 c2) P20
              (scaled_by_nth k c1 c2 _ Hs Hi) (He 3%Z) (He 8%Z) (He 20%Z)
              (change4_scaled k Hk c1 c2 Hs ltac:(lia) Pf))
    as [Hlab Hstr].
  do 3 eexists. split; [reflexivity|]. split.
  - rewrite Hlab. reflexivity.
  - now apply py_min_same.
Qed.

(* ================================================================== *)
(** * The average true range and its fallback *)

Section AtrFacts.
Import SR.

Lemma Qmax2_ge_r (a b : Q) : b <= Qmax2 a b.
Proof.
  unfold Qmax2. destruct (Qltb a b) eqn:E; [apply Qle_refl|].
  now apply Qltb_false in E.
Qed.

Lemma Qmax2_ge_l (a b : Q) : a <= Qmax2 a b.
Proof.
  unfold Qmax2. destruct (Qltb a b) eqn:E; [|apply Qle_refl].
  apply Qltb_true in E. now apply Qlt_le_weak.
Qed.

(** After the first row every true range is at least an absolute value. *)
Lemma true_range_nonneg (c : Q) (bars : list Bar) :
  Forall (fun tr => 0 <= tr) (true_range (Some c) bars).
Proof.
  revert c. induction bars as [|b r IH]; intro c; cbn [true_range];
    constructor.
  - eapply Qle_trans; [apply Qabs_nonneg|apply Qmax2_ge_r].
  - apply IH.
Qed.

Lemma true_range_skip_first (bars : list Bar) :
  Forall (fun tr => 0 <= tr) (skipn 1 (true_range None bars)).
Proof.
  destruct bars as [|b r]; cbn [true_range skipn]; [constructor|].
  apply true_range_nonneg.
Qed.

Lemma true_range_first_nonneg (bars : list Bar) :
  Forall (fun b => low b <= high b) bars ->
  Forall (fun tr => 0 <= tr) (true_range None bars).
Proof.
  intro H. destruct bars as [|b r]; cbn [true_range]; constructor.
  - inversion H; subst. lra.
  - apply true_range_nonneg.
Qed.

Lemma np_mean_lower (l : list Q) (x : Q) :
  l <> [] -> Forall (fun y => x <= y) l -> x <= np_mean l.
Proof.
  intros Hne H. rewrite np_mean_eq.
  apply Qle_shift_div_l; [now apply qlen_pos|].
  rewrite Qmult_comm. now apply py_sum_lower.
Qed.

Lemma Forall_skipn {A} (P : A -> Prop) (n : nat) (l : list A) :
  Forall P l -> Forall P (skipn n l).
Proof.
  intro H. rewrite <- (firstn_skipn n l) in H.
  now apply Forall_app in H.
Qed.

Lemma Forall_firstn {A} (P : A -> Prop) (n : nat) (l : list A) :
  Forall P l -> Forall P (firstn n l).
Proof.
  intro H. rewrite <- (firstn_skipn n l) in H.
  now apply Forall_app in H.
Qed.

Lemma Forall_slice {A} (P : A -> Prop) (a b : nat) (l : list A) :
  Forall P (skipn a l) -> Forall P (slice a b l).
Proof. intro H. unfold slice. now apply Forall_firstn. Qed.

Lemma skipn_skipn_1 {A} (a : nat) (l : list A) :
  (1 <= a)%nat -> skipn a l = skipn (a - 1) (skipn 1 l).
Proof.
  intro H. destruct a as [|a]; [lia|]. destruct l as [|x r].
  - now rewrite !skipn_nil.
  - replace (S a - 1)%nat with a by lia. reflexivity.
Qed.

Lemma slice_length {A} (a b : nat) (l : list A) :
  (a <= b)%nat -> (b <= length l)%nat -> length (slice a b l) = (b - a)%nat.
Proof.
  intros H1 H2. unfold slice. rewrite length_firstn, length_skipn. lia.
Qed.

Lemma rolling_mean_nth (window : nat) (xs : list Q) (i : nat) :
  (i < length xs)%nat ->
  nth_error (rolling_mean window xs) i
  = Some (if (S i <? window)%nat then None
          else Some (np_mean (slice (S i - window) (S i) xs))).
Proof.
  intro H. unfold rolling_mean.
  rewrite nth_error_map, nth_error_nth' with (d := 0%nat)
    by (rewrite length_seq; exact H).
  rewrite seq_nth by exact H. reflexivity.
Qed.

End AtrFacts.

(** X9.  [calculate_atr] with a period of at least 1 returns one entry per
    row; the entries of the first period - 1 rows are NaN and every later
    entry is a number.  From row index period on that number is non-negative
    whatever the bars are, and at row index period - 1, whose window takes
    in the first row, it is non-negative when no bar has its high below its
    low. *)
Theorem atr_is_defined_and_non_negative
        (period : nat) (df : DataFrame) (i : nat) :
  (1 <= period)%nat -> (i < len df)%nat ->
  length (SR.calculate_atr period df) = len df /\
  ((S i < period)%nat -> nth_error (SR.calculate_atr period df) i = Some None) /\
  ((period <= S i)%nat ->
   exists atr,
     nth_error (SR.calculate_atr period df) i = Some (Some atr) /\
     ((period <= i)%nat \/ Forall (fun b => low b <= high b) (rows df) ->
      0 <= atr)).
Proof.
  intros Hp Hi. split; [apply calculate_atr_length|].
  assert (Hl : (i < length (SR.true_range None (rows df)))%nat)
    by (rewrite true_range_length; exact Hi).
  unfold SR.calculate_atr. rewrite (rolling_mean_nth _ _ _ Hl).
  split.
  - intro H. apply Nat.ltb_lt in H. now rewrite H.
  - intro H. assert (Hb : (S i <? period)%nat = false) by (apply Nat.ltb_ge; lia).
    rewrite Hb. eexists. split; [reflexivity|].
    intro Hc.
    assert (Hne : slice (S i - period) (S i) (SR.true_range None (rows df))
                  <> []).
    { intro E. apply (f_equal (@length Q)) in E.
      rewrite slice_length in E by lia. cbn [length] in E. lia. }
    apply np_mean_lower; [exact Hne|].
    apply Forall_slice. destruct Hc as [Hc|Hc].
    + rewrite skipn_skipn_1 by lia. apply Forall_skipn.
      apply true_range_skip_first.
    + apply Forall_skipn. now apply true_range_first_nonneg.
Qed.

Section FallbackFacts.
Import SR.

Lemma atr_of_last_row (df : DataFrame) :
  (14 <= len df)%nat ->
  iloc_last (calculate_atr 14 df)
  = Ok (Some (np_mean (slice (len df - 14) (len df)
                             (true_range None (rows df))))).
Proof.
  intro H.
  assert (Hl : length (calculate_atr 14 df) = len df)
    by apply calculate_atr_length.
  rewrite (iloc_last_nth _ None).
  2:{ intro E. rewrite E in Hl. cbn [length] in Hl. lia. }
  f_equal. apply nth_error_nth. rewrite Hl.
  unfold calculate_atr. rewrite rolling_mean_nth
    by (rewrite true_range_length; unfold len in *; lia).
  replace (S (len df - 1)) with (len df) by lia.
  assert (Hb : (len df <? 14)%nat = false) by (apply Nat.ltb_ge; exact H).
  now rewrite Hb.
Qed.

Lemma atr_or_std_long (std : list Q -> Q) (df : DataFrame) :
  (14 <= len df)%nat ->
  atr_or_std std df
  = Ok (np_mean (slice (len df - 14) (len df) (true_range None (rows df)))).
Proof. intro H. unfold atr_or_std. now rewrite atr_of_last_row. Qed.

End FallbackFacts.

(** X10.  [detect_sr_levels] does not depend on the standard deviation of
    the highs: a frame that passes its 50-row check has a rolling 14-row ATR
    in its last row, so the fallback of lines 208-209 is never taken. *)
Theorem std_fallback_is_never_used
        (std1 std2 : list Q -> Q) (d : SR.SimpleSRDetector)
        (max_support max_resistance : Z) (df : DataFrame) :
  SR.detect_sr_levels std1 d max_support max_resistance df
  = SR.detect_sr_levels std2 d max_support max_resistance df.
Proof.
  destruct (Nat.lt_ge_cases (len df) 50) as [H|H].
  - now rewrite !detect_sr_levels_short.
  - unfold SR.detect_sr_levels, bind, read, ret.
    assert (Hb : (len df <? 50)%nat = false) by (apply Nat.ltb_ge; exact H).
    rewrite Hb.
    rewrite (atr_or_std_long std1), (atr_or_std_long std2) by lia.
    reflexivity.
Qed.

(** X11.  On 15 rows or more, hence on every frame that passes the 50-row
    check of [detect_sr_levels], the ATR that [detect_sr_levels] works with
    is the rolling value of the last row and is non-negative whatever the
    bars are; with a non-negative multiplier so is the threshold atr *
    cluster_threshold_atr used for clustering and touch counting. *)
Theorem clustering_threshold_is_non_negative
        (series_std : list Q -> Q) (d : SR.SimpleSRDetector) (df : DataFrame) :
  (15 <= len df)%nat -> 0 <= SR.cluster_threshold_atr d ->
  exists atr,
    SR.atr_or_std series_std df = Ok atr
    /\ 0 <= atr
    /\ 0 <= atr * SR.cluster_threshold_atr d.
Proof.
  intros H Hm. rewrite atr_or_std_long by lia.
  eexists. split; [reflexivity|].
  assert (Ha : 0 <= np_mean (slice (len df - 14) (len df)
                               (SR.true_range None (rows df)))).
  { apply np_mean_lower.
    - intro E. apply (f_equal (@length Q)) in E.
      rewrite slice_length in E
        by (rewrite ?true_range_length; unfold len in *; lia).
      cbn [length] in E. lia.
    - apply Forall_slice. rewrite skipn_skipn_1 by lia.
      apply Forall_skipn, true_range_skip_first. }
  split; [exact Ha|]. nra.
Qed.

(* ================================================================== *)
(** * The lists [detect_sr_levels] returns *)

Section OrderFacts.
Context {A : Type} (leb : A -> A -> bool).
Hypothesis leb_total : forall x y, leb x y = true \/ leb y x = true.
Hypothesis leb_trans :
  forall x y z, leb x y = true -> leb y z = true -> leb x z = true.

Lemma insert_ordered (x : A) (l : list A) :
  StronglySorted (fun a b => leb a b = true) l ->
  StronglySorted (fun a b => leb a b = true) (insert leb x l).
Proof.
  induction 1 as [|y r Hr IH Hall]; simpl.
  - repeat constructor.
  - destruct (leb y x) eqn:E.
    + constructor; [exact IH|].
      eapply Permutation_Forall; [symmetry; apply insert_perm|].
      constructor; assumption.
    + assert (Hxy : leb x y = true)
        by (destruct (leb_total x y) as [H|H]; [exact H|congruence]).
      constructor; [constructor; assumption|].
      constructor; [exact Hxy|].
      eapply Forall_impl; [|exact Hall]. cbv beta.
      intros z Hz. eapply leb_trans; eauto.
Qed.

Lemma fold_insert_ordered (l acc : list A) :
  StronglySorted (fun a b => leb a b = true) acc ->
  StronglySorted (fun a b => leb a b = true)
    (fold_left (fun acc x => insert leb x acc) l acc).
Proof.
  revert acc. induction l as [|x r IH]; intros acc H; simpl; [exact H|].
  apply IH. now apply insert_ordered.
Qed.

Lemma py_sorted_ordered (l : list A) :
  StronglySorted (fun a b => leb a b = true) (py_sorted leb l).
Proof. apply fold_insert_ordered. constructor. Qed.

End OrderFacts.

Lemma StronglySorted_firstn {A} (R : A -> A -> Prop) (n : nat) (l : list A) :
  StronglySorted R l -> StronglySorted R (firstn n l).
Proof.
  intro H. revert n. induction H as [|x r Hr IH Hall]; intro n.
  - rewrite firstn_nil. constructor.
  - destruct n as [|n]; cbn [firstn]; constructor; [apply IH|].
    rewrite Forall_forall in *. intros y Hy. apply Hall.
    eapply firstn_subset; eauto.
Qed.

Lemma StronglySorted_impl {A} (R S : A -> A -> Prop) (l : list A) :
  (forall x y, R x y -> S x y) -> StronglySorted R l -> StronglySorted S l.
Proof.
  intros HRS H. induction H as [|x r Hr IH Hall]; constructor; [exact IH|].
  eapply Forall_impl; [|exact Hall]. auto.
Qed.

Lemma slice_to_sorted {A} (R : A -> A -> Prop) (n : Z) (l : list A) :
  StronglySorted R l -> StronglySorted R (slice_to n l).
Proof. unfold slice_to. destruct (n <? 0)%Z; apply StronglySorted_firstn. Qed.

Lemma slice_to_length {A} (n : Z) (l : list A) :
  (0 <= n)%Z -> (length (slice_to n l) <= Z.to_nat n)%nat.
Proof.
  intro H. unfold slice_to.
  assert (E : (n <? 0)%Z = false) by (apply Z.ltb_ge; exact H).
  rewrite E, length_firstn. lia.
Qed.

Section KeyFacts.
Import SR.

Lemma key_leb_spec (k1 k2 : Q * Z) :
  key_leb k1 k2 = true <->
  fst k1 < fst k2 \/ (fst k1 == fst k2 /\ (snd k1 <= snd k2)%Z).
Proof.
  unfold key_leb. rewrite orb_true_iff, andb_true_iff, Qltb_true,
    Qeq_bool_iff, Z.leb_le. reflexivity.
Qed.

Lemma key_leb_total (k1 k2 : Q * Z) :
  key_leb k1 k2 = true \/ key_leb k2 k1 = true.
Proof.
  rewrite !key_leb_spec.
  destruct (Q_dec (fst k1) (fst k2)) as [[H|H]|H].
  - left. now left.
  - right. now left.
  - destruct (Z.le_ge_cases (snd k1) (snd k2)) as [Hz|Hz].
    + left. right. now split.
    + right. right. split; [now symmetry|assumption].
Qed.

Lemma key_leb_trans (k1 k2 k3 : Q * Z) :
  key_leb k1 k2 = true -> key_leb k2 k3 = true -> key_leb k1 k3 = true.
Proof.
  rewrite !key_leb_spec. intros [H1|[H1 H1']] [H2|[H2 H2']].
  - left. lra.
  - left. lra.
  - left. lra.
  - right. split; [lra|lia].
Qed.

Lemma sort_by_ordered (key : SimpleSRLevel -> Q * Z) (l : list SimpleSRLevel) :
  StronglySorted (fun a b => key_leb (key a) (key b) = true) (sort_by key l).
Proof.
  unfold sort_by.
  apply (py_sorted_ordered (fun x y => key_leb (key x) (key y))).
  - intros x y. apply key_leb_total.
  - intros x y z. apply key_leb_trans.
Qed.

Lemma support_key_nearer cur a b :
  key_leb (support_key cur a) (support_key cur b) = true -> nearer_support a b.
Proof.
  rewrite key_leb_spec. unfold support_key, nearer_support. cbn [fst snd].
  intros [H|[H1 H2]]; [left; lra|right]. split; [lra|lia].
Qed.

Lemma resistance_key_nearer cur a b :
  key_leb (resistance_key cur a) (resistance_key cur b) = true ->
  nearer_resistance a b.
Proof.
  rewrite key_leb_spec. unfold resistance_key, nearer_resistance.
  cbn [fst snd].
  intros [H|[H1 H2]]; [left; lra|right]. split; [lra|lia].
Qed.

End KeyFacts.

(** X14.  [detect_sr_levels] lists each side nearest to the current price
    first: support prices never increase along the list, resistance prices
    never decrease, and of two levels at one price the one with more touches
    comes first. *)
Theorem levels_are_listed_nearest_first
        (series_std : list Q -> Q) (d : SR.SimpleSRDetector)
        (max_support max_resistance : Z) (df : DataFrame) :
  exists support resistance,
    fst (SR.detect_sr_levels series_std d max_support max_resistance df)
    = Ok (support, resistance)
    /\ StronglySorted nearer_support support
    /\ StronglySorted nearer_resistance resistance.
Proof.
  destruct (Nat.lt_ge_cases (len df) 50) as [H|H].
  - rewrite detect_sr_levels_short by exact H. exists [], [].
    repeat split; constructor.
  - destruct (detect_sr_levels_long series_std d max_support max_resistance
                df H) as (atr & last_row & rn & _ & _ & _ & E).
    cbv zeta in E. rewrite E. cbn [fst]. do 2 eexists.
    split; [reflexivity|]. split.
    + apply slice_to_sorted.
      eapply StronglySorted_impl; [|apply sort_by_ordered].
      apply support_key_nearer.
    + apply slice_to_sorted.
      eapply StronglySorted_impl; [|apply sort_by_ordered].
      apply resistance_key_nearer.
Qed.

Section ResultFacts.
Import SR.

Lemma collect_levels_touches d df atr cur highs lows rn l :
  In l (fst (collect_levels d df atr cur highs lows rn))
  \/ In l (snd (collect_levels d df atr cur highs lows rn)) ->
  (min_touches d <= touches l)%nat.
Proof.
  rewrite collect_levels_eq. cbn [fst snd].
  intros [H|H]; apply in_app_or in H as [H|H].
  - destruct highs; [contradiction|].
    apply swing_resistance_In in H as [c (_ & _ & Ht & ->)]. exact Ht.
  - apply in_map_iff in H as [rp [<- Hrp]].
    apply filter_In in Hrp as [_ Hb]. apply andb_true_iff in Hb as [Hb _].
    unfold enough_touches in Hb. now apply Nat.leb_le in Hb.
  - destruct lows; [contradiction|].
    apply swing_support_In in H as [c (_ & _ & Ht & ->)]. exact Ht.
  - apply in_map_iff in H as [rp [<- Hrp]].
    apply filter_In in Hrp as [_ Hb]. apply andb_true_iff in Hb as [Hb _].
    unfold enough_touches in Hb. now apply Nat.leb_le in Hb.
Qed.

End ResultFacts.

(** X12.  For every frame [detect_sr_levels] returns a pair of lists, raises
    nothing and leaves the frame unchanged; every level it returns has at
    least [min_touches] touches, and for non-negative limits the lists have
    at most [max_support] and [max_resistance] entries. *)
Theorem detect_sr_levels_always_returns
        (series_std : list Q -> Q) (d : SR.SimpleSRDetector)
        (max_support max_resistance : Z) (df : DataFrame) :
  exists support resistance,
    SR.detect_sr_levels series_std d max_support max_resistance df
    = (Ok (support, resistance), df)
    /\ Forall (fun l => (SR.min_touches d <= SR.touches l)%nat)
              (support ++ resistance)
    /\ ((0 <= max_support)%Z ->
        (length support <= Z.to_nat max_support)%nat)
    /\ ((0 <= max_resistance)%Z ->
        (length resistance <= Z.to_nat max_resistance)%nat).
Proof.
  destruct (Nat.lt_ge_cases (len df) 50) as [H|H].
  - rewrite detect_sr_levels_short by exact H. exists [], [].
    repeat split; try constructor; intros _; simpl; lia.
  - destruct (detect_sr_levels_long series_std d max_support max_resistance
                df H) as (atr & last_row & rn & _ & _ & _ & E).
    cbv zeta in E. rewrite E. do 2 eexists.
    split; [reflexivity|]. split; [|split; apply slice_to_length].
    apply Forall_forall. intros l Hl.
    apply in_app_or in Hl as [Hl|Hl]; apply slice_to_In in Hl;
      unfold SR.sort_by in Hl; apply py_sorted_In in Hl;
      eapply collect_levels_touches; eauto.
Qed.

Lemma firstn_prefix {A} (n m : nat) (l : list A) :
  (n <= m)%nat -> firstn m l = firstn n l ++ firstn (m - n) (skipn n l).
Proof.
  revert m l. induction n as [|n IH]; intros m l H.
  - now rewrite Nat.sub_0_r.
  - destruct m as [|m]; [lia|]. destruct l as [|x r].
    + cbn [skipn]. now rewrite !firstn_nil.
    + cbn [firstn skipn app]. rewrite (IH m r) by lia. reflexivity.
Qed.

Lemma slice_to_prefix {A} (n m : Z) (l : list A) :
  (0 <= n <= m)%Z -> exists rest, slice_to m l = slice_to n l ++ rest.
Proof.
  intro H. unfold slice_to.
  assert (En : (n <? 0)%Z = false) by (apply Z.ltb_ge; lia).
  assert (Em : (m <? 0)%Z = false) by (apply Z.ltb_ge; lia).
  rewrite En, Em. eexists. apply firstn_prefix. lia.
Qed.

(** X15.  Raising [max_support] or [max_resistance] (both non-negative) only
    appends levels: the lists returned for the smaller limits are prefixes
    of the lists returned for the larger ones. *)
Theorem higher_limits_only_append
        (series_std : list Q -> Q) (d : SR.SimpleSRDetector)
        (max_support max_support' max_resistance max_resistance' : Z)
        (df : DataFrame) :
  (0 <= max_support <= max_support')%Z ->
  (0 <= max_resistance <= max_resistance')%Z ->
  exists support resistance more_support more_resistance,
    fst (SR.detect_sr_levels series_std d max_support max_resistance df)
    = Ok (support, resistance)
    /\ fst (SR.detect_sr_levels series_std d max_support' max_resistance' df)
       = Ok (support ++ more_support, resistance ++ more_resistance).
Proof.
  intros Hs Hr. destruct (Nat.lt_ge_cases (len df) 50) as [H|H].
  - rewrite !detect_sr_levels_short by exact H. exists [], [], [], [].
    split; reflexivity.
  - destruct (detect_sr_levels_long series_std d max_support max_resistance
                df H) as (atr & last_row & rn & Ea & El & Ern & E).
    destruct (detect_sr_levels_long series_std d max_support' max_resistance'
                df H) as (atr' & last_row' & rn' & Ea' & El' & Ern' & E').
    cbv zeta in E, E'. rewrite E, E'. cbn [fst].
    assert (atr' = atr) by congruence.
    assert (last_row' = last_row) by congruence.
    assert (rn' = rn) by congruence. subst atr' last_row' rn'.
    destruct (slice_to_prefix max_support max_support'
                (SR.sort_by (SR.support_key (close last_row))
                   (snd (SR.collect_levels d df atr (close last_row)
                           (fst (SR.find_swing_points d df))
                           (snd (SR.find_swing_points d df)) rn))) Hs)
      as [ms Ems].
    destruct (slice_to_prefix max_resistance max_resistance'
                (SR.sort_by (SR.resistance_key (close last_row))
                   (fst (SR.collect_levels d df atr (close last_row)
                           (fst (SR.find_swing_points d df))
                           (snd (SR.find_swing_points d df)) rn))) Hr)
      as [mr Emr].
    rewrite Ems, Emr. do 4 eexists. split; reflexivity.
Qed.

(** X13.  Every support price [detect_sr_levels] returns is strictly below
    every resistance price it returns.  Against the last close: support is
    at or below it and typed support, strictly below unless it is a round
    number; resistance is strictly above it and typed resistance. *)
Theorem levels_lie_on_their_side_of_the_close
        (series_std : list Q -> Q) (d : SR.SimpleSRDetector)
        (max_support max_resistance : Z) (df : DataFrame) :
  exists support resistance,
    fst (SR.detect_sr_levels series_std d max_support max_resistance df)
    = Ok (support, resistance) /\
    (forall s r, In s support -> In r resistance ->
                 SR.price s < SR.price r) /\
    (forall last_row,
        iloc_last (rows df) = Ok last_row ->
        Forall (fun l => SR.price l <= close last_row
                         /\ SR.type_ l = "support"
                         /\ (SR.is_round_number l = false ->
                             SR.price l < close last_row)) support /\
        Forall (fun l => close last_row < SR.price l
                         /\ SR.type_ l = "resistance") resistance).
Proof.
  destruct (Nat.lt_ge_cases (len df) 50) as [H|H].
  - rewrite detect_sr_levels_short by exact H. exists [], [].
    split; [reflexivity|]. split; [intros s r []|].
    intros last_row _. split; constructor.
  - destruct (detect_sr_levels_sides series_std d max_support max_resistance
                df H)
      as (last_row & support & resistance & El & E & Hs & Hr & _).
    exists support, resistance. split; [exact E|].
    rewrite Forall_forall in Hs, Hr. split.
    + intros s r Hin_s Hin_r.
      destruct (Hs s Hin_s) as [Hle _]. destruct (Hr r Hin_r) as [Hlt _].
      lra.
    + intros last_row' El'. assert (last_row' = last_row) by congruence.
      subst last_row'. split; apply Forall_forall; assumption.
Qed.

(* ================================================================== *)
(** * Swing points *)

Section SwingFacts.
Import SR.

Lemma fold_max_ge (r : list Q) (x0 : Q) :
  x0 <= fold_left (fun m y => if Qltb m y then y else m) r x0
  /\ Forall (fun x => x <= fold_left (fun m y => if Qltb m y then y else m)
                                     r x0) r.
Proof.
  revert x0. induction r as [|y r IH]; intro x0; cbn [fold_left].
  - split; [apply Qle_refl|constructor].
  - destruct (Qltb x0 y) eqn:E.
    + apply Qltb_true in E. destruct (IH y) as [H1 H2].
      split; [lra|]. constructor; assumption.
    + apply Qltb_false in E. destruct (IH x0) as [H1 H2].
      split; [assumption|]. constructor; [lra|assumption].
Qed.

Lemma fold_min_le (r : list Q) (x0 : Q) :
  fold_left (fun m y => if Qltb y m then y else m) r x0 <= x0
  /\ Forall (fun x => fold_left (fun m y => if Qltb y m then y else m)
                                r x0 <= x) r.
Proof.
  revert x0. induction r as [|y r IH]; intro x0; cbn [fold_left].
  - split; [apply Qle_refl|constructor].
  - destruct (Qltb y x0) eqn:E.
    + apply Qltb_true in E. destruct (IH y) as [H1 H2].
      split; [lra|]. constructor; assumption.
    + apply Qltb_false in E. destruct (IH x0) as [H1 H2].
      split; [assumption|]. constructor; [lra|assumption].
Qed.

Lemma gt_nan_all (h : Q) (l : list Q) :
  gt_nan h (series_max l) = true -> forall x, In x l -> x < h.
Proof.
  destruct l as [|x0 r]; cbn [series_max gt_nan]; [discriminate|].
  intros H x Hx. apply Qltb_true in H.
  destruct (fold_max_ge r x0) as [H0 Hr]. rewrite Forall_forall in Hr.
  destruct Hx as [<-|Hx]; [lra|]. specialize (Hr x Hx). lra.
Qed.

Lemma lt_nan_all (l0 : Q) (l : list Q) :
  lt_nan l0 (series_min l) = true -> forall x, In x l -> l0 < x.
Proof.
  destruct l as [|x0 r]; cbn [series_min lt_nan]; [discriminate|].
  intros H x Hx. apply Qltb_true in H.
  destruct (fold_min_le r x0) as [H0 Hr]. rewrite Forall_forall in Hr.
  destruct Hx as [<-|Hx]; [lra|]. specialize (Hr x Hx). lra.
Qed.

Lemma slice_In {A} (a b k : nat) (l : list A) (x : A) :
  (a <= k < b)%nat -> nth_error l k = Some x -> In x (slice a b l).
Proof.
  intros Hk Hx. unfold slice. apply (nth_error_In _ (k - a)).
  rewrite nth_error_firstn.
  assert (E : (k - a <? b - a)%nat = true) by (apply Nat.ltb_lt; lia).
  rewrite E, nth_error_skipn.
  replace (a + (k - a))%nat with k by lia. exact Hx.
Qed.

(** Two rows within five of each other cannot both be swing highs: each
    would have to exceed the other. *)
Lemma swing_highs_exclude (hs : list Q) (i j : nat) :
  is_swing_high hs i = true -> is_swing_high hs j = true ->
  (i < j)%nat -> (i + 6 <= j)%nat.
Proof.
  unfold is_swing_high. intros Hi Hj Hlt.
  destruct (nth_error hs i) as [hi|] eqn:Ei; [|discriminate].
  destruct (nth_error hs j) as [hj|] eqn:Ej; [|discriminate].
  apply andb_true_iff in Hi as [_ Hi]. apply andb_true_iff in Hj as [Hj _].
  destruct (Nat.le_gt_cases (i + 6) j) as [H|H]; [exact H|exfalso].
  pose proof (gt_nan_all _ _ Hi hj) as A.
  pose proof (gt_nan_all _ _ Hj hi) as B.
  assert (hj < hi) by (apply A; eapply slice_In; [|exact Ej]; lia).
  assert (hi < hj) by (apply B; eapply slice_In; [|exact Ei]; lia).
  lra.
Qed.

Lemma swing_lows_exclude (ls : list Q) (i j : nat) :
  is_swing_low ls i = true -> is_swing_low ls j = true ->
  (i < j)%nat -> (i + 6 <= j)%nat.
Proof.
  unfold is_swing_low. intros Hi Hj Hlt.
  destruct (nth_error ls i) as [li|] eqn:Ei; [|discriminate].
  destruct (nth_error ls j) as [lj|] eqn:Ej; [|discriminate].
  apply andb_true_iff in Hi as [_ Hi]. apply andb_true_iff in Hj as [Hj _].
  destruct (Nat.le_gt_cases (i + 6) j) as [H|H]; [exact H|exfalso].
  pose proof (lt_nan_all _ _ Hi lj) as A.
  pose proof (lt_nan_all _ _ Hj li) as B.
  assert (li < lj) by (apply A; eapply slice_In; [|exact Ej]; lia).
  assert (lj < li) by (apply B; eapply slice_In; [|exact Ei]; lia).
  lra.
Qed.

Lemma swings_of_In test f recent s :
  In s (swings_of test f recent) <->
  exists row,
    (5 <= sp_index s)%nat /\ (sp_index s + 5 < length recent)%nat /\
    nth_error recent (sp_index s) = Some row /\
    test (map f recent) (sp_index s) = true /\
    s = mkSwing (sp_index s) (f row) (datetime row).
Proof.
  unfold swings_of. rewrite in_flat_map. split.
  - intros [i [Hi Hs]]. apply in_seq in Hi.
    destruct (nth_error recent i) as [row|] eqn:Er; [|contradiction].
    destruct (test (map f recent) i) eqn:Et; [|contradiction].
    destruct Hs as [<-|[]]. cbn [sp_index]. exists row.
    repeat split; try assumption; lia.
  - intros [row (H1 & H2 & Hr & Ht & Hs)]. exists (sp_index s). split.
    + apply in_seq. lia.
    + rewrite Hr, Ht. left. now symmetry.
Qed.

Lemma swings_of_apart test f a n recent :
  (forall i j, test (map f recent) i = true -> test (map f recent) j = true ->
               (i < j)%nat -> (i + 6 <= j)%nat) ->
  StronglySorted six_rows_apart
    (flat_map (fun i =>
                 match nth_error recent i with
                 | Some row =>
                     if test (map f recent) i
                     then [mkSwing i (f row) (datetime row)]
                     else []
                 | None => []
                 end) (seq a n))
  /\ Forall (fun s => (a <= sp_index s)%nat
                      /\ test (map f recent) (sp_index s) = true)
       (flat_map (fun i =>
                 match nth_error recent i with
                 | Some row =>
                     if test (map f recent) i
                     then [mkSwing i (f row) (datetime row)]
                     else []
                 | None => []
                 end) (seq a n)).
Proof.
  intro Hex. revert a. induction n as [|n IH]; intro a; cbn [seq flat_map].
  - split; constructor.
  - destruct (IH (S a)) as [Hs Hall].
    assert (Hall' : Forall (fun s => (a <= sp_index s)%nat
                      /\ test (map f recent) (sp_index s) = true)
       (flat_map (fun i =>
                 match nth_error recent i with
                 | Some row =>
                     if test (map f recent) i
                     then [mkSwing i (f row) (datetime row)]
                     else []
                 | None => []
                 end) (seq (S a) n))).
    { eapply Forall_impl; [|exact Hall]. cbv beta. intros s [H1 H2].
      split; [lia|assumption]. }
    destruct (nth_error recent a) as [row|]; [|now split].
    destruct (test (map f recent) a) eqn:Et; [|now split].
    cbn [app]. split.
    + constructor; [exact Hs|].
      eapply Forall_impl; [|exact Hall]. cbv beta. intros s [H1 H2].
      unfold six_rows_apart. cbn [sp_index]. apply Hex; [assumption..|lia].
    + constructor; [|exact Hall']. cbn [sp_index]. split; [lia|assumption].
Qed.

End SwingFacts.

(** X16.  [find_swing_points] reports the swing highs, and the swing lows,
    in row order and at least six rows apart, all at row indices 5 to
    lookback_bars - 6 of the window it examines. *)
Theorem swing_points_are_six_rows_apart
        (d : SR.SimpleSRDetector) (df : DataFrame) :
  let highs := fst (SR.find_swing_points d df) in
  let lows := snd (SR.find_swing_points d df) in
  StronglySorted six_rows_apart highs /\
  StronglySorted six_rows_apart lows /\
  Forall (fun s => (5 <= SR.sp_index s)%nat
                   /\ (SR.sp_index s + 5 < SR.lookback_bars d)%nat)
         (highs ++ lows).
Proof.
  cbv zeta. unfold SR.find_swing_points.
  destruct (len df <? SR.lookback_bars d)%nat eqn:E; cbn [fst snd].
  { repeat split; constructor. }
  apply Nat.ltb_ge in E.
  assert (Hlen : length (tail (SR.lookback_bars d) (rows df))
                 = SR.lookback_bars d).
  { unfold tail. rewrite length_skipn. unfold len in E. lia. }
  split; [|split].
  - apply swings_of_apart. apply swing_highs_exclude.
  - apply swings_of_apart. apply swing_lows_exclude.
  - apply Forall_forall. intros s Hs.
    apply in_app_or in Hs as [Hs|Hs];
      apply swings_of_In in Hs as [row (H1 & H2 & _)];
      rewrite Hlen in H2; split; assumption.
Qed.

(* ================================================================== *)
(** * Round numbers: nothing in range is left out *)

Section RoundFacts.
Import SR.

(** Every step of the loop from [current] on is visited. *)
Lemma round_loop_complete (min_price max_price : Q) (increment : Z) :
  (0 < increment)%Z ->
  forall fuel current l,
    round_loop fuel min_price max_price increment current = Some l ->
    forall k,
      (current <= k)%Z -> (increment | k - current)%Z ->
      min_price <= inject_Z k -> inject_Z k <= max_price ->
      (k mod (increment * 10) = 0)%Z ->
      In k l.
Proof.
  intro Hinc. induction fuel as [|fuel IH]; intros current l H k Hk Hd Hlo Hhi Hm;
    [discriminate|].
  cbn [round_loop] in H.
  destruct (Qle_bool (inject_Z current) max_price) eqn:E.
  2:{ exfalso. assert (Hc : ~ inject_Z current <= max_price).
      { intro C. apply Qle_bool_iff in C. congruence. }
      apply Hc. eapply Qle_trans; [|exact Hhi]. now rewrite <- Zle_Qle. }
  destruct (round_loop fuel min_price max_price increment
              (current + increment)) as [rest|] eqn:Er.
  2:{ destruct (Qle_bool min_price (inject_Z current) && true
                && (current mod (increment * 10) =? 0)%Z);
        discriminate. }
  destruct (Z.eq_dec k current) as [->|Hne].
  - assert (A : Qle_bool min_price (inject_Z current) = true)
      by now apply Qle_bool_iff.
    assert (B : (current mod (increment * 10) =? 0)%Z = true)
      by now apply Z.eqb_eq.
    rewrite A, B in H. cbn [andb option_map] in H. injection H as <-.
    now left.
  - assert (Hin : In k rest).
    { apply (IH _ _ Er); try assumption.
      - destruct Hd as [q Hq].
        assert (0 < q)%Z by nia. nia.
      - destruct Hd as [q Hq]. exists (q - 1)%Z. lia. }
    destruct (Qle_bool min_price (inject_Z current) && true
              && (current mod (increment * 10) =? 0)%Z);
      cbn [option_map] in H; injection H as <-; [now right|assumption].
Qed.

(** [int] of a quotient never passes an integer that bounds it from
    above: it is the floor of a non-negative number and the ceiling of a
    negative one. *)
Lemma py_int_le (x : Q) (m : Z) : x <= inject_Z m -> (py_int x <= m)%Z.
Proof.
  intro H. unfold py_int. destruct (Qltb x 0).
  - unfold Qceiling.
    assert (Hm : inject_Z (- m) <= - x).
    { rewrite inject_Z_opp. lra. }
    apply inject_Z_le_floor in Hm. lia.
  - rewrite Zle_Qle. eapply Qle_trans; [apply Qfloor_le|exact H].
Qed.

End RoundFacts.

(** X17.  With round numbers enabled, [find_round_numbers] returns every
    integer multiple of ten times the increment that lies within the price
    range, negative lower bounds included. *)
Theorem no_round_number_in_range_is_missed
        (d : SR.SimpleSRDetector) (min_price max_price : Q) (k : Z) :
  SR.include_round_numbers d = true ->
  min_price <= inject_Z k -> inject_Z k <= max_price ->
  (10 * SR.increment_for max_price | k)%Z ->
  In k (SR.find_round_numbers d (min_price, max_price)).
Proof.
  intros Hinc Hlo Hhi Hdiv.
  pose proof (increment_for_pos max_price) as Hpos.
  unfold SR.find_round_numbers. rewrite Hinc. cbn [negb].
  set (inc := SR.increment_for max_price) in *.
  set (start := (py_int (min_price / inject_Z inc) * inc)%Z).
  destruct (round_loop_terminates min_price max_price inc Hpos
              (SR.round_fuel max_price start) start) as [l El].
  { unfold SR.round_fuel. lia. }
  rewrite El.
  destruct Hdiv as [q Hq].
  assert (Hstart : (start <= k)%Z).
  { assert (Hm : (py_int (min_price / inject_Z inc) <= 10 * q)%Z).
    { apply py_int_le.
      assert (Hi : 0 < inject_Z inc)
        by (change 0 with (inject_Z 0); now rewrite <- Zlt_Qlt).
      apply Qle_shift_div_r; [exact Hi|].
      rewrite <- inject_Z_mult.
      replace (10 * q * inc)%Z with k by lia. exact Hlo. }
    unfold start. nia. }
  apply (round_loop_complete min_price max_price inc Hpos _ _ _ El k);
    try assumption.
  - exists (10 * q - py_int (min_price / inject_Z inc))%Z. unfold start. lia.
  - rewrite Hq. replace (q * (10 * inc))%Z with (q * (inc * 10))%Z by lia.
    apply Z.mod_mul. lia.
Qed.

(* ================================================================== *)
(** * Clusters and touches *)

Section SegmentFacts.
Import SR.

(** The walk cuts the list it is given into consecutive non-empty runs
    and merges each. *)
Lemma cluster_walk_segments (t : Q) (rest cur : list Swing) :
  cur <> [] ->
  exists segs,
    cluster_walk t cur rest = map _merge_cluster segs
    /\ concat segs = cur ++ rest
    /\ Forall (fun s => s <> []) segs.
Proof.
  revert cur. induction rest as [|x r IH]; intros cur Hne.
  - exists [cur]. cbn [cluster_walk map concat].
    destruct cur; [contradiction|]. rewrite !app_nil_r.
    repeat split. constructor; [discriminate|constructor].
  - cbn [cluster_walk].
    destruct (Qle_bool (Qabs (sp_price x - np_mean (map sp_price cur)))
                       t).
    + destruct (IH (cur ++ [x])) as (segs & E & Hc & Hall).
      { intro C. apply app_eq_nil in C as [_ C]. discriminate. }
      exists segs. rewrite <- app_assoc in Hc. now repeat split.
    + destruct (IH [x]) as (segs & E & Hc & Hall); [discriminate|].
      exists (cur :: segs). cbn [map concat]. rewrite E, Hc.
      repeat split. now constructor.
Qed.

Lemma cluster_levels_segments (d : SimpleSRDetector) (levels : list Swing)
                              (atr : Q) :
  exists segs,
    cluster_levels d levels atr = map _merge_cluster segs
    /\ concat segs = py_sorted price_leb levels
    /\ Forall (fun s => s <> []) segs.
Proof.
  unfold cluster_levels.
  change (fun x y : Swing => Qle_bool (sp_price x) (sp_price y))
    with price_leb.
  destruct (py_sorted price_leb levels) as [|first rest].
  - exists []. repeat split. constructor.
  - destruct (cluster_walk_segments (atr * cluster_threshold_atr d) rest
                [first]) as (segs & E & Hc & Hall); [discriminate|].
    exists segs. now repeat split.
Qed.

Lemma concat_length_sum {A} (segs : list (list A)) :
  length (concat segs) = list_sum (map (@length A) segs).
Proof.
  induction segs as [|s r IH]; cbn [concat map list_sum]; [reflexivity|].
  now rewrite length_app, IH.
Qed.

Lemma concat_nonempty_length {A} (segs : list (list A)) :
  Forall (fun s => s <> []) segs -> (length segs <= length (concat segs))%nat.
Proof.
  induction 1 as [|s r Hs _ IH]; cbn [concat length]; [lia|].
  rewrite length_app. destruct s; [contradiction|]. cbn [length]. lia.
Qed.

Lemma In_concat_seg {A} (segs : list (list A)) (s : list A) (x : A) :
  In s segs -> In x s -> In x (concat segs).
Proof. intros Hs Hx. apply in_concat. eauto. Qed.

(** The earliest and the latest date of a non-empty run. *)
Lemma fold_Zmin_spec (r : list Z) (x0 : Z) :
  In (fold_left Z.min r x0) (x0 :: r)
  /\ Forall (fun x => (fold_left Z.min r x0 <= x)%Z) (x0 :: r).
Proof.
  revert x0. induction r as [|y r IH]; intro x0; cbn [fold_left].
  - split; [now left|]. constructor; [lia|constructor].
  - destruct (IH (Z.min x0 y)) as [Hin Hall].
    inversion Hall as [|? ? H0 Hr]; subst. split.
    + destruct Hin as [Hin|Hin]; [|right; now right].
      rewrite <- Hin. destruct (Z.min_spec x0 y) as [[_ ->]|[_ ->]];
        [now left|right; now left].
    + constructor; [lia|]. constructor; [lia|assumption].
Qed.

Lemma fold_Zmax_spec (r : list Z) (x0 : Z) :
  In (fold_left Z.max r x0) (x0 :: r)
  /\ Forall (fun x => (x <= fold_left Z.max r x0)%Z) (x0 :: r).
Proof.
  revert x0. induction r as [|y r IH]; intro x0; cbn [fold_left].
  - split; [now left|]. constructor; [lia|constructor].
  - destruct (IH (Z.max x0 y)) as [Hin Hall].
    inversion Hall as [|? ? H0 Hr]; subst. split.
    + destruct Hin as [Hin|Hin]; [|right; now right].
      rewrite <- Hin. destruct (Z.max_spec x0 y) as [[_ ->]|[_ ->]];
        [right; now left|now left].
    + constructor; [lia|]. constructor; [lia|assumption].
Qed.

Lemma merge_cluster_dates (s : list Swing) :
  s <> [] ->
  exists a b,
    cl_first_seen (_merge_cluster s) = Some a
    /\ cl_last_seen (_merge_cluster s) = Some b
    /\ In a (map sp_date s) /\ In b (map sp_date s) /\ (a <= b)%Z.
Proof.
  intro Hne. destruct s as [|x r]; [contradiction|].
  unfold _merge_cluster. cbn [cl_first_seen cl_last_seen map list_min list_max].
  destruct (fold_Zmin_spec (map sp_date r) (sp_date x)) as [Hin1 Hall1].
  destruct (fold_Zmax_spec (map sp_date r) (sp_date x)) as [Hin2 Hall2].
  do 2 eexists. repeat split; try assumption.
  rewrite Forall_forall in Hall1. apply (Hall1 _ Hin2).
Qed.

End SegmentFacts.

(** X18.  [cluster_levels] puts every level in exactly one cluster: the
    touches of the clusters add up to the number of levels, every cluster
    has at least one touch, there are at most as many clusters as levels,
    and none exactly when there are no levels. *)
Theorem clusters_partition_the_levels
        (d : SR.SimpleSRDetector) (levels : list SR.Swing) (atr : Q) :
  let clusters := SR.cluster_levels d levels atr in
  list_sum (map SR.cl_touches clusters) = length levels /\
  Forall (fun c => (1 <= SR.cl_touches c)%nat) clusters /\
  (length clusters <= length levels)%nat /\
  (clusters = [] <-> levels = []).
Proof.
  cbv zeta.
  destruct (cluster_levels_segments d levels atr) as (segs & E & Hc & Hall).
  rewrite E.
  assert (Hlen : length (concat segs) = length levels)
    by (rewrite Hc; apply py_sorted_length).
  split; [|split; [|split]].
  - rewrite map_map. cbn [SR._merge_cluster SR.cl_touches].
    rewrite <- concat_length_sum. exact Hlen.
  - apply Forall_map. eapply Forall_impl; [|exact Hall]. cbv beta.
    intros s Hs. cbn [SR._merge_cluster SR.cl_touches].
    destruct s; [contradiction|]. cbn [length]. lia.
  - rewrite length_map, <- Hlen. now apply concat_nonempty_length.
  - split.
    + intro En. destruct segs; [|discriminate].
      cbn [concat length] in Hlen. destruct levels; [reflexivity|discriminate].
    + intros ->. cbn [length] in Hlen.
      pose proof (concat_nonempty_length segs Hall) as Hle.
      destruct segs; [reflexivity|]. cbn [length] in Hle. lia.
Qed.

(** X19.  Every cluster [cluster_levels] returns carries a first_seen and a
    last_seen date, both dates of input levels, the first not after the
    last. *)
Theorem clusters_span_dates_of_their_levels
        (d : SR.SimpleSRDetector) (levels : list SR.Swing) (atr : Q) :
  Forall (fun c =>
            exists a b,
              SR.cl_first_seen c = Some a /\ SR.cl_last_seen c = Some b
              /\ In a (map SR.sp_date levels) /\ In b (map SR.sp_date levels)
              /\ (a <= b)%Z)
         (SR.cluster_levels d levels atr).
Proof.
  destruct (cluster_levels_segments d levels atr) as (segs & E & Hc & Hall).
  rewrite E. apply Forall_map. rewrite Forall_forall in *.
  intros s Hs. destruct (merge_cluster_dates s (Hall s Hs))
    as (a & b & Ha & Hb & Ia & Ib & Hab).
  exists a, b. repeat split; try assumption.
  - apply in_map_iff in Ia as [u [<- Hu]]. apply in_map.
    apply (py_sorted_In price_leb). rewrite <- Hc.
    eapply In_concat_seg; eauto.
  - apply in_map_iff in Ib as [u [<- Hu]]. apply in_map.
    apply (py_sorted_In price_leb). rewrite <- Hc.
    eapply In_concat_seg; eauto.
Qed.

Section ClusterOrder.
Import SR.

Lemma Forall_map_price (P : Q -> Prop) (s : list Swing) :
  (forall u, In u s -> P (sp_price u)) -> Forall P (map sp_price s).
Proof.
  intro H. apply Forall_forall. intros y Hy.
  apply in_map_iff in Hy as [u [<- Hu]]. auto.
Qed.

Lemma map_price_nonempty (s : list Swing) : s <> [] -> map sp_price s <> [].
Proof. destruct s; [contradiction|discriminate]. Qed.

Lemma merged_segments_ascend (segs : list (list Swing)) :
  Forall (fun s => s <> []) segs ->
  StronglySorted by_price (concat segs) ->
  StronglySorted (fun a b => cl_price a <= cl_price b)
                 (map _merge_cluster segs).
Proof.
  induction 1 as [|s r Hs Hr IH]; cbn [concat map]; intro Hsorted;
    [constructor|].
  apply sorted_app in Hsorted as (_ & Hrest & Hcross).
  constructor; [now apply IH|].
  apply Forall_map. apply Forall_forall. intros s' Hs'.
  cbn [_merge_cluster cl_price].
  rewrite Forall_forall in Hr.
  apply np_mean_lower; [apply map_price_nonempty, Hr, Hs'|].
  apply Forall_map_price. intros v Hv.
  apply np_mean_upper; [now apply map_price_nonempty|].
  apply Forall_map_price. intros u Hu.
  apply (Hcross u v Hu). eapply In_concat_seg; eauto.
Qed.

End ClusterOrder.

(** X20.  [cluster_levels] returns its clusters in ascending order of price,
    and every cluster price lies between any two bounds that enclose all the
    level prices. *)
Theorem cluster_prices_ascend_within_the_levels
        (d : SR.SimpleSRDetector) (levels : list SR.Swing) (atr : Q)
        (lo hi : Q) :
  let clusters := SR.cluster_levels d levels atr in
  StronglySorted (fun a b => SR.cl_price a <= SR.cl_price b) clusters /\
  (Forall (fun u => lo <= SR.sp_price u <= hi) levels ->
   Forall (fun c => lo <= SR.cl_price c <= hi) clusters).
Proof.
  cbv zeta.
  destruct (cluster_levels_segments d levels atr) as (segs & E & Hc & Hall).
  rewrite E. split.
  - apply merged_segments_ascend; [exact Hall|].
    rewrite Hc. apply py_sorted_by_price.
  - intro Hr. apply Forall_map. rewrite Forall_forall in *.
    intros s Hs. cbn [SR._merge_cluster SR.cl_price].
    assert (Hin : forall u, In u s -> lo <= SR.sp_price u <= hi).
    { intros u Hu. apply Hr. apply (py_sorted_In price_leb). rewrite <- Hc.
      eapply In_concat_seg; eauto. }
    split.
    + apply np_mean_lower; [apply map_price_nonempty, Hall, Hs|].
      apply Forall_map_price. intros u Hu. apply (Hin u Hu).
    + apply np_mean_upper; [apply map_price_nonempty, Hall, Hs|].
      apply Forall_map_price. intros u Hu. apply (Hin u Hu).
Qed.

Section WideThreshold.
Import SR.

Lemma cluster_walk_all_near (t : Q) (rest cur : list Swing) :
  cur <> [] ->
  (forall u v, In u (cur ++ rest) -> In v (cur ++ rest) ->
               sp_price v - sp_price u <= t) ->
  cluster_walk t cur rest = [_merge_cluster (cur ++ rest)].
Proof.
  revert cur. induction rest as [|x r IH]; intros cur Hne Hnear.
  - rewrite app_nil_r. destruct cur; [contradiction|reflexivity].
  - cbn [cluster_walk].
    assert (Hx : In x (cur ++ x :: r)) by (apply in_or_app; right; now left).
    assert (Hlo : sp_price x - t <= np_mean (map sp_price cur)).
    { apply np_mean_lower; [now apply map_price_nonempty|].
      apply Forall_map_price. intros u Hu.
      assert (sp_price x - sp_price u <= t)
        by (apply Hnear; [apply in_or_app; now left|exact Hx]).
      lra. }
    assert (Hhi : np_mean (map sp_price cur) <= sp_price x + t).
    { apply np_mean_upper; [now apply map_price_nonempty|].
      apply Forall_map_price. intros u Hu.
      assert (sp_price u - sp_price x <= t)
        by (apply Hnear; [exact Hx|apply in_or_app; now left]).
      lra. }
    assert (Habs : Qle_bool (Qabs (sp_price x - np_mean (map sp_price cur))) t
                   = true).
    { apply Qle_bool_iff. apply Qabs_Qle_condition. split; lra. }
    rewrite Habs.
    replace (cur ++ x :: r) with ((cur ++ [x]) ++ r)
      by (now rewrite <- app_assoc).
    apply IH.
    + intro C. apply app_eq_nil in C as [_ C]. discriminate.
    + rewrite <- app_assoc. exact Hnear.
Qed.

Lemma py_sum_perm (l l' : list Q) :
  Permutation l l' -> py_sum l == py_sum l'.
Proof.
  induction 1 as [|x l l' _ IH|x y l|l l' l'' _ IH1 _ IH2]; cbn [py_sum fold_right].
  - reflexivity.
  - unfold py_sum in IH. rewrite IH. reflexivity.
  - ring.
  - etransitivity; eauto.
Qed.

Lemma np_mean_perm (l l' : list Q) :
  Permutation l l' -> np_mean l == np_mean l'.
Proof.
  intro H. unfold np_mean. rewrite (py_sum_perm _ _ H).
  now rewrite (Permutation_length H).
Qed.

End WideThreshold.

(** X21.  When no two levels are further apart than the threshold atr *
    cluster_threshold_atr, [cluster_levels] returns a single cluster: its
    touches are the number of levels and its price is their mean. *)
Theorem levels_within_one_threshold_form_one_cluster
        (d : SR.SimpleSRDetector) (levels : list SR.Swing) (atr : Q) :
  levels <> [] ->
  (forall u v, In u levels -> In v levels ->
               SR.sp_price v - SR.sp_price u
               <= atr * SR.cluster_threshold_atr d) ->
  exists c,
    SR.cluster_levels d levels atr = [c]
    /\ SR.cl_touches c = length levels
    /\ SR.cl_price c == np_mean (map SR.sp_price levels).
Proof.
  intros Hne Hnear. unfold SR.cluster_levels.
  change (fun x y : SR.Swing => Qle_bool (SR.sp_price x) (SR.sp_price y))
    with price_leb.
  pose proof (py_sorted_perm price_leb levels) as Hperm.
  destruct (py_sorted price_leb levels) as [|first rest] eqn:Es.
  { apply Permutation_nil in Hperm. contradiction. }
  rewrite (cluster_walk_all_near _ rest [first]); [|discriminate|].
  - eexists. split; [reflexivity|]. cbn [app].
    cbn [SR._merge_cluster SR.cl_touches SR.cl_price]. split.
    + apply (Permutation_length Hperm).
    + apply np_mean_perm. now apply Permutation_map.
  - intros u v Hu Hv. apply Hnear; eapply Permutation_in; eauto.
Qed.

Section TouchFacts.
Import SR.

Lemma filter_length_mono {A} (f g : A -> bool) (l : list A) :
  (forall a, f a = true -> g a = true) ->
  (length (filter f l) <= length (filter g l))%nat.
Proof.
  intro H. induction l as [|a r IH]; cbn [filter]; [lia|].
  destruct (f a) eqn:Ef.
  - rewrite (H a Ef). cbn [length]. lia.
  - destruct (g a); cbn [length]; lia.
Qed.

Lemma near_mono (p t1 t2 x : Q) :
  t1 <= t2 -> near p t1 x = true -> near p t2 x = true.
Proof.
  intros Ht. unfold near. rewrite !andb_true_iff, !Qle_bool_iff.
  intros [H1 H2]. split; lra.
Qed.

Lemma near_negative (p t x : Q) : t < 0 -> near p t x = false.
Proof.
  intro Ht. unfold near. apply andb_false_iff.
  destruct (Qle_bool (p - t) x) eqn:E; [right|now left].
  apply Qle_bool_iff in E.
  destruct (Qle_bool x (p + t)) eqn:E2; [|reflexivity].
  apply Qle_bool_iff in E2. lra.
Qed.

End TouchFacts.

(** X22.  With a non-negative multiplier, [count_touches] never decreases
    when the ATR grows: the band around the level only widens. *)
Theorem wider_band_never_loses_touches
        (d : SR.SimpleSRDetector) (df : DataFrame) (level_price atr1 atr2 : Q) :
  0 <= SR.cluster_threshold_atr d -> atr1 <= atr2 ->
  (SR.count_touches d df level_price atr1
   <= SR.count_touches d df level_price atr2)%nat.
Proof.
  intros Hm Ha. unfold SR.count_touches.
  assert (Ht : atr1 * SR.cluster_threshold_atr d
               <= atr2 * SR.cluster_threshold_atr d) by nra.
  apply Nat.add_le_mono; apply filter_length_mono; intro x;
    apply near_mono; exact Ht.
Qed.

(* ================================================================== *)
(** * The summary of the levels *)

Section SummaryFacts.

Import SR Summary.

Variable series_std : list Q -> Q.
Variable format_1f : Q -> string.

Lemma entries_support_ok (cur : Q) (levels : list SimpleSRLevel) :
  Forall (fun l => ~ price l == 0) levels ->
  exists es,
    entries (support_entry format_1f cur) levels = Returns es
    /\ map e_price es = map price levels
    /\ map e_touches es = map touches levels
    /\ map e_round es = map is_round_number levels.
Proof.
  induction 1 as [|l r Hl _ IH]; cbn [entries].
  - exists []. repeat split.
  - destruct IH as (es & E & H1 & H2 & H3).
    unfold support_entry at 1, percent.
    assert (Hz : Qeq_bool (price l) 0 = false).
    { destruct (Qeq_bool (price l) 0) eqn:C; [|reflexivity].
      apply Qeq_bool_iff in C. contradiction. }
    rewrite Hz, E. eexists. split; [reflexivity|].
    cbn [map e_price e_touches e_round]. now rewrite H1, H2, H3.
Qed.

Lemma entries_resistance_ok (cur : Q) (levels : list SimpleSRLevel) :
  ~ cur == 0 ->
  exists es,
    entries (resistance_entry format_1f cur) levels = Returns es
    /\ map e_price es = map price levels
    /\ map e_touches es = map touches levels
    /\ map e_round es = map is_round_number levels.
Proof.
  intro Hc.
  assert (Hz : Qeq_bool cur 0 = false).
  { destruct (Qeq_bool cur 0) eqn:C; [|reflexivity].
    apply Qeq_bool_iff in C. contradiction. }
  induction levels as [|l r IH]; cbn [entries].
  - exists []. repeat split.
  - destruct IH as (es & E & H1 & H2 & H3).
    unfold resistance_entry at 1, percent.
    rewrite Hz, E. eexists. split; [reflexivity|].
    cbn [map e_price e_touches e_round]. now rewrite H1, H2, H3.
Qed.

End SummaryFacts.

(** X23.  On fewer than 50 rows [get_sr_summary] returns the last close with
    two empty lists, except on an empty frame, where it raises IndexError
    although [detect_sr_levels] itself returns there. *)
Theorem summary_of_a_short_frame
        (series_std : list Q -> Q) (format_1f : Q -> string)
        (d : SR.SimpleSRDetector) (df : DataFrame) :
  (len df < 50)%nat ->
  (rows df = [] ->
   Summary.get_sr_summary series_std format_1f d df
   = (Summary.Raises IndexError, df))
  /\ (forall last_row,
        iloc_last (rows df) = Ok last_row ->
        Summary.get_sr_summary series_std format_1f d df
        = (Summary.Returns (Summary.mkSummary (close last_row) [] []), df))
  /\ ((1 <= len df)%nat ->
      exists last_row, iloc_last (rows df) = Ok last_row).
Proof.
  intro H. unfold Summary.get_sr_summary.
  rewrite detect_sr_levels_short by exact H.
  split; [|split].
  - intros ->. reflexivity.
  - intros last_row ->. reflexivity.
  - intro H1. apply iloc_last_ok. unfold len in H1. lia.
Qed.

Section PositiveFacts.

Import SR.

Lemma py_sum_pos (l : list Q) :
  l <> [] -> Forall (fun x => 0 < x) l -> 0 < py_sum l.
Proof.
  intros Hne H. induction H as [|x r Hx Hr IH]; [contradiction|].
  cbn [py_sum fold_right]. destruct r as [|y r'].
  - cbn [fold_right]. lra.
  - assert (0 < py_sum (y :: r')) by (apply IH; discriminate).
    unfold py_sum in *. lra.
Qed.

Lemma np_mean_pos (l : list Q) :
  l <> [] -> Forall (fun x => 0 < x) l -> 0 < np_mean l.
Proof.
  intros Hne H. rewrite np_mean_eq.
  apply Qlt_shift_div_l; [now apply qlen_pos|].
  rewrite Qmult_0_l. now apply py_sum_pos.
Qed.

Lemma cluster_levels_positive (d : SimpleSRDetector) (levels : list Swing)
                              (atr : Q) :
  Forall (fun u => 0 < sp_price u) levels ->
  Forall (fun c => 0 < cl_price c) (cluster_levels d levels atr).
Proof.
  intro H.
  destruct (cluster_levels_segments d levels atr) as (segs & E & Hc & Hall).
  rewrite E. apply Forall_map. rewrite Forall_forall in *.
  intros s Hs. cbn [_merge_cluster cl_price].
  apply np_mean_pos; [apply map_price_nonempty, Hall, Hs|].
  apply Forall_map_price. intros u Hu. apply H.
  apply (py_sorted_In price_leb). rewrite <- Hc.
  eapply In_concat_seg; eauto.
Qed.

Lemma valid_series_bars (df : DataFrame) (b : Bar) :
  valid_series df = true -> In b (rows df) ->
  0 < high b /\ 0 < low b /\ 0 < close b.
Proof.
  unfold valid_series. intros H Hb.
  apply andb_true_iff in H as [_ H]. rewrite forallb_forall in H.
  specialize (H b Hb). unfold positive_bar in H.
  repeat rewrite andb_true_iff in H. destruct H as [[[_ H1] H2] H3].
  apply Qltb_true in H1, H2, H3. auto.
Qed.

Lemma tail_In {A} (n : nat) (l : list A) (x : A) : In x (tail n l) -> In x l.
Proof.
  unfold tail. intro H. rewrite <- (firstn_skipn (length l - n) l).
  apply in_or_app. now right.
Qed.

Lemma swing_lows_positive (d : SimpleSRDetector) (df : DataFrame) :
  valid_series df = true ->
  Forall (fun u => 0 < sp_price u) (snd (find_swing_points d df)).
Proof.
  intro Hv. unfold find_swing_points.
  destruct (len df <? lookback_bars d)%nat; cbn [snd]; [constructor|].
  apply Forall_forall. intros s Hs.
  apply swings_of_In in Hs as [row (_ & _ & Hr & _ & ->)]. cbn [sp_price].
  apply nth_error_In, tail_In in Hr.
  now destruct (valid_series_bars df row Hv Hr) as (_ & H & _).
Qed.

Lemma series_min_In (l : list Q) (m : Q) : series_min l = Some m -> In m l.
Proof.
  destruct l as [|x0 r]; cbn [series_min]; [discriminate|].
  intro H. injection H as <-. revert x0.
  induction r as [|y r IH]; intro x0; cbn [fold_left]; [now left|].
  destruct (Qltb y x0).
  - right. apply IH.
  - destruct (IH x0) as [E|Hin]; [left; exact E|right; now right].
Qed.

Lemma find_round_numbers_above (d : SimpleSRDetector) (lo hi : Q) :
  Forall (fun c => lo <= inject_Z c) (find_round_numbers d (lo, hi)).
Proof.
  unfold find_round_numbers.
  destruct (include_round_numbers d); cbn [negb]; [|constructor].
  destruct (round_loop _ lo hi (increment_for hi) _) as [l|] eqn:E;
    [|constructor].
  destruct (round_loop_spec lo hi (increment_for hi)
              (increment_for_pos hi) _ _ _ E) as [Hall _].
  eapply Forall_impl; [|exact Hall]. cbv beta. now intros c (_ & H & _).
Qed.

Lemma round_numbers_positive (d : SimpleSRDetector) (df : DataFrame)
                             (rn : list Z) :
  valid_series df = true -> round_numbers_of d df = Ok rn ->
  Forall (fun c => 0 < inject_Z c) rn.
Proof.
  intros Hv. unfold round_numbers_of.
  destruct (include_round_numbers d).
  2:{ intro H. injection H as <-. constructor. }
  destruct (series_min (column low df)) as [lo|] eqn:El; [|discriminate].
  destruct (series_max (column high df)) as [hi|]; [|discriminate].
  intro H. injection H as <-.
  assert (Hlo : 0 < lo).
  { apply series_min_In in El. unfold column in El.
    apply in_map_iff in El as [b [<- Hb]].
    now destruct (valid_series_bars df b Hv Hb) as (_ & H & _). }
  eapply Forall_impl; [|apply find_round_numbers_above]. cbv beta.
  intros c Hc. lra.
Qed.

End PositiveFacts.

Section ValidSummary.

Import SR Summary.

Variable series_std : list Q -> Q.

Lemma collect_support_positive d df atr cur highs rn l :
  valid_series df = true ->
  Forall (fun c => 0 < inject_Z c) rn ->
  In l (snd (collect_levels d df atr cur highs
                            (snd (find_swing_points d df)) rn)) ->
  0 < price l.
Proof.
  intros Hv Hrn. rewrite collect_levels_eq. cbn [snd]. intro H.
  apply in_app_or in H as [H|H].
  - destruct (snd (find_swing_points d df)) eqn:El; [contradiction|].
    apply swing_support_In in H as [c (Hc & _ & _ & ->)]. cbn [price].
    pose proof (cluster_levels_positive d _ atr (swing_lows_positive d df Hv))
      as Hp.
    rewrite El in Hp. rewrite Forall_forall in Hp. now apply Hp.
  - apply in_map_iff in H as [rp [<- Hrp]]. apply filter_In in Hrp as [Hin _].
    unfold round_level_of, round_level. cbn [price].
    rewrite Forall_forall in Hrn. now apply Hrn.
Qed.

Lemma detect_support_positive d ms mr df support resistance :
  valid_series df = true ->
  fst (detect_sr_levels series_std d ms mr df) = Ok (support, resistance) ->
  Forall (fun l => 0 < price l) support.
Proof.
  intros Hv. destruct (Nat.lt_ge_cases (len df) 50) as [H|H].
  - rewrite detect_sr_levels_short by exact H. cbn [fst].
    intro E. injection E as <- <-. constructor.
  - destruct (detect_sr_levels_long series_std d ms mr df H)
      as (atr & last_row & rn & _ & _ & Er & E).
    cbv zeta in E. rewrite E. cbn [fst]. intro E'. injection E' as <- <-.
    apply Forall_forall. intros l Hl. apply slice_to_In in Hl.
    unfold sort_by in Hl. apply py_sorted_In in Hl.
    apply (collect_support_positive d df atr (close last_row)
             (fst (find_swing_points d df)) rn l Hv);
      [|exact Hl].
    exact (round_numbers_positive d df rn Hv Er).
Qed.

End ValidSummary.

(** X24.  On a non-empty valid series (ascending timestamps, positive
    prices) [get_sr_summary] raises nothing and leaves the frame unchanged:
    it returns the last close and, in the order of [detect_sr_levels] with
    its default limits of 3, one entry per level with that level's price,
    touches and round-number flag. *)
Theorem summary_of_a_valid_series
        (series_std : list Q -> Q) (format_1f : Q -> string)
        (d : SR.SimpleSRDetector) (df : DataFrame) :
  valid_series df = true -> (1 <= len df)%nat ->
  exists support resistance last_row summary,
    fst (SR.detect_sr_levels series_std d 3 3 df) = Ok (support, resistance)
    /\ iloc_last (rows df) = Ok last_row
    /\ Summary.get_sr_summary series_std format_1f d df
       = (Summary.Returns summary, df)
    /\ Summary.current_price summary = close last_row
    /\ map Summary.e_price (Summary.support_levels summary)
       = map SR.price support
    /\ map Summary.e_touches (Summary.support_levels summary)
       = map SR.touches support
    /\ map Summary.e_round (Summary.support_levels summary)
       = map SR.is_round_number support
    /\ map Summary.e_price (Summary.resistance_levels summary)
       = map SR.price resistance
    /\ map Summary.e_touches (Summary.resistance_levels summary)
       = map SR.touches resistance
    /\ map Summary.e_round (Summary.resistance_levels summary)
       = map SR.is_round_number resistance.
Proof.
  intros Hv Hlen.
  assert (Hd : exists support resistance,
             SR.detect_sr_levels series_std d 3 3 df
             = (Ok (support, resistance), df)).
  { destruct (Nat.lt_ge_cases (len df) 50) as [H|H].
    - rewrite detect_sr_levels_short by exact H. eauto.
    - destruct (detect_sr_levels_long series_std d 3 3 df H)
        as (atr & lr & rn & _ & _ & _ & E).
      cbv zeta in E. rewrite E. eauto. }
  destruct Hd as (support & resistance & Hd).
  destruct (iloc_last_ok (rows df)) as [last_row El];
    [unfold len in Hlen; lia|].
  assert (Hcur : 0 < close last_row).
  { apply iloc_last_In in El.
    now destruct (valid_series_bars df last_row Hv El) as (_ & _ & H). }
  assert (Hsup : Forall (fun l => ~ SR.price l == 0) support).
  { eapply Forall_impl;
      [|apply (detect_support_positive series_std d 3 3 df support resistance
                 Hv); rewrite Hd; reflexivity].
    cbv beta. intros l Hl C. rewrite C in Hl. lra. }
  destruct (entries_support_ok format_1f (close last_row) support Hsup)
    as (ss & Es & S1 & S2 & S3).
  destruct (entries_resistance_ok format_1f (close last_row) resistance)
    as (rs & Er & R1 & R2 & R3).
  { intro C. rewrite C in Hcur. lra. }
  exists support, resistance, last_row,
    (Summary.mkSummary (close last_row) ss rs).
  split; [rewrite Hd; reflexivity|]. split; [exact El|].
  split.
  - unfold Summary.get_sr_summary. rewrite Hd, El. cbv zeta.
    rewrite Es, Er. reflexivity.
  - cbn [Summary.current_price Summary.support_levels
         Summary.resistance_levels]. repeat split; assumption.
Qed.

(* ================================================================== *)
(** * From levels and trends to a recommendation *)

Section RecommendationFacts.

Import Recommendation.

Lemma count_label_mirror_up (trends : dict string) :
  count_label "UPTREND" (mirror_trends trends)
  = count_label "DOWNTREND" trends.
Proof.
  unfold count_label, mirror_trends.
  induction trends as [|[k v] r IH]; cbn [map filter fst snd]; [reflexivity|].
  unfold mirror_label at 1.
  destruct (String.eqb v "UPTREND") eqn:E1.
  - apply String.eqb_eq in E1. subst v. cbn. exact IH.
  - destruct (String.eqb v "DOWNTREND") eqn:E2.
    + cbn. now rewrite IH.
    + rewrite E1. exact IH.
Qed.

Lemma count_label_mirror_down (trends : dict string) :
  count_label "DOWNTREND" (mirror_trends trends)
  = count_label "UPTREND" trends.
Proof.
  unfold count_label, mirror_trends.
  induction trends as [|[k v] r IH]; cbn [map filter fst snd]; [reflexivity|].
  unfold mirror_label at 1.
  destruct (String.eqb v "UPTREND") eqn:E1.
  - cbn. now rewrite IH.
  - destruct (String.eqb v "DOWNTREND") eqn:E2.
    + apply String.eqb_eq in E2. subst v. cbn. exact IH.
    + rewrite E2. exact IH.
Qed.

Lemma count_label_le (label : string) (trends : dict string) :
  (count_label label trends <= length trends)%nat.
Proof. unfold count_label. apply filter_length_le. Qed.

(** A value cannot carry both labels. *)
Lemma count_up_down (trends : dict string) :
  (count_label "UPTREND" trends + count_label "DOWNTREND" trends
   <= length trends)%nat.
Proof.
  unfold count_label.
  induction trends as [|[k v] r IH]; cbn [filter snd length]; [lia|].
  destruct (String.eqb v "UPTREND") eqn:E1.
  - apply String.eqb_eq in E1. subst v. cbn [String.eqb length]. cbn. lia.
  - destruct (String.eqb v "DOWNTREND"); cbn [length]; lia.
Qed.

(** ** Rounding *)

Lemma round_half_even_ge (x : Q) (m : Z) :
  inject_Z m <= x -> (m <= round_half_even x)%Z.
Proof.
  intro H. apply inject_Z_le_floor in H. unfold round_half_even.
  destruct (Qltb (x - inject_Z (Qfloor x)) (1 # 2)); [lia|].
  destruct (Qltb (1 # 2) (x - inject_Z (Qfloor x))); [lia|].
  destruct (Z.even (Qfloor x)); lia.
Qed.

Lemma round_half_even_le (x : Q) (m : Z) :
  x <= inject_Z m -> (round_half_even x <= m)%Z.
Proof.
  intro H. unfold round_half_even.
  pose proof (Qfloor_le x) as Hf.
  assert (Hfm : (Qfloor x <= m)%Z).
  { rewrite Zle_Qle. lra. }
  destruct (Qltb (x - inject_Z (Qfloor x)) (1 # 2)) eqn:E; [exact Hfm|].
  apply Qltb_false in E.
  assert (Hlt : (Qfloor x < m)%Z).
  { destruct (Z.eq_dec (Qfloor x) m) as [Heq|Hne]; [|lia].
    rewrite Heq in E. lra. }
  destruct (Qltb (1 # 2) (x - inject_Z (Qfloor x))); [lia|].
  destruct (Z.even (Qfloor x)); lia.
Qed.

Lemma py_round1_range (x : Q) (a b : Z) :
  inject_Z a <= x * 10 -> x * 10 <= inject_Z b ->
  inject_Z a <= py_round1 x * 10 /\ py_round1 x * 10 <= inject_Z b.
Proof.
  intros Ha Hb. unfold py_round1.
  apply round_half_even_ge in Ha. apply round_half_even_le in Hb.
  rewrite Zle_Qle in Ha, Hb.
  assert (E : inject_Z (round_half_even (x * 10)) / 10 * 10
              == inject_Z (round_half_even (x * 10))) by (field; discriminate).
  rewrite E. split; assumption.
Qed.

Lemma alignment_range (trends : dict string) :
  let up := count_label "UPTREND" trends in
  let down := count_label "DOWNTREND" trends in
  trends <> [] ->
  0 <= inject_Z (Z.of_nat (Nat.max up down))
       / inject_Z (Z.of_nat (length trends)) <= 1
  /\ (up = down ->
      inject_Z (Z.of_nat (Nat.max up down))
      / inject_Z (Z.of_nat (length trends)) <= 1 # 2).
Proof.
  cbv zeta. intro Hne.
  pose proof (count_up_down trends) as Hsum.
  pose proof (count_label_le "UPTREND" trends) as Hu.
  pose proof (count_label_le "DOWNTREND" trends) as Hd.
  set (up := count_label "UPTREND" trends) in *.
  set (down := count_label "DOWNTREND" trends) in *.
  assert (Hn : 0 < inject_Z (Z.of_nat (length trends))).
  { change 0 with (inject_Z 0). rewrite <- Zlt_Qlt.
    destruct trends; [contradiction|]. cbn [length]. lia. }
  assert (Hm0 : 0 <= inject_Z (Z.of_nat (Nat.max up down))).
  { change 0 with (inject_Z 0). rewrite <- Zle_Qle. lia. }
  assert (Hm1 : inject_Z (Z.of_nat (Nat.max up down))
                <= inject_Z (Z.of_nat (length trends))).
  { rewrite <- Zle_Qle. lia. }
  repeat split.
  - apply Qle_shift_div_l; [exact Hn|]. lra.
  - apply Qle_shift_div_r; [exact Hn|]. lra.
  - intro E. apply Qle_shift_div_r; [exact Hn|].
    assert (H2 : inject_Z (Z.of_nat (Nat.max up down)) * 2
                 <= inject_Z (Z.of_nat (length trends))).
    { change 2 with (inject_Z 2). rewrite <- inject_Z_mult, <- Zle_Qle. lia. }
    lra.
Qed.

End RecommendationFacts.

(** X25.  [calculate_stop_loss] returns 0.995 times support_1 when support_1
    is present and not zero, and 0.98 times the current price when support_1
    is missing, None or zero.  For a positive price and a support_1 that,
    when present, is non-negative and not above the price (as
    [detect_sr_levels] gives it), the stop is therefore non-negative and
    strictly below the price. *)
Theorem stop_loss_is_below_the_entry
        (current_price : Q) (sr_levels : Recommendation.dict (option Q)) :
  0 < current_price ->
  (forall s, Recommendation.dict_get "support_1" sr_levels = Some (Some s) ->
             0 <= s <= current_price) ->
  let stop := Recommendation.calculate_stop_loss current_price sr_levels in
  (forall s, Recommendation.dict_get "support_1" sr_levels = Some (Some s) ->
             ~ s == 0 -> stop = s * 0.995)
  /\ (Recommendation.dict_get "support_1" sr_levels = None
      \/ Recommendation.dict_get "support_1" sr_levels = Some None
      \/ (exists s, Recommendation.dict_get "support_1" sr_levels
                    = Some (Some s) /\ s == 0) ->
      stop = current_price * 0.98)
  /\ 0 <= stop /\ stop < current_price.
Proof.
  intros Hc Hs. cbv zeta. unfold Recommendation.calculate_stop_loss,
    Recommendation.present.
  destruct (Recommendation.dict_get "support_1" sr_levels) as [[s|]|].
  - specialize (Hs s eq_refl).
    destruct (Qeq_bool s 0) eqn:E.
    + split; [|split; [|split]]; try lra.
      * intros s' H N. injection H as <-. exfalso. apply N.
        now apply Qeq_bool_iff.
      * reflexivity.
    + assert (N : ~ s == 0).
      { intro C. apply Qeq_bool_iff in C. congruence. }
      split; [|split; [|split]]; try lra.
      * intros s' H _. now injection H as <-.
      * intros [H|[H|[s' [H C]]]]; try discriminate.
        injection H as <-. contradiction.
  - split; [|split; [|split]]; try lra.
    + intros s H. discriminate.
    + reflexivity.
  - split; [|split; [|split]]; try lra.
    + intros s H. discriminate.
    + reflexivity.
Qed.

(** X27.  [calculate_confidence] lies between 0 and 100, and it is at most
    50 whenever [determine_action] answers HOLD: as many UPTREND as
    DOWNTREND labels cannot align more than half of the timeframes. *)
Theorem confidence_is_a_percentage
        (trends : Recommendation.dict string)
        (sr_levels : Recommendation.dict (option Q)) (current_price : Q) :
  0 <= Recommendation.calculate_confidence trends <= 100
  /\ (Recommendation.determine_action trends sr_levels current_price = "HOLD"
      -> Recommendation.calculate_confidence trends <= 50).
Proof.
  unfold Recommendation.calculate_confidence,
    Recommendation.determine_action.
  destruct trends as [|kv r].
  - cbn. repeat split; try discriminate.
  - destruct (alignment_range (kv :: r)) as [[H0 H1] H2]; [discriminate|].
    set (up := Recommendation.count_label "UPTREND" (kv :: r)) in *.
    set (down := Recommendation.count_label "DOWNTREND" (kv :: r)) in *.
    set (al := inject_Z (Z.of_nat (Nat.max up down))
               / inject_Z (Z.of_nat (length (kv :: r)))) in *.
    clearbody al. split.
    + destruct (py_round1_range (al * 100) 0 1000) as [A B].
      * change (inject_Z 0) with 0. lra.
      * change (inject_Z 1000) with 1000. lra.
      * change (inject_Z 0) with 0 in A.
        change (inject_Z 1000) with 1000 in B. lra.
    + intro Hh.
      assert (E : up = down).
      { destruct (down <? up)%nat eqn:E1; [discriminate|].
        destruct (up <? down)%nat eqn:E2; [discriminate|].
        apply Nat.ltb_ge in E1, E2. lia. }
      specialize (H2 E).
      destruct (py_round1_range (al * 100) 0 500) as [_ B].
      * change (inject_Z 0) with 0. lra.
      * change (inject_Z 500) with 500. lra.
      * change (inject_Z 500) with 500 in B. lra.
Qed.

(** X28.  Exchanging UPTREND and DOWNTREND in every timeframe exchanges BUY
    and SELL in [determine_action], keeps HOLD, and leaves
    [calculate_confidence] unchanged.  [determine_action] ignores its
    sr_levels and current_price arguments: both facts hold whatever levels
    and price the two calls are given, and two calls on the same trends
    agree. *)
Theorem mirrored_trends_give_the_mirrored_action
        (trends : Recommendation.dict string)
        (sr_levels sr_levels' : Recommendation.dict (option Q))
        (current_price current_price' : Q) :
  Recommendation.determine_action (mirror_trends trends) sr_levels'
                                  current_price'
  = mirror_action
      (Recommendation.determine_action trends sr_levels current_price)
  /\ Recommendation.determine_action trends sr_levels' current_price'
     = Recommendation.determine_action trends sr_levels current_price
  /\ Recommendation.calculate_confidence (mirror_trends trends)
     = Recommendation.calculate_confidence trends.
Proof.
  unfold Recommendation.determine_action, Recommendation.calculate_confidence.
  rewrite count_label_mirror_up, count_label_mirror_down.
  split; [|split; [reflexivity|]].
  - destruct (Nat.lt_trichotomy
                (Recommendation.count_label "UPTREND" trends)
                (Recommendation.count_label "DOWNTREND" trends))
      as [H|[H|H]].
    + assert (A : (Recommendation.count_label "UPTREND" trends
                   <? Recommendation.count_label "DOWNTREND" trends)%nat
                  = true) by now apply Nat.ltb_lt.
      assert (B : (Recommendation.count_label "DOWNTREND" trends
                   <? Recommendation.count_label "UPTREND" trends)%nat
                  = false) by (apply Nat.ltb_ge; lia).
      rewrite A, B. reflexivity.
    + rewrite H, Nat.ltb_irrefl. reflexivity.
    + assert (A : (Recommendation.count_label "DOWNTREND" trends
                   <? Recommendation.count_label "UPTREND" trends)%nat
                  = true) by now apply Nat.ltb_lt.
      assert (B : (Recommendation.count_label "UPTREND" trends
                   <? Recommendation.count_label "DOWNTREND" trends)%nat
                  = false) by (apply Nat.ltb_ge; lia).
      rewrite A, B. reflexivity.
  - unfold mirror_trends at 2. rewrite length_map, Nat.max_comm.
    destruct trends; reflexivity.
Qed.

(** X26.  For a positive entry price, a support_1 not above it and
    resistance levels above it, every target [calculate_target] returns,
    whatever the target number, is strictly above the stop of
    [calculate_stop_loss] and above 99.5 percent of the entry price. *)
Theorem targets_are_above_the_stop_loss
        (current_price : Q) (sr_levels : Recommendation.dict (option Q))
        (target_num : Z) :
  0 < current_price ->
  (forall s, Recommendation.dict_get "support_1" sr_levels = Some (Some s) ->
             0 <= s <= current_price) ->
  (forall r, Recommendation.dict_get "resistance_1" sr_levels = Some (Some r)
             \/ Recommendation.dict_get "resistance_2" sr_levels
                = Some (Some r) ->
             current_price < r) ->
  Recommendation.calculate_stop_loss current_price sr_levels
  < Recommendation.calculate_target current_price sr_levels target_num
  /\ current_price * 0.995
     < Recommendation.calculate_target current_price sr_levels target_num.
Proof.
  intros Hc Hs Hr.
  assert (Hstop : Recommendation.calculate_stop_loss current_price sr_levels
                  <= current_price * 0.995).
  { unfold Recommendation.calculate_stop_loss, Recommendation.present.
    destruct (Recommendation.dict_get "support_1" sr_levels) as [[s|]|];
      try lra.
    specialize (Hs s eq_refl). destruct (Qeq_bool s 0); lra. }
  assert (Htarget : current_price * 0.995
                    < Recommendation.calculate_target current_price sr_levels
                                                      target_num).
  { unfold Recommendation.calculate_target, Recommendation.present.
    destruct (Recommendation.dict_get "resistance_1" sr_levels)
      as [[r1|]|] eqn:E1;
      destruct (Recommendation.dict_get "resistance_2" sr_levels)
        as [[r2|]|] eqn:E2;
      try (pose proof (Hr r1 (or_introl eq_refl)) as H1);
      try (pose proof (Hr r2 (or_intror eq_refl)) as H2);
      destruct (target_num =? 1)%Z; destruct (target_num =? 2)%Z;
      try destruct (Qeq_bool r1 0); try destruct (Qeq_bool r2 0); lra. }
  split; lra.
Qed.

(* ================================================================== *)
(** * Filling the missing trends of a price table *)

Section SortMaps.

Context {A B : Type} (f : A -> B) (leb : A -> A -> bool)
        (leb' : B -> B -> bool).
Hypothesis leb_f : forall a b, leb' (f a) (f b) = leb a b.

Lemma insert_map (x : A) (l : list A) :
  insert leb' (f x) (map f l) = map f (insert leb x l).
Proof.
  induction l as [|y r IH]; cbn [insert map]; [reflexivity|].
  rewrite leb_f. destruct (leb y x); cbn [map]; [now rewrite IH|reflexivity].
Qed.

Lemma fold_insert_map (l acc : list A) :
  fold_left (fun acc x => insert leb' x acc) (map f l) (map f acc)
  = map f (fold_left (fun acc x => insert leb x acc) l acc).
Proof.
  revert acc. induction l as [|x r IH]; intro acc; cbn [fold_left map];
    [reflexivity|].
  rewrite insert_map. apply IH.
Qed.

Lemma py_sorted_map (l : list A) :
  py_sorted leb' (map f l) = map f (py_sorted leb l).
Proof. unfold py_sorted. apply (fold_insert_map l []). Qed.

End SortMaps.

Lemma filter_map_same {A} (g : A -> A) (p : A -> bool) (l : list A) :
  (forall a, p (g a) = p a) -> filter p (map g l) = map g (filter p l).
Proof.
  intro H. induction l as [|a r IH]; cbn [map filter]; [reflexivity|].
  rewrite H. destruct (p a); cbn [map]; now rewrite IH.
Qed.

Section StoreFacts.

Import TrendStore.

Variables (sec : string) (interval : Z).

Lemma trend_only_fields (g : PriceRow -> PriceRow) (r : PriceRow) :
  trend_only g ->
  security_id (g r) = security_id r
  /\ interval_minutes (g r) = interval_minutes r
  /\ pr_datetime (g r) = pr_datetime r
  /\ bar_of (g r) = bar_of r.
Proof.
  intro H. specialize (H r "" 0).
  unfold with_trend in H. injection H as H1 H2 H3 H4 H5 H6 H7 H8.
  unfold bar_of. repeat split; congruence.
Qed.

Lemma trend_only_selected (g : PriceRow -> PriceRow) (r : PriceRow) :
  trend_only g -> selected sec interval (g r) = selected sec interval r.
Proof.
  intro H. destruct (trend_only_fields g r H) as (H1 & H2 & _).
  unfold selected. now rewrite H1, H2.
Qed.

Lemma context_rows_trend_only (g : PriceRow -> PriceRow) (target : Z)
                              (t : list PriceRow) :
  trend_only g ->
  context_rows sec interval target (map g t)
  = context_rows sec interval target t.
Proof.
  intro H. unfold context_rows.
  rewrite filter_map_same.
  2:{ intro a. rewrite (trend_only_selected g a H).
      destruct (trend_only_fields g a H) as (_ & _ & -> & _). reflexivity. }
  rewrite (py_sorted_map g
             (fun a b => (pr_datetime b <=? pr_datetime a)%Z)
             (fun a b => (pr_datetime b <=? pr_datetime a)%Z)).
  2:{ intros a b.
      destruct (trend_only_fields g a H) as (_ & _ & -> & _).
      destruct (trend_only_fields g b H) as (_ & _ & -> & _). reflexivity. }
  rewrite firstn_map, map_map. apply map_ext. intro a.
  now destruct (trend_only_fields g a H) as (_ & _ & _ & ->).
Qed.

Lemma trend_at_trend_only (g : PriceRow -> PriceRow) (target : Z)
                          (t : list PriceRow) :
  trend_only g ->
  trend_at sec interval (map g t) target = trend_at sec interval t target.
Proof.
  intro H. unfold trend_at. now rewrite context_rows_trend_only.
Qed.

(** The classifier is never the reason for a rollback: on 20 rows or
    more it returns. *)
Lemma computed_trend (t : list PriceRow) (target : Z) :
  (if (length (context_rows sec interval target t) <? 20)%nat
   then Ok ("NEUTRAL", 0)
   else fst (Trend.calculate_simple_trend
               (frame_of (context_rows sec interval target t))))
  = Ok (trend_at sec interval t target).
Proof.
  unfold trend_at.
  destruct (length (context_rows sec interval target t) <? 20)%nat eqn:E;
    [reflexivity|].
  apply Nat.ltb_ge in E.
  rewrite (calculate_simple_trend_long
             (frame_of (context_rows sec interval target t))).
  - reflexivity.
  - unfold len, frame_of, range_index. cbn [rows].
    rewrite length_map, py_sorted_length, length_combine, length_map,
      length_seq.
    now rewrite Nat.min_id.
Qed.

Lemma process_date_spec (g : PriceRow -> PriceRow) (t0 c : list PriceRow)
                        (count : nat) (target : Z) :
  trend_only g ->
  exists c',
    process_date sec interval (mkConnection c (map g t0)) count target
    = (mkConnection c'
         (map (fun r => if hit sec interval target r
                        then with_trend r
                               (fst (trend_at sec interval t0 target))
                               (snd (trend_at sec interval t0 target))
                        else g r) t0),
       Ok (count + length (filter (hit sec interval target) t0))%nat).
Proof.
  intro H. unfold process_date. cbn [pending committed].
  rewrite computed_trend, trend_at_trend_only by exact H.
  destruct (trend_at sec interval t0 target) as [trend strength].
  unfold set_trend. cbn [fst snd].
  assert (Hhit : forall r,
             hit sec interval target (g r) = hit sec interval target r).
  { intro r. unfold hit. rewrite (trend_only_selected g r H).
    destruct (trend_only_fields g r H) as (_ & _ & -> & _). reflexivity. }
  assert (Et : map (fun r => if selected sec interval r
                                && (pr_datetime r =? target)%Z
                             then with_trend r trend strength else r)
                   (map g t0)
               = map (fun r => if hit sec interval target r
                               then with_trend r trend strength else g r) t0).
  { rewrite map_map. apply map_ext. intro r.
    fold (hit sec interval target (g r)). rewrite Hhit.
    destruct (hit sec interval target r); [apply H|reflexivity]. }
  assert (En : length (filter (fun r => selected sec interval r
                                        && (pr_datetime r =? target)%Z)
                              (map g t0))
               = length (filter (hit sec interval target) t0)).
  { change (fun r => selected sec interval r && (pr_datetime r =? target)%Z)
      with (hit sec interval target).
    rewrite (filter_map_same g (hit sec interval target) t0 Hhit).
    apply length_map. }
  rewrite Et, En.
  destruct ((count + length (filter (hit sec interval target) t0)) mod 100
            =? 0)%nat;
    eexists; reflexivity.
Qed.

Lemma process_dates_spec (dates : list Z) (t0 : list PriceRow) :
  forall (g : PriceRow -> PriceRow) (c : list PriceRow) (count : nat),
    trend_only g ->
    exists c',
      process_dates sec interval dates (mkConnection c (map g t0)) count
      = (mkConnection c'
           (map (fun r => if selected sec interval r
                             && existsb (Z.eqb (pr_datetime r)) dates
                          then with_trend r
                                 (fst (trend_at sec interval t0
                                                (pr_datetime r)))
                                 (snd (trend_at sec interval t0
                                                (pr_datetime r)))
                          else g r) t0),
         Ok (count
             + list_sum (map (fun d => length (filter (hit sec interval d) t0))
                             dates))%nat).
Proof.
  induction dates as [|target rest IH]; intros g c count H.
  - exists c. cbn [process_dates existsb map list_sum].
    rewrite Nat.add_0_r. f_equal. f_equal. apply map_ext. intro r.
    now rewrite andb_false_r.
  - cbn [process_dates].
    destruct (process_date_spec g t0 c count target H) as [c1 E1].
    rewrite E1.
    set (g1 := fun r => if hit sec interval target r
                        then with_trend r
                               (fst (trend_at sec interval t0 target))
                               (snd (trend_at sec interval t0 target))
                        else g r).
    assert (H1 : trend_only g1).
    { intros r trend strength. unfold g1.
      destruct (hit sec interval target r); [reflexivity|apply H]. }
    destruct (IH g1 c1
                (count + length (filter (hit sec interval target) t0))%nat H1)
      as [c2 E2].
    rewrite E2. exists c2. f_equal.
    + f_equal. apply map_ext. intro r. cbn [existsb].
      destruct (selected sec interval r) eqn:Es; cbn [andb].
      * destruct (existsb (Z.eqb (pr_datetime r)) rest) eqn:Er.
        -- now rewrite orb_true_r.
        -- rewrite orb_false_r. unfold g1, hit. rewrite Es. cbn [andb].
           destruct (pr_datetime r =? target)%Z eqn:Ed; [|reflexivity].
           apply Z.eqb_eq in Ed. now rewrite Ed.
      * unfold g1, hit. rewrite Es. reflexivity.
    + cbn [map]. unfold list_sum. cbn [fold_right]. f_equal. lia.
Qed.

(** ** What the uniqueness of the key gives *)

Lemma unique_rows_same (t : list PriceRow) (r r' : PriceRow) :
  unique_rows t -> In r t -> In r' t -> row_key r = row_key r' -> r = r'.
Proof.
  unfold unique_rows. induction t as [|x l IH]; intros Hn Hr Hr' Hk;
    [contradiction|].
  cbn [map] in Hn. inversion Hn as [|? ? Hx Hl]; subst.
  destruct Hr as [<-|Hr], Hr' as [<-|Hr'].
  - reflexivity.
  - exfalso. apply Hx. rewrite Hk. now apply in_map.
  - exfalso. apply Hx. rewrite <- Hk. now apply in_map.
  - now apply IH.
Qed.

Lemma hit_key (target : Z) (r : PriceRow) :
  hit sec interval target r = true <-> row_key r = (sec, interval, target).
Proof.
  unfold hit, selected, row_key.
  rewrite !andb_true_iff, String.eqb_eq, !Z.eqb_eq. split.
  - intros [[-> ->] ->]. reflexivity.
  - intro H. injection H as -> -> ->. auto.
Qed.

Lemma unique_rows_hit_once (t : list PriceRow) (target : Z) :
  unique_rows t -> (length (filter (hit sec interval target) t) <= 1)%nat.
Proof.
  unfold unique_rows. induction t as [|x l IH]; intro Hn; cbn [filter];
    [cbn; lia|].
  cbn [map] in Hn. inversion Hn as [|? ? Hx Hl]; subst.
  specialize (IH Hl). destruct (hit sec interval target x) eqn:E; [|exact IH].
  cbn [length].
  destruct (filter (hit sec interval target) l) as [|y l'] eqn:Ef; [cbn; lia|].
  exfalso. apply Hx.
  assert (Hy : In y (filter (hit sec interval target) l))
    by (rewrite Ef; now left).
  apply filter_In in Hy as [Hy Hh].
  apply hit_key in E. apply hit_key in Hh. rewrite E, <- Hh.
  now apply in_map.
Qed.

Lemma missing_dates_In (t : list PriceRow) (d : Z) :
  In d (missing_dates sec interval t) <->
  exists r, In r t /\ lacks_trend sec interval r = true /\ pr_datetime r = d.
Proof.
  unfold missing_dates. rewrite in_map_iff. split.
  - intros [r [<- Hr]]. apply py_sorted_In, filter_In in Hr as [Hin Hl].
    exists r. repeat split; assumption.
  - intros [r (Hin & Hl & <-)]. exists r. split; [reflexivity|].
    apply py_sorted_In, filter_In. split; assumption.
Qed.

Lemma missing_dates_length (t : list PriceRow) :
  length (missing_dates sec interval t)
  = length (filter (lacks_trend sec interval) t).
Proof. unfold missing_dates. now rewrite length_map, py_sorted_length. Qed.

Lemma missing_dates_hit_once (t : list PriceRow) (d : Z) :
  unique_rows t -> In d (missing_dates sec interval t) ->
  length (filter (hit sec interval d) t) = 1%nat.
Proof.
  intros Hu Hd. pose proof (unique_rows_hit_once t d Hu) as Hle.
  apply missing_dates_In in Hd as [r (Hin & Hl & Hd)].
  assert (Hr : In r (filter (hit sec interval d) t)).
  { apply filter_In. split; [exact Hin|]. unfold hit.
    unfold lacks_trend in Hl. apply andb_true_iff in Hl as [-> _].
    cbn [andb]. now apply Z.eqb_eq. }
  destruct (filter (hit sec interval d) t); [contradiction|].
  cbn [length] in *. lia.
Qed.

Lemma list_sum_ones {A} (f : A -> nat) (l : list A) :
  (forall a, In a l -> f a = 1%nat) -> list_sum (map f l) = length l.
Proof.
  induction l as [|a r IH]; intro H; [reflexivity|].
  cbn [map length]. unfold list_sum in *. cbn [fold_right].
  rewrite (H a (or_introl eq_refl)), IH; [reflexivity|].
  intros b Hb. apply H. now right.
Qed.

Lemma existsb_dates (t : list PriceRow) (r : PriceRow) :
  unique_rows t -> In r t -> selected sec interval r = true ->
  existsb (Z.eqb (pr_datetime r)) (missing_dates sec interval t)
  = is_null (simple_trend r).
Proof.
  intros Hu Hin Hs.
  destruct (is_null (simple_trend r)) eqn:En.
  - apply existsb_exists. exists (pr_datetime r).
    split; [|apply Z.eqb_refl].
    apply missing_dates_In. exists r. repeat split; [assumption|].
    unfold lacks_trend. now rewrite Hs, En.
  - destruct (existsb (Z.eqb (pr_datetime r)) (missing_dates sec interval t))
      eqn:E; [|reflexivity].
    apply existsb_exists in E as [d [Hd Heq]]. apply Z.eqb_eq in Heq.
    apply missing_dates_In in Hd as [r' (Hin' & Hl & Hd)].
    unfold lacks_trend in Hl. apply andb_true_iff in Hl as [Hs' Hn'].
    assert (r = r').
    { apply (unique_rows_same t); try assumption.
      unfold selected in Hs, Hs'.
      apply andb_true_iff in Hs as [Ha Hb].
      apply andb_true_iff in Hs' as [Ha' Hb'].
      apply String.eqb_eq in Ha, Ha'. apply Z.eqb_eq in Hb, Hb'.
      unfold row_key. congruence. }
    subst r'. congruence.
Qed.

End StoreFacts.

(** X29.  On a table unique on (security_id, interval_minutes, datetime),
    [update_missing_trends] returns 0 and leaves the connection as it is
    when no row of the security and interval lacks a trend.  Otherwise it
    fills the two trend columns of exactly those rows, changes nothing else,
    commits, and returns the number of rows it filled; no such row lacks a
    trend afterwards.  A row gets NEUTRAL with strength 0 when fewer than 20
    rows of the security and interval are dated at or before it, and
    otherwise what [calculate_simple_trend] returns on the 50 latest of
    them, whatever trends were written earlier in the call. *)
Theorem update_missing_trends_fills_the_gaps
        (sec : string) (interval : Z) (conn : TrendStore.Connection) :
  unique_rows (TrendStore.pending conn) -> fills_the_gaps sec interval conn.
Proof.
  intros Hu. unfold fills_the_gaps.
  set (t := TrendStore.pending conn).
  set (missing := filter (lacks_trend sec interval) t).
  cbv zeta.
  assert (Hlen : length (TrendStore.missing_dates sec interval t)
                 = length missing) by apply missing_dates_length.
  split; [|split; [|split]].
  - intro Hm. unfold TrendStore.update_missing_trends. fold t.
    destruct (TrendStore.missing_dates sec interval t); [reflexivity|].
    rewrite Hm in Hlen. discriminate.
  - intro Hm. unfold TrendStore.update_missing_trends. fold t.
    destruct (TrendStore.missing_dates sec interval t) as [|d0 ds] eqn:Ed.
    { destruct missing; [contradiction|discriminate]. }
    rewrite <- Ed in *.
    destruct (process_dates_spec sec interval
                (TrendStore.missing_dates sec interval t) t
                (fun r => r) (TrendStore.committed conn) 0)
      as [c' E].
    { intros r trend strength. reflexivity. }
    rewrite map_id in E.
    replace (TrendStore.mkConnection (TrendStore.committed conn) t)
      with conn in E by (destruct conn; reflexivity).
    rewrite E. unfold TrendStore.commit. cbn [TrendStore.pending].
    rewrite list_sum_ones
      by (intros d Hd; now apply missing_dates_hit_once).
    rewrite Hlen. cbn [Nat.add].
    assert (Em : map (fun r =>
                        if TrendStore.selected sec interval r
                           && existsb (Z.eqb (TrendStore.pr_datetime r))
                                (TrendStore.missing_dates sec interval t)
                        then TrendStore.with_trend r
                               (fst (trend_at sec interval t
                                              (TrendStore.pr_datetime r)))
                               (snd (trend_at sec interval t
                                              (TrendStore.pr_datetime r)))
                        else r) t
                 = map (filled sec interval t) t).
    { apply map_ext_in. intros r Hr. unfold filled, lacks_trend.
      destruct (TrendStore.selected sec interval r) eqn:Es; cbn [andb];
        [|reflexivity].
      now rewrite (existsb_dates sec interval t r Hu Hr Es). }
    rewrite Em. reflexivity.
  - apply Forall_map. apply Forall_forall. intros r _.
    unfold filled. destruct (lacks_trend sec interval r) eqn:E; [|exact E].
    unfold lacks_trend. cbn. apply andb_false_r.
  - intros d rows ->. split.
    + intro H. unfold trend_at. apply Nat.ltb_lt in H. now rewrite H.
    + intro H. pose proof (computed_trend sec interval t d) as Hc.
      assert (Hb : (length (TrendStore.context_rows sec interval d t) <? 20)%nat
                   = false) by (apply Nat.ltb_ge; exact H).
      rewrite Hb in Hc. exact Hc.
Qed.

Lemma update_missing_trends_fills_the_gaps_witness :
  fills_the_gaps "15380" 15 three_rows.
Proof.
  apply (update_missing_trends_fills_the_gaps "15380" 15 three_rows).
  unfold unique_rows. cbn.
  repeat (constructor; [cbn; intuition discriminate|]). constructor.
Defined.

(* ================================================================== *)
(** * Filling the missing trends of the daily table *)

Section DailyStoreFacts.

Import DailyTrendStore.

Variable sec : string.

Lemma trend_only_fields_daily (g : DailyRow -> DailyRow) (r : DailyRow) :
  trend_only_daily g ->
  security_id (g r) = security_id r
  /\ dr_date (g r) = dr_date r
  /\ bar_of (g r) = bar_of r.
Proof.
  intro H. specialize (H r "" 0).
  unfold with_trend in H. injection H as H1 H2 H3 H4 H5 H6 H7.
  unfold bar_of. repeat split; congruence.
Qed.

Lemma trend_only_selected_daily (g : DailyRow -> DailyRow) (r : DailyRow) :
  trend_only_daily g -> selected sec (g r) = selected sec r.
Proof.
  intro H. destruct (trend_only_fields_daily g r H) as (H1 & _).
  unfold selected. now rewrite H1.
Qed.

Lemma context_rows_trend_only_daily (g : DailyRow -> DailyRow) (target : Z)
                              (t : list DailyRow) :
  trend_only_daily g ->
  context_rows sec target (map g t)
  = context_rows sec target t.
Proof.
  intro H. unfold context_rows.
  rewrite filter_map_same.
  2:{ intro a. rewrite (trend_only_selected_daily g a H).
      destruct (trend_only_fields_daily g a H) as (_ & -> & _). reflexivity. }
  rewrite (py_sorted_map g
             (fun a b => (dr_date b <=? dr_date a)%Z)
             (fun a b => (dr_date b <=? dr_date a)%Z)).
  2:{ intros a b.
      destruct (trend_only_fields_daily g a H) as (_ & -> & _).
      destruct (trend_only_fields_daily g b H) as (_ & -> & _). reflexivity. }
  rewrite firstn_map, map_map. apply map_ext. intro a.
  now destruct (trend_only_fields_daily g a H) as (_ & _ & ->).
Qed.

Lemma daily_trend_at_trend_only (g : DailyRow -> DailyRow) (target : Z)
                          (t : list DailyRow) :
  trend_only_daily g ->
  daily_trend_at sec (map g t) target = daily_trend_at sec t target.
Proof.
  intro H. unfold daily_trend_at. now rewrite context_rows_trend_only_daily.
Qed.

(** The classifier is never the reason for a rollback: on 20 rows or
    more it returns. *)
Lemma computed_trend_daily (t : list DailyRow) (target : Z) :
  (if (length (context_rows sec target t) <? 20)%nat
   then Ok ("NEUTRAL", 0)
   else fst (Trend.calculate_simple_trend
               (frame_of (context_rows sec target t))))
  = Ok (daily_trend_at sec t target).
Proof.
  unfold daily_trend_at.
  destruct (length (context_rows sec target t) <? 20)%nat eqn:E;
    [reflexivity|].
  apply Nat.ltb_ge in E.
  rewrite (calculate_simple_trend_long
             (frame_of (context_rows sec target t))).
  - reflexivity.
  - unfold len, frame_of, range_index. cbn [rows].
    rewrite length_map, py_sorted_length, length_combine, length_map,
      length_seq.
    now rewrite Nat.min_id.
Qed.

Lemma process_date_spec_daily (g : DailyRow -> DailyRow) (t0 c : list DailyRow)
                        (count : nat) (target : Z) :
  trend_only_daily g ->
  exists c',
    process_date sec (mkConnection c (map g t0)) count target
    = (mkConnection c'
         (map (fun r => if hit_daily sec target r
                        then with_trend r
                               (fst (daily_trend_at sec t0 target))
                               (snd (daily_trend_at sec t0 target))
                        else g r) t0),
       Ok (count + length (filter (hit_daily sec target) t0))%nat).
Proof.
  intro H. unfold process_date. cbn [pending committed].
  rewrite computed_trend_daily, daily_trend_at_trend_only by exact H.
  destruct (daily_trend_at sec t0 target) as [trend strength].
  unfold set_trend. cbn [fst snd].
  assert (Hhit : forall r, hit_daily sec target (g r) = hit_daily sec target r).
  { intro r. unfold hit_daily. rewrite (trend_only_selected_daily g r H).
    destruct (trend_only_fields_daily g r H) as (_ & -> & _). reflexivity. }
  assert (Et : map (fun r => if selected sec r
                                && (dr_date r =? target)%Z
                             then with_trend r trend strength else r)
                   (map g t0)
               = map (fun r => if hit_daily sec target r
                               then with_trend r trend strength else g r) t0).
  { rewrite map_map. apply map_ext. intro r.
    fold (hit_daily sec target (g r)). rewrite Hhit.
    destruct (hit_daily sec target r); [apply H|reflexivity]. }
  assert (En : length (filter (fun r => selected sec r
                                        && (dr_date r =? target)%Z)
                              (map g t0))
               = length (filter (hit_daily sec target) t0)).
  { change (fun r => selected sec r && (dr_date r =? target)%Z)
      with (hit_daily sec target).
    rewrite (filter_map_same g (hit_daily sec target) t0 Hhit).
    apply length_map. }
  rewrite Et, En.
  eexists; reflexivity.
Qed.

Lemma process_dates_spec_daily (dates : list Z) (t0 : list DailyRow) :
  forall (g : DailyRow -> DailyRow) (c : list DailyRow) (count : nat),
    trend_only_daily g ->
    exists c',
      process_dates sec dates (mkConnection c (map g t0)) count
      = (mkConnection c'
           (map (fun r => if selected sec r
                             && existsb (Z.eqb (dr_date r)) dates
                          then with_trend r
                                 (fst (daily_trend_at sec t0
                                                (dr_date r)))
                                 (snd (daily_trend_at sec t0
                                                (dr_date r)))
                          else g r) t0),
         Ok (count
             + list_sum (map (fun d => length (filter (hit_daily sec d) t0))
                             dates))%nat).
Proof.
  induction dates as [|target rest IH]; intros g c count H.
  - exists c. cbn [process_dates existsb map list_sum].
    rewrite Nat.add_0_r. f_equal. f_equal. apply map_ext. intro r.
    now rewrite andb_false_r.
  - cbn [process_dates].
    destruct (process_date_spec_daily g t0 c count target H) as [c1 E1].
    rewrite E1.
    set (g1 := fun r => if hit_daily sec target r
                        then with_trend r
                               (fst (daily_trend_at sec t0 target))
                               (snd (daily_trend_at sec t0 target))
                        else g r).
    assert (H1 : trend_only_daily g1).
    { intros r trend strength. unfold g1.
      destruct (hit_daily sec target r); [reflexivity|apply H]. }
    destruct (IH g1 c1
                (count + length (filter (hit_daily sec target) t0))%nat H1)
      as [c2 E2].
    rewrite E2. exists c2. f_equal.
    + f_equal. apply map_ext. intro r. cbn [existsb].
      destruct (selected sec r) eqn:Es; cbn [andb].
      * destruct (existsb (Z.eqb (dr_date r)) rest) eqn:Er.
        -- now rewrite orb_true_r.
        -- rewrite orb_false_r. unfold g1, hit_daily. rewrite Es. cbn [andb].
           destruct (dr_date r =? target)%Z eqn:Ed; [|reflexivity].
           apply Z.eqb_eq in Ed. now rewrite Ed.
      * unfold g1, hit_daily. rewrite Es. reflexivity.
    + cbn [map]. unfold list_sum. cbn [fold_right]. f_equal. lia.
Qed.

(** ** What the uniqueness of the key gives *)

Lemma unique_days_same_daily (t : list DailyRow) (r r' : DailyRow) :
  unique_days t -> In r t -> In r' t -> day_key r = day_key r' -> r = r'.
Proof.
  unfold unique_days. induction t as [|x l IH]; intros Hn Hr Hr' Hk;
    [contradiction|].
  cbn [map] in Hn. inversion Hn as [|? ? Hx Hl]; subst.
  destruct Hr as [<-|Hr], Hr' as [<-|Hr'].
  - reflexivity.
  - exfalso. apply Hx. rewrite Hk. now apply in_map.
  - exfalso. apply Hx. rewrite <- Hk. now apply in_map.
  - now apply IH.
Qed.

Lemma hit_key_daily (target : Z) (r : DailyRow) :
  hit_daily sec target r = true <-> day_key r = (sec, target).
Proof.
  unfold hit_daily, selected, day_key.
  rewrite !andb_true_iff, String.eqb_eq, !Z.eqb_eq. split.
  - intros [-> ->]. reflexivity.
  - intro H. injection H as -> ->. auto.
Qed.

Lemma unique_days_hit_once_daily (t : list DailyRow) (target : Z) :
  unique_days t -> (length (filter (hit_daily sec target) t) <= 1)%nat.
Proof.
  unfold unique_days. induction t as [|x l IH]; intro Hn; cbn [filter];
    [cbn; lia|].
  cbn [map] in Hn. inversion Hn as [|? ? Hx Hl]; subst.
  specialize (IH Hl). destruct (hit_daily sec target x) eqn:E; [|exact IH].
  cbn [length].
  destruct (filter (hit_daily sec target) l) as [|y l'] eqn:Ef; [cbn; lia|].
  exfalso. apply Hx.
  assert (Hy : In y (filter (hit_daily sec target) l))
    by (rewrite Ef; now left).
  apply filter_In in Hy as [Hy Hh].
  apply hit_key_daily in E. apply hit_key_daily in Hh. rewrite E, <- Hh.
  now apply in_map.
Qed.

Lemma missing_dates_In_daily (t : list DailyRow) (d : Z) :
  In d (missing_dates sec t) <->
  exists r, In r t /\ lacks_daily_trend sec r = true /\ dr_date r = d.
Proof.
  unfold missing_dates. rewrite in_map_iff. split.
  - intros [r [<- Hr]]. apply py_sorted_In, filter_In in Hr as [Hin Hl].
    exists r. repeat split; assumption.
  - intros [r (Hin & Hl & <-)]. exists r. split; [reflexivity|].
    apply py_sorted_In, filter_In. split; assumption.
Qed.

Lemma missing_dates_length_daily (t : list DailyRow) :
  length (missing_dates sec t)
  = length (filter (lacks_daily_trend sec) t).
Proof. unfold missing_dates. now rewrite length_map, py_sorted_length. Qed.

Lemma missing_dates_hit_once_daily (t : list DailyRow) (d : Z) :
  unique_days t -> In d (missing_dates sec t) ->
  length (filter (hit_daily sec d) t) = 1%nat.
Proof.
  intros Hu Hd. pose proof (unique_days_hit_once_daily t d Hu) as Hle.
  apply missing_dates_In_daily in Hd as [r (Hin & Hl & Hd)].
  assert (Hr : In r (filter (hit_daily sec d) t)).
  { apply filter_In. split; [exact Hin|]. unfold hit_daily.
    unfold lacks_daily_trend in Hl. apply andb_true_iff in Hl as [-> _].
    cbn [andb]. now apply Z.eqb_eq. }
  destruct (filter (hit_daily sec d) t); [contradiction|].
  cbn [length] in *. lia.
Qed.

Lemma existsb_dates_daily (t : list DailyRow) (r : DailyRow) :
  unique_days t -> In r t -> selected sec r = true ->
  existsb (Z.eqb (dr_date r)) (missing_dates sec t)
  = is_null (simple_trend r).
Proof.
  intros Hu Hin Hs.
  destruct (is_null (simple_trend r)) eqn:En.
  - apply existsb_exists. exists (dr_date r).
    split; [|apply Z.eqb_refl].
    apply missing_dates_In_daily. exists r. repeat split; [assumption|].
    unfold lacks_daily_trend. now rewrite Hs, En.
  - destruct (existsb (Z.eqb (dr_date r)) (missing_dates sec t))
      eqn:E; [|reflexivity].
    apply existsb_exists in E as [d [Hd Heq]]. apply Z.eqb_eq in Heq.
    apply missing_dates_In_daily in Hd as [r' (Hin' & Hl & Hd)].
    unfold lacks_daily_trend in Hl. apply andb_true_iff in Hl as [Hs' Hn'].
    assert (r = r').
    { apply (unique_days_same_daily t); try assumption.
      unfold selected in Hs, Hs'. apply String.eqb_eq in Hs, Hs'.
      unfold day_key. congruence. }
    subst r'. congruence.
Qed.

End DailyStoreFacts.

(** X30.  On a daily table unique on (security_id, date),
    [update_missing_daily_trends] returns 0 and leaves the connection as it
    is when no row of the security lacks a trend.  Otherwise it fills the
    two trend columns of exactly those rows, changes nothing else, commits
    once at the end, and returns the number of rows it filled.  A row gets
    NEUTRAL with strength 0 when fewer than 20 rows of the security are
    dated at or before it, and otherwise what [calculate_simple_trend]
    returns on the 50 latest of them. *)
Theorem update_missing_daily_trends_fills_the_gaps
        (sec : string) (conn : DailyTrendStore.Connection) :
  unique_days (DailyTrendStore.pending conn) -> fills_the_daily_gaps sec conn.
Proof.
  intros Hu. unfold fills_the_daily_gaps.
  set (t := DailyTrendStore.pending conn).
  set (missing := filter (lacks_daily_trend sec) t).
  cbv zeta.
  assert (Hlen : length (DailyTrendStore.missing_dates sec t)
                 = length missing) by apply missing_dates_length_daily.
  split; [|split; [|split]].
  - intro Hm. unfold DailyTrendStore.update_missing_daily_trends. fold t.
    destruct (DailyTrendStore.missing_dates sec t); [reflexivity|].
    rewrite Hm in Hlen. discriminate.
  - intro Hm. unfold DailyTrendStore.update_missing_daily_trends. fold t.
    destruct (DailyTrendStore.missing_dates sec t) as [|d0 ds] eqn:Ed.
    { destruct missing; [contradiction|discriminate]. }
    rewrite <- Ed in *.
    destruct (process_dates_spec_daily sec
                (DailyTrendStore.missing_dates sec t) t
                (fun r => r) (DailyTrendStore.committed conn) 0)
      as [c' E].
    { intros r trend strength. reflexivity. }
    rewrite map_id in E.
    replace (DailyTrendStore.mkConnection (DailyTrendStore.committed conn) t)
      with conn in E by (destruct conn; reflexivity).
    rewrite E. unfold DailyTrendStore.commit. cbn [DailyTrendStore.pending].
    rewrite list_sum_ones
      by (intros d Hd; now apply missing_dates_hit_once_daily).
    rewrite Hlen. cbn [Nat.add].
    assert (Em : map (fun r =>
                        if DailyTrendStore.selected sec r
                           && existsb (Z.eqb (DailyTrendStore.dr_date r))
                                (DailyTrendStore.missing_dates sec t)
                        then DailyTrendStore.with_trend r
                               (fst (daily_trend_at sec t
                                              (DailyTrendStore.dr_date r)))
                               (snd (daily_trend_at sec t
                                              (DailyTrendStore.dr_date r)))
                        else r) t
                 = map (daily_filled sec t) t).
    { apply map_ext_in. intros r Hr. unfold daily_filled, lacks_daily_trend.
      destruct (DailyTrendStore.selected sec r) eqn:Es; cbn [andb];
        [|reflexivity].
      now rewrite (existsb_dates_daily sec t r Hu Hr Es). }
    rewrite Em. reflexivity.
  - apply Forall_map. apply Forall_forall. intros r _.
    unfold daily_filled. destruct (lacks_daily_trend sec r) eqn:E; [|exact E].
    unfold lacks_daily_trend. cbn. apply andb_false_r.
  - intros d rows ->. split.
    + intro H. unfold daily_trend_at. apply Nat.ltb_lt in H. now rewrite H.
    + intro H. pose proof (computed_trend_daily sec t d) as Hc.
      assert (Hb : (length (DailyTrendStore.context_rows sec d t) <? 20)%nat
                   = false) by (apply Nat.ltb_ge; exact H).
      rewrite Hb in Hc. exact Hc.
Qed.

Lemma update_missing_daily_trends_fills_the_gaps_witness :
  fills_the_daily_gaps "15380" three_days.
Proof.
  apply (update_missing_daily_trends_fills_the_gaps "15380" three_days).
  unfold unique_days. cbn.
  repeat (constructor; [cbn; intuition discriminate|]). constructor.
Defined.

(* ================================================================== *)
(** * Instances of the further properties *)

Ltac step_sorted :=
  repeat (first [ apply SSorted_nil | apply SSorted_cons
                | apply Forall_nil | apply Forall_cons | reflexivity ]).

Lemma label_depends_on_ema_8_and_ema_20_witness :
  let c := column close Examples.rising20 in
  let close_ := last_of c in
  let ema_3 := last_of (Trend.ewm_mean 3 c) in
  let ema_8 := last_of (Trend.ewm_mean 8 c) in
  let ema_20 := last_of (Trend.ewm_mean 20 c) in
  let label := label_by_ema_8_20 close_ ema_8 ema_20 in
  let full := full_strength label close_ ema_20 in
  fst (Trend.calculate_simple_trend Examples.rising20)
  = Ok (label,
        py_min (if strong_move close_ ema_3 ema_8 ema_20 (change4 c)
                   || String.eqb label "SIDEWAYS"
                then full else full * 0.7) 100.0).
Proof.
  apply (label_depends_on_ema_8_and_ema_20 Examples.rising20).
  apply Nat.leb_le. reflexivity.
Defined.

Lemma flat_closes_are_sideways_witness :
  exists strength,
    fst (Trend.calculate_simple_trend (Examples.flat_frame 20 100))
    = Ok ("SIDEWAYS", strength)
    /\ strength == 0.
Proof.
  apply (flat_closes_are_sideways (Examples.flat_frame 20 100) 100).
  - apply Nat.leb_le. reflexivity.
  - discriminate.
  - vm_compute. step_sorted.
Defined.

Lemma rising_closes_are_an_uptrend_witness :
  exists strength,
    fst (Trend.calculate_simple_trend Examples.rising20)
    = Ok ("UPTREND", strength)
    /\ 0 < strength /\ strength <= 100.
Proof.
  apply (rising_closes_are_an_uptrend Examples.rising20).
  - apply Nat.leb_le. reflexivity.
  - vm_compute. step_sorted.
  - vm_compute. step_sorted.
Defined.

Lemma falling_closes_are_a_downtrend_witness :
  exists strength,
    fst (Trend.calculate_simple_trend falling20)
    = Ok ("DOWNTREND", strength)
    /\ 0 < strength /\ strength <= 100.
Proof.
  apply (falling_closes_are_a_downtrend falling20).
  - apply Nat.leb_le. reflexivity.
  - vm_compute. step_sorted.
  - vm_compute. step_sorted.
Defined.

Lemma ema_columns_stay_within_the_closes_witness :
  exists e,
    get_column "ema_8"
      (computed (snd (Trend.calculate_simple_trend Examples.rising20)))
    = Some e
    /\ length e = len Examples.rising20
    /\ Forall (fun y => 1 <= y <= 20) e.
Proof.
  apply (ema_columns_stay_within_the_closes Examples.rising20 1 20 "ema_8").
  - apply Nat.leb_le. reflexivity.
  - right. left. reflexivity.
  - vm_compute. repeat (constructor; [split; discriminate|]). constructor.
Defined.

Lemma atr_is_defined_and_non_negative_witness :
  length (SR.calculate_atr 14 Examples.two_peaks) = len Examples.two_peaks /\
  ((S 99 < 14)%nat ->
   nth_error (SR.calculate_atr 14 Examples.two_peaks) 99 = Some None) /\
  ((14 <= S 99)%nat ->
   exists atr,
     nth_error (SR.calculate_atr 14 Examples.two_peaks) 99 = Some (Some atr) /\
     ((14 <= 99)%nat
      \/ Forall (fun b => low b <= high b) (rows Examples.two_peaks) ->
      0 <= atr)).
Proof.
  apply (atr_is_defined_and_non_negative 14 Examples.two_peaks 99).
  - lia.
  - apply Nat.ltb_lt. reflexivity.
Defined.

Lemma no_round_number_in_range_is_missed_witness :
  In 100%Z (SR.find_round_numbers SR.default_detector (95, 210)).
Proof.
  apply (no_round_number_in_range_is_missed SR.default_detector 95 210 100).
  - reflexivity.
  - discriminate.
  - discriminate.
  - exists 2%Z. reflexivity.
Defined.

Lemma levels_within_one_threshold_form_one_cluster_witness :
  exists c,
    SR.cluster_levels SR.default_detector two_swings 2 = [c]
    /\ SR.cl_touches c = length two_swings
    /\ SR.cl_price c == np_mean (map SR.sp_price two_swings).
Proof.
  apply (levels_within_one_threshold_form_one_cluster
           SR.default_detector two_swings 2).
  - discriminate.
  - intros u v [<-|[<-|[]]] [<-|[<-|[]]]; discriminate.
Defined.

Lemma wider_band_never_loses_touches_witness :
  (SR.count_touches SR.default_detector (Examples.flat_frame 1 100) 101 1
   <= SR.count_touches SR.default_detector (Examples.flat_frame 1 100) 101 4)%nat.
Proof.
  apply (wider_band_never_loses_touches SR.default_detector
           (Examples.flat_frame 1 100) 101 1 4); discriminate.
Defined.

Lemma trend_does_not_depend_on_the_price_unit_witness :
  exists label strength1 strength2,
    fst (Trend.calculate_simple_trend Examples.rising20)
    = Ok (label, strength1)
    /\ fst (Trend.calculate_simple_trend rising20_doubled)
       = Ok (label, strength2)
    /\ strength2 == strength1.
Proof.
  apply (trend_does_not_depend_on_the_price_unit
           Examples.rising20 rising20_doubled 2).
  - reflexivity.
  - apply Nat.leb_le. reflexivity.
  - vm_compute. step_sorted.
  - vm_compute. repeat (constructor; [reflexivity|]). constructor.
Defined.

Lemma higher_limits_only_append_witness :
  exists support resistance more_support more_resistance,
    fst (SR.detect_sr_levels Examples.no_std SR.default_detector 1 1
                             Examples.two_peaks)
    = Ok (support, resistance)
    /\ fst (SR.detect_sr_levels Examples.no_std SR.default_detector 3 3
                                Examples.two_peaks)
       = Ok (support ++ more_support, resistance ++ more_resistance).
Proof.
  apply (higher_limits_only_append Examples.no_std SR.default_detector
           1 3 1 3 Examples.two_peaks); lia.
Defined.

Lemma summary_of_a_short_frame_witness :
  (rows (Examples.flat_frame 5 100) = [] ->
   Summary.get_sr_summary Examples.no_std no_format SR.default_detector
                          (Examples.flat_frame 5 100)
   = (Summary.Raises IndexError, Examples.flat_frame 5 100))
  /\ (forall last_row,
        iloc_last (rows (Examples.flat_frame 5 100)) = Ok last_row ->
        Summary.get_sr_summary Examples.no_std no_format SR.default_detector
                               (Examples.flat_frame 5 100)
        = (Summary.Returns (Summary.mkSummary (close last_row) [] []),
           Examples.flat_frame 5 100))
  /\ ((1 <= len (Examples.flat_frame 5 100))%nat ->
      exists last_row,
        iloc_last (rows (Examples.flat_frame 5 100)) = Ok last_row).
Proof.
  apply (summary_of_a_short_frame Examples.no_std no_format
           SR.default_detector (Examples.flat_frame 5 100)).
  apply Nat.ltb_lt. reflexivity.
Defined.

Lemma summary_of_a_valid_series_witness :
  exists support resistance last_row summary,
    fst (SR.detect_sr_levels Examples.no_std SR.default_detector 3 3
                             Examples.two_peaks)
    = Ok (support, resistance)
    /\ iloc_last (rows Examples.two_peaks) = Ok last_row
    /\ Summary.get_sr_summary Examples.no_std no_format SR.default_detector
                              Examples.two_peaks
       = (Summary.Returns summary, Examples.two_peaks)
    /\ Summary.current_price summary = close last_row
    /\ map Summary.e_price (Summary.support_levels summary)
       = map SR.price support
    /\ map Summary.e_touches (Summary.support_levels summary)
       = map SR.touches support
    /\ map Summary.e_round (Summary.support_levels summary)
       = map SR.is_round_number support
    /\ map Summary.e_price (Summary.resistance_levels summary)
       = map SR.price resistance
    /\ map Summary.e_touches (Summary.resistance_levels summary)
       = map SR.touches resistance
    /\ map Summary.e_round (Summary.resistance_levels summary)
       = map SR.is_round_number resistance.
Proof.
  apply (summary_of_a_valid_series Examples.no_std no_format
           SR.default_detector Examples.two_peaks).
  - vm_compute. reflexivity.
  - apply Nat.leb_le. reflexivity.
Defined.

Lemma stop_loss_is_below_the_entry_witness :
  let stop := Recommendation.calculate_stop_loss 100 levels_around_100 in
  (forall s, Recommendation.dict_get "support_1" levels_around_100
             = Some (Some s) ->
             ~ s == 0 -> stop = s * 0.995)
  /\ (Recommendation.dict_get "support_1" levels_around_100 = None
      \/ Recommendation.dict_get "support_1" levels_around_100 = Some None
      \/ (exists s, Recommendation.dict_get "support_1" levels_around_100
                    = Some (Some s) /\ s == 0) ->
      stop = 100 * 0.98)
  /\ 0 <= stop /\ stop < 100.
Proof.
  apply (stop_loss_is_below_the_entry 100 levels_around_100).
  - reflexivity.
  - intros s H. vm_compute in H. injection H as <-. split; discriminate.
Defined.

Lemma targets_are_above_the_stop_loss_witness :
  Recommendation.calculate_stop_loss 100 levels_around_100
  < Recommendation.calculate_target 100 levels_around_100 1
  /\ 100 * 0.995 < Recommendation.calculate_target 100 levels_around_100 1.
Proof.
  apply (targets_are_above_the_stop_loss 100 levels_around_100 1).
  - reflexivity.
  - intros s H. vm_compute in H. injection H as <-. split; discriminate.
  - intros r [H|H]; vm_compute in H; [|discriminate].
    injection H as <-. reflexivity.
Defined.

Lemma clustering_threshold_is_non_negative_witness :
  exists atr,
    SR.atr_or_std Examples.no_std Examples.two_peaks = Ok atr
    /\ 0 <= atr
    /\ 0 <= atr * SR.cluster_threshold_atr SR.default_detector.
Proof.
  apply (clustering_threshold_is_non_negative Examples.no_std
           SR.default_detector Examples.two_peaks).
  - apply Nat.leb_le. reflexivity.
  - discriminate.
Defined.
